(** * agentic-engine: the scaffolder and the structure validator it emits

    A shallow embedding of [src/index.js] (the interactive scaffolder), of
    [src/templates.js] (the template catalog) and of the structure validator
    that the catalog emits as [scripts/validate-structure.{ts,js}].

    Layout of the development:
    - the project configuration and the template catalog (the templates are
      the source's template literals, byte for byte, with the JavaScript
      escapes resolved);
    - a model of the parts of Node the program calls: [path.join], the
      synchronous [fs] calls over a map from resolved paths to nodes, the
      prompt group of the questionnaire and the process exit code;
    - [main] of the scaffolder and the [StructureValidator] class;
    - the theorems about them.

    What the model fixes about the environment:
    - paths are POSIX paths; there are no symbolic links and no permissions,
      so a call fails only for the kind of node it finds.  A path is
      resolved lexically against the working directory; that is where the
      file system leads unless a [..] steps back from an entry that is
      missing or is no directory.  [join] resolves the [..] segments of the
      paths it builds, and the statements that depend on the way the project
      path is walked as the user typed it take a path without [..];
    - strings are the UTF-8 bytes of the JavaScript strings; files hold
      bytes, and reading a file decodes them;
    - the clock stands still during one run.  A file carries the time at
      which it was last written, a directory the time at which it was made:
      the change that making an entry brings to the time of its directory
      is not followed, and no statement is about the time of a directory
      that a run makes entries in;
    - [readdirSync] lists a directory in the order of the map that holds the
      tree;
    - the terminal has colours off, so the colour functions of [picocolors]
      are the identity, and the prompts of [@clack/prompts] are seen through
      what the user does at each of them; the spinner is seen through its
      messages, and it keeps the process alive from [start] to [stop]. *)

From stdpp Require Import gmap strings list fin_maps pretty.
From Stdlib Require Import ZArith Ascii.

(** ** Project configuration *)

Inductive ProjectType := fullstack | backend | frontend.
Inductive ValidationLanguage := typescript | javascript.

#[global] Instance ProjectType_eq_dec : EqDecision ProjectType.
Proof. solve_decision. Defined.
#[global] Instance ValidationLanguage_eq_dec : EqDecision ValidationLanguage.
Proof. solve_decision. Defined.

(** The double quote character, for the templates that contain it. *)
Definition dq : string := String (Ascii.ascii_of_nat 34) EmptyString.

(** ** The template catalog ([templates.js]) *)

Definition getAgentsTemplate (projectType : ProjectType) : string :=
"# Agent Development Guide

**This file serves as the table of contents for agent development in this repository.**

Humans steer. Agents execute.

## Quick Reference

- **Architecture:** See [ARCHITECTURE.md](./ARCHITECTURE.md)
- **Design Principles:** See [DESIGN.md](./DESIGN.md)
- **Security:** See [SECURITY.md](./SECURITY.md)
- **Quality Standards:** See [QUALITY_SCORE.md](./QUALITY_SCORE.md)
- **Reliability:** See [RELIABILITY.md](./RELIABILITY.md)
- **Product Sense:** See [PRODUCT_SENSE.md](./PRODUCT_SENSE.md)
- **Planning:** See [PLANS.md](./PLANS.md)
" +:+
(if bool_decide (projectType = fullstack) || bool_decide (projectType = frontend)
 then "- **Frontend:** See [FRONTEND.md](./FRONTEND.md)
" else "") +:+
"

## Documentation Structure

### Design Documents
Location: `docs/design-docs/`

All design decisions and architectural choices are documented here. Before implementing features:
1. Check for existing design docs
2. Create new design docs for significant changes
3. Link to relevant designs in your PRs

See: [docs/design-docs/index.md](./docs/design-docs/index.md)

### Execution Plans
Location: `docs/exec-plans/`

Complex work is broken down into execution plans:
- **Active plans:** `docs/exec-plans/active/`
- **Completed plans:** `docs/exec-plans/completed/`
- **Tech debt tracker:** `docs/exec-plans/tech-debt-tracker.md`

See: [PLANS.md](./PLANS.md) for planning guidelines.

### Product Specifications
Location: `docs/product-specs/`

Product requirements and feature specifications live here. Before building:
1. Review relevant product specs
2. Ask clarifying questions if specs are incomplete
3. Update specs based on implementation learnings

See: [docs/product-specs/index.md](./docs/product-specs/index.md)

### Reference Documentation
Location: `docs/references/`

External library documentation optimized for LLM consumption. When integrating new libraries:
1. Extract key documentation
2. Format for agent readability
3. Store in `docs/references/[library-name]-llms.txt`

### Generated Documentation
Location: `docs/generated/`

Auto-generated documentation (schemas, API docs, etc.). This directory is maintained by automation.

## Core Principles

1. **Repository is the source of truth** - If it's not in the repo, it doesn't exist to agents
2. **Progressive disclosure** - Start with this file, navigate to deeper sources
3. **Enforce mechanically** - Use linters and tests, not manual review
4. **Agent legibility first** - Optimize for agent reasoning, not just human readability
5. **Continuous cleanup** - Fix patterns as soon as they drift, don't let debt compound

## Workflow

1. **Context gathering:** Read relevant docs before coding
2. **Plan:** Create execution plans for complex work
3. **Implement:** Follow architectural constraints and quality standards
4. **Validate:** Run tests, linters, and validation scripts
5. **Review:** Get agent and human feedback
6. **Iterate:** Respond to feedback, fix issues
7. **Document:** Update design docs and specs based on learnings

## Validation

Before opening PRs, ensure:
- [ ] All tests pass
- [ ] Linters pass
- [ ] Documentation is updated
- [ ] Architectural constraints are satisfied
- [ ] Security guidelines are followed

Run validation: `npm run validate` or `node scripts/validate-structure.js`

## Getting Help

When stuck:
1. Check [docs/design-docs/core-beliefs.md](./docs/design-docs/core-beliefs.md)
2. Review similar implementations in the codebase
3. Check [docs/exec-plans/tech-debt-tracker.md](./docs/exec-plans/tech-debt-tracker.md) for known issues
4. Ask humans for clarification on requirements

---

*This file is intentionally kept short (~100 lines). For detailed guidance, follow the links above.*
".

Definition getArchitectureTemplate (projectType : ProjectType) : string :=
"# Architecture Overview

**Top-level map of system domains and package layering.**

## System Domains

This section will be populated as your application grows. Document major domains here (e.g., Auth, Users, Payments, etc.).

### Example Domain: [Domain Name]

**Purpose:** Brief description

**Boundaries:**
- Owns: What this domain is responsible for
- Depends on: What other domains it uses
- Used by: What domains depend on it

**Key files:**
- `src/[domain]/` - Main implementation

## Layered Architecture

Within each domain, code follows a strict layering model:

```
Types → Config → Repository → Service → Runtime → UI
         ↑
    Providers (cross-cutting concerns)
```

### Layer Responsibilities

1. **Types** - Data shapes, interfaces, domain models
2. **Config** - Configuration schemas and defaults
3. **Repository** - Data access layer (database, external APIs)
4. **Service** - Business logic
5. **Runtime** - Application runtime concerns (initialization, shutdown)
6. **UI** - User interface components

### Providers (Cross-cutting)

Cross-cutting concerns enter through explicit Provider interfaces:
- Authentication
- Logging/Telemetry
- Feature flags
- External connectors

### Dependency Rules

✅ **Allowed:** Forward dependencies (Types → Config → Repo → Service → Runtime → UI)
❌ **Forbidden:** Backward dependencies (UI cannot import from Service directly without going through Runtime)

These rules are enforced mechanically via custom linters.

## Technology Choices

" +:+
(if bool_decide (projectType = fullstack)
 then "### Frontend

[To be determined - document your framework choice]

### Backend

[To be determined - document your framework choice]
"
 else if bool_decide (projectType = frontend)
 then "### Frontend

[To be determined - document your framework choice]
"
 else "### Backend

[To be determined - document your framework choice]
") +:+
"
### Infrastructure

[Document infrastructure choices as they're made]

## Architectural Constraints

1. **Parsing at boundaries** - All external data must be validated/parsed at system boundaries
2. **No circular dependencies** - Enforce strict DAG structure
3. **Explicit cross-cutting** - Cross-cutting concerns go through Provider interfaces
4. **Testability** - All layers must be independently testable

## Decision Log

| Date | Decision | Rationale | Status |
|------|----------|-----------|--------|
| TBD  | Example  | Why      | Active |

---

*Keep this document updated as architectural decisions are made. Link to detailed design docs for complex changes.*
".

Definition getDesignTemplate : string :=
"# Design Principles

**Core design beliefs and patterns for this codebase.**

## Philosophy

1. **Simple over clever** - Readable code beats optimized code
2. **Explicit over implicit** - Make behavior obvious
3. **Boring over exciting** - Prefer proven technologies
4. **Strict boundaries** - Enforce constraints mechanically

## Code Organization

### File Structure
- One primary export per file
- Co-locate related code (tests next to implementation)
- Group by domain, not by type

### Naming Conventions
- Verbose and descriptive: `calculateTotalRevenue()` not `calcRev()`
- Consistent patterns across domains
- No abbreviations unless universally understood

### Comments
- Comment **why**, not **what**
- Explain business logic and constraints
- Document security-critical sections
- Avoid obvious comments

## Error Handling

1. **Fail fast** - Validate inputs early
2. **Explicit errors** - Use typed error objects
3. **Graceful degradation** - Never fail silently
4. **Comprehensive logging** - All errors are logged with context

## Testing Philosophy

1. **Real environments over mocks** - Use Docker for databases, Redis, etc.
2. **Integration tests preferred** - Test real behavior, not mocked behavior
3. **Test the contract** - Focus on behavior, not implementation
4. **Fail meaningfully** - Tests should fail when logic breaks

## Security Principles

1. **Zero trust** - Sanitize all user inputs
2. **Least privilege** - Minimal access rights
3. **No secrets in code** - Use environment variables
4. **Defense in depth** - Multiple layers of security

See [SECURITY.md](./SECURITY.md) for detailed security guidelines.

## Performance Philosophy

1. **Measure before optimizing** - No premature optimization
2. **Optimize for maintainability** - Clear code is fast enough
3. **Scale when needed** - Don't over-engineer for imaginary scale

## Dependencies

1. **Minimize dependencies** - Prefer standard library
2. **Agent-legible libraries** - Choose well-documented, stable libraries
3. **Internalize when needed** - Sometimes it's cheaper to implement than integrate

---

*These principles guide all code written by humans and agents in this repository.*
".

Definition getFrontendTemplate : string :=
"# Frontend Development Guide

**Guidelines for building user interfaces in this project.**

## Framework

[Document your chosen framework here - React, Vue, Svelte, etc.]

## Component Architecture

### Component Organization
```
components/
├── ui/           # Reusable UI primitives (buttons, inputs, etc.)
├── features/     # Feature-specific components
└── layouts/      # Page layouts and shells
```

### Component Guidelines

1. **Single Responsibility** - Each component does one thing well
2. **Props over State** - Prefer passing data down
3. **Composition over Inheritance** - Build complex UIs from simple pieces
4. **Accessibility First** - ARIA labels, keyboard navigation, screen readers

## State Management

[Document state management approach - Context, Redux, Zustand, etc.]

### State Principles
1. **Minimize global state** - Keep state as local as possible
2. **Immutable updates** - Never mutate state directly
3. **Derived state** - Compute from source of truth, don't duplicate

## Styling

[Document styling approach - CSS Modules, Tailwind, Styled Components, etc.]

### Styling Guidelines
1. **Consistent design tokens** - Use variables for colors, spacing, typography
2. **Mobile-first** - Design for small screens first
3. **Performance** - Minimize CSS bundle size

## Data Fetching

[Document data fetching approach - React Query, SWR, GraphQL, etc.]

### Data Fetching Principles
1. **Loading states** - Always show loading UI
2. **Error handling** - Display meaningful error messages
3. **Caching** - Minimize redundant requests
4. **Optimistic updates** - Update UI immediately, rollback on error

## Chrome DevTools Integration

For agent validation, the UI can be:
- Launched per git worktree
- Driven via Chrome DevTools Protocol
- Validated via DOM snapshots and screenshots

Ensure all critical user journeys are testable via automation.

## Performance Budgets

- **Initial Load:** < 3s on 3G
- **Time to Interactive:** < 5s
- **Lighthouse Score:** > 90

## Accessibility Requirements

- **WCAG 2.1 Level AA** compliance
- **Keyboard navigation** for all interactive elements
- **Screen reader** friendly

---

*Update this document as frontend patterns evolve.*
".

Definition getPlansTemplate : string :=
"# Planning Guidelines

**How to create and manage execution plans.**

## When to Create a Plan

Create an execution plan when:
1. Work will span multiple PRs
2. Work involves multiple domains or systems
3. Implementation approach needs alignment
4. Work will take > 1 day
5. Work has significant architectural impact

## Plan Types

### Lightweight Plans (< 1 day work)
- Documented in PR description
- No separate plan document needed
- Focus on " +:+ dq +:+ "what" +:+ dq +:+ " and " +:+ dq +:+ "why" +:+ dq +:+ "

### Execution Plans (> 1 day work)
- Full plan document in `docs/exec-plans/active/`
- Detailed implementation steps
- Decision log
- Progress tracking

## Execution Plan Template

See [docs/exec-plans/template.md](./docs/exec-plans/template.md)

## Plan Lifecycle

1. **Draft** - Initial plan created
2. **In Review** - Plan being reviewed by humans/agents
3. **Approved** - Plan approved, ready to execute
4. **In Progress** - Work is happening
5. **Completed** - Work done, plan moved to `completed/`

## Plan Structure

### 1. Context
- Why is this work needed?
- What problem does it solve?
- What is the current state?

### 2. Goals
- What are we trying to achieve?
- What are non-goals?
- How will we measure success?

### 3. Approach
- High-level implementation strategy
- Key technical decisions
- Tradeoffs considered

### 4. Implementation Steps
- Ordered list of tasks
- Dependencies between tasks
- Estimated complexity (S/M/L)

### 5. Validation
- How will we know it works?
- What tests need to be written?
- What edge cases to consider?

### 6. Risks
- What could go wrong?
- Mitigation strategies

### 7. Decision Log
- Track decisions made during implementation
- Rationale for changes to original plan

## Tech Debt Tracker

All known technical debt is tracked in [docs/exec-plans/tech-debt-tracker.md](./docs/exec-plans/tech-debt-tracker.md)

### Adding Tech Debt
When you identify tech debt:
1. Document it in the tracker
2. Prioritize (P0/P1/P2/P3)
3. Link to related code
4. Propose resolution approach

### Resolving Tech Debt
When fixing tech debt:
1. Update tracker status
2. Link to PR that resolved it
3. Document learnings

---

*Plans are living documents. Update them as you learn.*
".

Definition getProductSenseTemplate : string :=
"# Product Sense

**Product principles and user-facing guidelines.**

## Product Principles

1. **User value first** - Every feature must solve a real user problem
2. **Simple by default** - Hide complexity, expose power
3. **Fast and reliable** - Performance and reliability are features
4. **Accessible to all** - Build for everyone

## User Experience Guidelines

### Core User Flows
[Document your critical user journeys]

Example:
1. **New user onboarding**
   - What do first-time users see?
   - How do we guide them to value?

2. **Core workflow**
   - What is the main user action?
   - How do we make it effortless?

### UX Principles

1. **Immediate feedback** - User actions get instant response
2. **Forgiving** - Easy to undo, hard to break
3. **Consistent** - Same patterns throughout
4. **Predictable** - Users can anticipate behavior

## Feature Development

### Feature Spec Requirements

Every feature needs:
- [ ] User story (who, what, why)
- [ ] Success metrics
- [ ] Acceptance criteria
- [ ] Edge cases identified
- [ ] Failure modes considered

### Product Quality Bar

Before shipping:
- [ ] Works on happy path
- [ ] Handles errors gracefully
- [ ] Has loading states
- [ ] Has empty states
- [ ] Is accessible
- [ ] Is performant
- [ ] Is secure

## Metrics & Analytics

[Document what you measure and why]

### Key Metrics
- **Acquisition:** How users find the product
- **Activation:** How users get to first value
- **Retention:** How often users return
- **Revenue:** How the business makes money (if applicable)

## User Feedback Loop

1. **Collect** - Gather user feedback (support tickets, interviews, analytics)
2. **Synthesize** - Identify patterns and themes
3. **Prioritize** - Decide what to build based on impact
4. **Build** - Implement with quality
5. **Measure** - Track if it solved the problem

---

*Product sense guides what we build and why.*
".

Definition getQualityScoreTemplate : string :=
"# Quality Score

**Track quality metrics across domains and architectural layers.**

## Scoring System

Each domain and layer is graded on:
- **Test Coverage:** % of code covered by tests
- **Type Safety:** % of code that is type-checked
- **Documentation:** Are interfaces and behaviors documented?
- **Linting:** Are linting rules passing?
- **Performance:** Meet performance budgets?

### Grades

- **A** - Excellent (90-100%)
- **B** - Good (75-89%)
- **C** - Acceptable (60-74%)
- **D** - Needs Improvement (40-59%)
- **F** - Unacceptable (< 40%)

## Domain Quality

| Domain | Test Coverage | Type Safety | Documentation | Linting | Performance | Overall |
|--------|---------------|-------------|---------------|---------|-------------|---------|
| TBD    | -             | -           | -             | -       | -           | -       |

## Layer Quality

| Layer      | Test Coverage | Type Safety | Documentation | Linting | Overall |
|------------|---------------|-------------|---------------|---------|---------|
| Types      | -             | -           | -             | -       | -       |
| Config     | -             | -           | -             | -       | -       |
| Repository | -             | -           | -             | -       | -       |
| Service    | -             | -           | -             | -       | -       |
| Runtime    | -             | -           | -             | -       | -       |
| UI         | -             | -           | -             | -       | -       |

## Quality Targets

### Minimum Acceptable (Launch)
- Test Coverage: 70%
- Type Safety: 80%
- Documentation: 60%
- Linting: 100%
- Performance: Meets budgets

### Production Ready
- Test Coverage: 85%
- Type Safety: 95%
- Documentation: 80%
- Linting: 100%
- Performance: Exceeds budgets

## Known Quality Gaps

[Track areas that need improvement]

| Gap | Severity | Tracked In | Target Date |
|-----|----------|------------|-------------|
| TBD | P1       | Issue #X   | 2026-XX-XX  |

## Quality Improvement Process

1. **Automated Scanning** - CI runs quality checks on every PR
2. **Quality Reports** - Weekly quality score updates
3. **Improvement Plans** - Create execution plans for quality gaps
4. **Continuous Monitoring** - Track quality trends over time

---

*Quality scores are updated automatically by CI. Manual updates indicate automation gaps.*
".

Definition getReliabilityTemplate : string :=
"# Reliability Standards

**Guidelines for building reliable, production-ready systems.**

## Reliability Principles

1. **Fail gracefully** - Degrade functionality, never crash
2. **Observable** - Emit logs, metrics, and traces for all critical paths
3. **Recoverable** - Automatic retry with backoff
4. **Tested** - Integration tests against real infrastructure

## Error Handling

### Error Categories

1. **Expected errors** - User input validation, not found, etc.
   - Return typed error objects
   - Log at INFO level
   - Show user-friendly messages

2. **Unexpected errors** - System failures, network issues, etc.
   - Log at ERROR level with full context
   - Alert on-call if production
   - Retry with exponential backoff

### Error Response Format

All errors should include:
- `code` - Machine-readable error code
- `message` - Human-readable message
- `details` - Additional context (safe for logging)
- `requestId` - Trace ID for debugging

## Observability

### Logging

Use structured logging:
```javascript
logger.info({
  event: 'user_login',
  userId: '123',
  duration: 45,
  success: true
});
```

**Log Levels:**
- **DEBUG** - Detailed debugging (not in production)
- **INFO** - Normal operations
- **WARN** - Potential issues (rate limits, retries)
- **ERROR** - Failures requiring attention

### Metrics

Track:
- **Request latency** (p50, p95, p99)
- **Error rate** (% of failed requests)
- **Throughput** (requests per second)
- **Resource usage** (CPU, memory, database connections)

### Tracing

- Generate trace ID for every request
- Propagate trace ID across services
- Emit spans for all significant operations

## Performance Requirements

### Latency Budgets

| Operation | p50 | p95 | p99 |
|-----------|-----|-----|-----|
| API requests | < 100ms | < 300ms | < 1s |
| Database queries | < 50ms | < 150ms | < 500ms |
| Background jobs | < 5s | < 30s | < 2m |

### Resource Limits

- **Memory** - Monitor heap usage, set max heap size
- **CPU** - Alert on sustained > 70% usage
- **Connections** - Pool and limit database/external connections

## Retry & Circuit Breaker

### Retry Strategy
- Exponential backoff: 100ms, 200ms, 400ms, 800ms
- Max retries: 3
- Jitter: ±25% to prevent thundering herd

### Circuit Breaker
- **Closed** (normal): Requests flow through
- **Open** (failing): Fast-fail without attempting request
- **Half-open** (recovering): Allow limited requests to test recovery

## Deployment Safety

1. **Gradual rollout** - Deploy to small % of traffic first
2. **Health checks** - Automated health endpoint
3. **Rollback plan** - One-click rollback if needed
4. **Database migrations** - Backward-compatible, run before code deploy

## Incident Response

When production issues occur:
1. **Mitigate** - Stop the bleeding (rollback, scale up, etc.)
2. **Investigate** - Use logs, metrics, traces to find root cause
3. **Resolve** - Fix the underlying issue
4. **Document** - Write postmortem (what, why, how to prevent)
5. **Follow-up** - Implement prevention tasks

---

*Reliability is not optional. These standards apply to all production code.*
".

Definition getSecurityTemplate : string :=
"# Security Guidelines

**Security principles and practices for this codebase.**

## Security Posture

1. **Zero trust** - Never trust user input
2. **Least privilege** - Minimal access rights
3. **Defense in depth** - Multiple security layers
4. **Secure by default** - Safe defaults, opt-in to dangerous operations

## Input Validation

### Validation Rules

1. **Validate all inputs** - User data, API requests, file uploads, etc.
2. **Whitelist over blacklist** - Define what's allowed, reject everything else
3. **Parse at boundaries** - Validate external data at system entry points
4. **Type safety** - Use schema validation (Zod, Yup, etc.)

### Common Vulnerabilities to Prevent

- **SQL Injection** - Use parameterized queries, never string interpolation
- **XSS** - Escape all user content, use CSP headers
- **CSRF** - Use CSRF tokens for state-changing operations
- **Command Injection** - Never pass user input to shell commands
- **Path Traversal** - Validate file paths, use allowlist for file access

## Authentication & Authorization

### Authentication
- **Password storage** - bcrypt/argon2 with salt
- **Session management** - Secure, httpOnly cookies
- **Token expiry** - Short-lived access tokens, refresh tokens

### Authorization
- **Role-based access control (RBAC)** - Define roles and permissions
- **Principle of least privilege** - Users/services get minimum necessary access
- **Authorization checks** - Verify permissions on every request

## Secrets Management

### Rules
1. **Never commit secrets** - No API keys, passwords, tokens in code
2. **Use environment variables** - Load secrets from env at runtime
3. **Rotate secrets** - Regular rotation schedule
4. **Limit secret scope** - Separate secrets per environment

### .env Files
- `.env` - Never commit (add to .gitignore)
- `.env.example` - Template without real values (safe to commit)

## Data Protection

### Data Classification
- **Public** - Anyone can see
- **Internal** - Employees only
- **Confidential** - Need-to-know basis
- **Restricted** - Legal/compliance requirements

### Encryption
- **In transit** - TLS 1.3 for all network traffic
- **At rest** - Encrypt sensitive data in database

## API Security

1. **Rate limiting** - Prevent abuse (e.g., 100 req/min per IP)
2. **Input validation** - Validate request bodies, query params, headers
3. **Output encoding** - Prevent XSS in API responses
4. **CORS** - Restrict allowed origins

## Dependency Security

1. **Audit dependencies** - Run `npm audit` / `bun audit` regularly
2. **Update regularly** - Keep dependencies up to date
3. **Minimal dependencies** - Fewer dependencies = smaller attack surface
4. **Verify integrity** - Use lock files, verify package signatures

## Security Testing

1. **Static analysis** - Linters catch common vulnerabilities
2. **Dependency scanning** - Automated vulnerability scanning in CI
3. **Manual review** - Security-critical code gets human review
4. **Penetration testing** - Regular security audits

## Security Incident Response

If you discover a security vulnerability:
1. **Do not publish** - Keep it private
2. **Assess impact** - How severe is it?
3. **Fix immediately** - Security bugs are P0
4. **Notify users** - If user data was exposed
5. **Postmortem** - How did it happen? How to prevent?

## Security Checklist

Before deploying:
- [ ] All inputs validated
- [ ] No secrets in code
- [ ] Authentication/authorization implemented
- [ ] HTTPS enforced
- [ ] Security headers set (CSP, HSTS, etc.)
- [ ] Rate limiting enabled
- [ ] Dependencies audited
- [ ] Error messages don't leak sensitive info

---

*Security is everyone's responsibility. When in doubt, ask for a security review.*
".

Definition getDesignDocTemplate : string :=
"# [Feature/Component Name]

**Status:** [Draft | In Review | Approved | Implemented | Deprecated]
**Author:** [Agent/Human]
**Created:** YYYY-MM-DD
**Last Updated:** YYYY-MM-DD

## Overview

Brief 2-3 sentence summary of what this design document covers.

## Context & Motivation

### Problem Statement
What problem are we solving? Why does it need to be solved?

### Current State
What exists today? What are the pain points?

### Goals
- What are we trying to achieve?
- What does success look like?

### Non-Goals
- What are we explicitly not solving?
- What's out of scope?

## Proposed Design

### High-Level Approach
Describe the solution at a conceptual level.

### Detailed Design

#### Component/Module Structure
```
[Diagram or code structure]
```

#### Data Models
```typescript
// Type definitions, schemas, etc.
```

#### API/Interface
```typescript
// Public interfaces
```

#### Implementation Details
Key technical decisions and how things work internally.

## Alternatives Considered

### Alternative 1: [Name]
**Pros:**
- ...

**Cons:**
- ...

**Why not chosen:** ...

### Alternative 2: [Name]
**Pros:**
- ...

**Cons:**
- ...

**Why not chosen:** ...

## Tradeoffs & Decisions

| Decision | Rationale | Tradeoffs |
|----------|-----------|-----------|
| Example  | Why       | What we gain vs lose |

## Implementation Plan

1. **Phase 1:** ...
2. **Phase 2:** ...
3. **Phase 3:** ...

## Testing Strategy

- **Unit tests:** What will be unit tested?
- **Integration tests:** What will be integration tested?
- **Edge cases:** What edge cases need coverage?

## Security Considerations

- What security implications does this have?
- What mitigations are in place?

## Performance Implications

- What is the performance impact?
- Are there any bottlenecks?
- What monitoring is needed?

## Rollout Plan

- How will this be deployed?
- Is there a gradual rollout strategy?
- What metrics will we track?

## Open Questions

- [ ] Question 1?
- [ ] Question 2?

## References

- [Related design doc](./other-doc.md)
- [External reference](https://example.com)

---

*Update this document as the design evolves during implementation.*
".

Definition getExecPlanTemplate : string :=
"# [Feature/Task Name]

**Status:** [Draft | In Review | Approved | In Progress | Completed]
**Owner:** [Agent/Human]
**Created:** YYYY-MM-DD
**Target Completion:** YYYY-MM-DD
**Actual Completion:** YYYY-MM-DD (if completed)

## Context

### What are we building?
Brief description of the feature/task.

### Why are we building it?
User need, business value, or technical requirement.

### Success Criteria
- [ ] Criterion 1
- [ ] Criterion 2
- [ ] Criterion 3

## Approach

### High-Level Strategy
How will we approach this work?

### Key Decisions
| Decision | Rationale | Alternatives Considered |
|----------|-----------|-------------------------|
| Example  | Why       | What else we could do   |

### Dependencies
- **Blocks:** What this work depends on
- **Blocked by:** What depends on this work

## Implementation Tasks

### Phase 1: [Phase Name]
- [ ] Task 1 (Complexity: S/M/L)
- [ ] Task 2 (Complexity: S/M/L)
- [ ] Task 3 (Complexity: S/M/L)

### Phase 2: [Phase Name]
- [ ] Task 1 (Complexity: S/M/L)
- [ ] Task 2 (Complexity: S/M/L)

### Phase 3: [Phase Name]
- [ ] Task 1 (Complexity: S/M/L)

**Complexity Legend:**
- S (Small): < 2 hours
- M (Medium): 2-8 hours
- L (Large): > 8 hours

## Validation Plan

### Testing
- What tests will be written?
- How will we validate correctness?

### Quality Checks
- [ ] Tests pass
- [ ] Linters pass
- [ ] Documentation updated
- [ ] Performance benchmarks met

### Acceptance Criteria
- [ ] Feature works on happy path
- [ ] Error cases handled
- [ ] Edge cases covered
- [ ] Performance meets requirements

## Risks & Mitigations

| Risk | Likelihood | Impact | Mitigation |
|------|------------|--------|------------|
| Example risk | Medium | High | How we'll handle it |

## Progress Log

### YYYY-MM-DD
- Started Phase 1
- Completed Task 1
- Discovered issue with X, created tech debt entry

### YYYY-MM-DD
- Completed Phase 1
- Started Phase 2

## Decision Log

### YYYY-MM-DD: [Decision Title]
**Context:** What prompted this decision
**Decision:** What we decided
**Rationale:** Why we made this choice
**Impact:** How this affects the plan

## Learnings

### What Went Well
- ...

### What Could Be Improved
- ...

### What We Learned
- ...

---

*Move to `docs/exec-plans/completed/` when finished.*
".

Definition getProductSpecTemplate : string :=
"# [Feature Name]

**Status:** [Draft | In Review | Approved | In Development | Shipped]
**Owner:** [Product/Human]
**Created:** YYYY-MM-DD
**Target Ship:** YYYY-MM-DD

## Overview

One-paragraph summary of what this feature is and why it matters.

## Problem Statement

### User Pain Point
What problem do users have today?

### Evidence
How do we know this is a problem? (User feedback, data, support tickets, etc.)

### Impact
Who is affected? How many users?

## Goals

### User Goals
What does the user want to accomplish?

### Business Goals
What business metric does this move?

### Success Metrics
How will we measure success?
- Metric 1: Target value
- Metric 2: Target value

## User Stories

### Primary User Story
**As a** [type of user]
**I want** [goal]
**So that** [benefit]

### Additional User Stories
- **As a** ... **I want** ... **So that** ...
- **As a** ... **I want** ... **So that** ...

## User Experience

### User Flow
1. User does X
2. System responds with Y
3. User sees Z

### Mockups/Wireframes
[Link to designs or embed images]

### Edge Cases
- What happens if X?
- What if user does Y?

## Requirements

### Functional Requirements
- [ ] Requirement 1
- [ ] Requirement 2
- [ ] Requirement 3

### Non-Functional Requirements
- [ ] Performance: < Xms response time
- [ ] Accessibility: WCAG 2.1 AA compliant
- [ ] Security: [Specific security requirements]

### Out of Scope
- Explicitly not included in this version

## Technical Considerations

### Technical Constraints
Any technical limitations or requirements?

### Dependencies
What other systems/features does this depend on?

### Data Requirements
What data do we need to collect/store?

## Acceptance Criteria

- [ ] User can accomplish X
- [ ] Error case Y is handled gracefully
- [ ] Performance meets Z requirement
- [ ] Accessible via keyboard
- [ ] Works on mobile and desktop

## Launch Plan

### Phased Rollout
1. **Phase 1:** Internal testing
2. **Phase 2:** Beta users (X% of traffic)
3. **Phase 3:** General availability

### Monitoring
What metrics/logs will we track post-launch?

### Rollback Plan
How do we turn this off if needed?

## Open Questions

- [ ] Question 1?
- [ ] Question 2?

## References

- [Related product spec](./other-spec.md)
- [User research](link)
- [Design mockups](link)

---

*Update this spec as requirements evolve.*
".

Definition getTechDebtTrackerTemplate : string :=
"# Technical Debt Tracker

**Last Updated:** YYYY-MM-DD

## Active Technical Debt

### P0 - Critical (Must Fix)
| Item | Description | Impact | Created | Owner | Tracked In |
|------|-------------|--------|---------|-------|------------|
| TBD  | Description | High   | Date    | Agent/Human | Issue/PR |

### P1 - High Priority (Fix Soon)
| Item | Description | Impact | Created | Owner | Tracked In |
|------|-------------|--------|---------|-------|------------|
| TBD  | Description | Medium | Date    | Agent/Human | Issue/PR |

### P2 - Medium Priority (Plan to Fix)
| Item | Description | Impact | Created | Owner | Tracked In |
|------|-------------|--------|---------|-------|------------|
| TBD  | Description | Low-Medium | Date | Agent/Human | Issue/PR |

### P3 - Low Priority (Nice to Have)
| Item | Description | Impact | Created | Owner | Tracked In |
|------|-------------|--------|---------|-------|------------|
| TBD  | Description | Low    | Date    | Agent/Human | Issue/PR |

## Debt Categories

### Code Quality
- Duplicated code that should be abstracted
- Complex functions that need refactoring
- Missing error handling
- Inconsistent patterns

### Testing
- Missing test coverage
- Flaky tests
- Test infrastructure improvements

### Documentation
- Outdated documentation
- Missing API documentation
- Unclear code comments

### Performance
- Known performance bottlenecks
- Missing performance monitoring
- Unoptimized queries

### Security
- Known security vulnerabilities
- Missing security controls
- Outdated dependencies

### Infrastructure
- Configuration management issues
- Missing monitoring/alerting
- Deployment process improvements

## Resolved Debt (Recent)

| Item | Description | Resolved Date | PR | Learnings |
|------|-------------|---------------|-------|-----------|
| TBD  | What was fixed | YYYY-MM-DD | #123 | What we learned |

## Debt Prevention

### Golden Principles
1. **No duplicate code** - Extract to shared utilities
2. **Parse at boundaries** - Validate all external data
3. **Consistent error handling** - Use standard error patterns
4. **Automated cleanup** - Run cleanup agents weekly

### Automated Checks
- Linters catch common issues
- CI validates documentation freshness
- Dependency audits run daily
- Quality scores tracked weekly

---

*This tracker is maintained by humans and agents. Update when you identify or resolve technical debt.*
".

Definition getCoreBeliefsTemplate : string :=
"# Core Beliefs

**Fundamental principles for agent-first development in this repository.**

Last Updated: YYYY-MM-DD

## Agent-First Operating Principles

### 1. Repository is the Source of Truth
**Belief:** If it's not in the repository, it doesn't exist to agents.

**Implications:**
- All knowledge must be versioned in the repository
- Slack discussions must be captured in design docs
- External docs must be extracted to `docs/references/`
- Decisions must be documented, not just discussed

### 2. Progressive Disclosure
**Belief:** Give agents a map, not an encyclopedia.

**Implications:**
- AGENTS.md is a table of contents (~100 lines)
- Detailed docs live in `docs/` directory
- Links provide navigation, not inline walls of text
- Context grows as needed, not all up-front

### 3. Enforce Mechanically
**Belief:** Linters and tests are better than manual review.

**Implications:**
- Architectural constraints are enforced by custom linters
- Documentation freshness is validated in CI
- Code quality is measured automatically
- Humans review judgment calls, not mechanical issues

### 4. Agent Legibility First
**Belief:** Optimize for agent reasoning, not just human aesthetics.

**Implications:**
- Structure and patterns matter more than style
- Consistency enables pattern recognition
- Explicit is better than implicit
- Documentation explains " +:+ dq +:+ "why," +:+ dq +:+ " not " +:+ dq +:+ "what" +:+ dq +:+ "

### 5. Continuous Cleanup
**Belief:** Technical debt is like interest—pay it down continuously.

**Implications:**
- Automated cleanup runs regularly
- Bad patterns are fixed as soon as spotted
- Quality scores track drift over time
- " +:+ dq +:+ "Friday cleanup" +:+ dq +:+ " is automated, not manual

### 6. Real Environments Over Mocks
**Belief:** Tests should validate real behavior, not mocked behavior.

**Implications:**
- Use Docker for databases, Redis, external services
- Integration tests over unit tests
- Validate actual contracts, not assumptions
- Local dev mirrors production

### 7. Boring Technology Wins
**Belief:** Predictable, well-documented tools are better than exciting new ones.

**Implications:**
- Prefer standard libraries over cutting-edge frameworks
- Choose technologies agents can reason about
- Stability and composability over novelty
- Internalize when external is too opaque

### 8. Strict Boundaries, Flexible Internals
**Belief:** Enforce constraints at boundaries, allow autonomy within them.

**Implications:**
- Layered architecture is non-negotiable
- Within layers, implementation details are flexible
- Cross-cutting concerns go through explicit interfaces
- Dependency directions are enforced, not suggested

### 9. Feedback Loops are Multipliers
**Belief:** Fast, automated feedback enables speed without chaos.

**Implications:**
- CI validates every PR
- Agents can test their own changes
- Chrome DevTools lets agents drive the UI
- Observability stack makes behavior visible

### 10. Documentation is Code
**Belief:** Docs are not second-class citizens—they are part of the system.

**Implications:**
- Docs are versioned with code
- Stale docs break CI
- Documentation gaps are treated as bugs
- Design docs are reviewed like code

## Anti-Patterns to Avoid

### ❌ The " +:+ dq +:+ "One Big AGENTS.md" +:+ dq +:+ "
- **Problem:** Crowds out context, impossible to maintain
- **Solution:** AGENTS.md as table of contents, detailed docs in `docs/`

### ❌ Relying on External Knowledge
- **Problem:** Agents can't access Slack, Google Docs, or tribal knowledge
- **Solution:** Everything must be in-repo and discoverable

### ❌ Mocking Everything
- **Problem:** Tests pass but real code breaks
- **Solution:** Use Docker for real infrastructure in tests

### ❌ Manual Quality Gates
- **Problem:** Doesn't scale, blocks throughput
- **Solution:** Automate checks, make failures obvious

### ❌ Letting Debt Compound
- **Problem:** Becomes overwhelming, requires painful cleanup
- **Solution:** Continuous automated cleanup, fix patterns early

## Evolution of Beliefs

These beliefs are living principles. As we learn what works and what doesn't, we update them.

### Change Log

| Date | Change | Rationale |
|------|--------|-----------|
| YYYY-MM-DD | Initial beliefs documented | Establish foundation |

---

*These beliefs guide all architectural and process decisions. Challenge them when they don't serve us.*
".

Definition getValidationScriptTemplate (language : ValidationLanguage) : string :=
  if bool_decide (language = typescript) then
"#!/usr/bin/env tsx
/**
 * Structure Validation Script
 * Validates the agent-first project structure and documentation
 */

import { existsSync, readdirSync, readFileSync, statSync } from 'node:fs';
import { join } from 'node:path';

interface ValidationResult {
	passed: boolean;
	message: string;
}

class StructureValidator {
	private rootDir: string;
	private errors: string[] = [];
	private warnings: string[] = [];

	constructor(rootDir: string = process.cwd()) {
		this.rootDir = rootDir;
	}

	validate(): boolean {
		console.log('🔍 Validating project structure...\n');

		this.validateRootDocs();
		this.validateDocsStructure();
		this.validateCrossLinks();
		this.validateDocFreshness();

		this.printResults();

		return this.errors.length === 0;
	}

	private validateRootDocs(): void {
		const requiredDocs = [
			'AGENTS.md',
			'CLAUDE.md',
			'ARCHITECTURE.md',
			'DESIGN.md',
			'PLANS.md',
			'PRODUCT_SENSE.md',
			'QUALITY_SCORE.md',
			'RELIABILITY.md',
			'SECURITY.md',
		];

		for (const doc of requiredDocs) {
			if (!existsSync(join(this.rootDir, doc))) {
				this.errors.push(`Missing required document: ${doc}`);
			}
		}

		// Validate AGENTS.md and CLAUDE.md are identical
		if (
			existsSync(join(this.rootDir, 'AGENTS.md')) &&
			existsSync(join(this.rootDir, 'CLAUDE.md'))
		) {
			const agentsContent = readFileSync(
				join(this.rootDir, 'AGENTS.md'),
				'utf-8',
			);
			const claudeContent = readFileSync(
				join(this.rootDir, 'CLAUDE.md'),
				'utf-8',
			);

			if (agentsContent !== claudeContent) {
				this.errors.push('AGENTS.md and CLAUDE.md must be identical');
			}
		}

		// Validate AGENTS.md is roughly 100 lines (allow some variance)
		if (existsSync(join(this.rootDir, 'AGENTS.md'))) {
			const agentsContent = readFileSync(
				join(this.rootDir, 'AGENTS.md'),
				'utf-8',
			);
			const lineCount = agentsContent.split('\n').length;

			if (lineCount > 150) {
				this.warnings.push(
					`AGENTS.md is ${lineCount} lines (recommended: ~100 lines). Consider moving details to docs/`,
				);
			}
		}
	}

	private validateDocsStructure(): void {
		const requiredDirs = [
			'docs/design-docs',
			'docs/exec-plans/active',
			'docs/exec-plans/completed',
			'docs/product-specs',
			'docs/references',
			'docs/generated',
		];

		for (const dir of requiredDirs) {
			if (!existsSync(join(this.rootDir, dir))) {
				this.errors.push(`Missing required directory: ${dir}`);
			}
		}

		// Validate index files exist
		const requiredIndexes = [
			'docs/design-docs/index.md',
			'docs/product-specs/index.md',
		];

		for (const index of requiredIndexes) {
			if (!existsSync(join(this.rootDir, index))) {
				this.warnings.push(`Missing index file: ${index}`);
			}
		}
	}

	private validateCrossLinks(): void {
		// Basic validation: check that referenced files exist
		const agentsPath = join(this.rootDir, 'AGENTS.md');
		if (!existsSync(agentsPath)) return;

		const agentsContent = readFileSync(agentsPath, 'utf-8');
		const linkRegex = /\[([^\]]+)\]\(([^)]+)\)/g;
		let match: RegExpExecArray | null;

		while ((match = linkRegex.exec(agentsContent)) !== null) {
			const linkPath = match[2];

			// Skip external links
			if (linkPath.startsWith('http')) continue;

			const fullPath = join(this.rootDir, linkPath);
			if (!existsSync(fullPath)) {
				this.warnings.push(
					`Broken link in AGENTS.md: ${linkPath}`,
				);
			}
		}
	}

	private validateDocFreshness(): void {
		// Check that design docs have been updated recently
		const designDocsDir = join(this.rootDir, 'docs/design-docs');
		if (!existsSync(designDocsDir)) return;

		const files = readdirSync(designDocsDir).filter((f) =>
			f.endsWith('.md'),
		);

		if (files.length === 0) {
			this.warnings.push(
				'No design documents found in docs/design-docs/',
			);
			return;
		}

		const now = Date.now();
		const sixMonths = 6 * 30 * 24 * 60 * 60 * 1000;

		for (const file of files) {
			if (file === 'index.md' || file === 'template.md') continue;

			const filePath = join(designDocsDir, file);
			const stats = statSync(filePath);
			const age = now - stats.mtimeMs;

			if (age > sixMonths) {
				this.warnings.push(
					`Design doc hasn't been updated in 6+ months: ${file}`,
				);
			}
		}
	}

	private printResults(): void {
		console.log('\n' + '='.repeat(60));

		if (this.errors.length === 0 && this.warnings.length === 0) {
			console.log('✅ All validation checks passed!');
		} else {
			if (this.errors.length > 0) {
				console.log(`\n❌ Errors (${this.errors.length}):\n`);
				for (const error of this.errors) {
					console.log(`  - ${error}`);
				}
			}

			if (this.warnings.length > 0) {
				console.log(`\n⚠️  Warnings (${this.warnings.length}):\n`);
				for (const warning of this.warnings) {
					console.log(`  - ${warning}`);
				}
			}
		}

		console.log('\n' + '='.repeat(60) + '\n');
	}
}

// Run validation
const validator = new StructureValidator();
const success = validator.validate();

process.exit(success ? 0 : 1);
"
  else
"#!/usr/bin/env node
/**
 * Structure Validation Script
 * Validates the agent-first project structure and documentation
 */

import { existsSync, readdirSync, readFileSync, statSync } from 'node:fs';
import { join } from 'node:path';

class StructureValidator {
	constructor(rootDir = process.cwd()) {
		this.rootDir = rootDir;
		this.errors = [];
		this.warnings = [];
	}

	validate() {
		console.log('🔍 Validating project structure...\n');

		this.validateRootDocs();
		this.validateDocsStructure();
		this.validateCrossLinks();
		this.validateDocFreshness();

		this.printResults();

		return this.errors.length === 0;
	}

	validateRootDocs() {
		const requiredDocs = [
			'AGENTS.md',
			'CLAUDE.md',
			'ARCHITECTURE.md',
			'DESIGN.md',
			'PLANS.md',
			'PRODUCT_SENSE.md',
			'QUALITY_SCORE.md',
			'RELIABILITY.md',
			'SECURITY.md',
		];

		for (const doc of requiredDocs) {
			if (!existsSync(join(this.rootDir, doc))) {
				this.errors.push(`Missing required document: ${doc}`);
			}
		}

		// Validate AGENTS.md and CLAUDE.md are identical
		if (
			existsSync(join(this.rootDir, 'AGENTS.md')) &&
			existsSync(join(this.rootDir, 'CLAUDE.md'))
		) {
			const agentsContent = readFileSync(
				join(this.rootDir, 'AGENTS.md'),
				'utf-8',
			);
			const claudeContent = readFileSync(
				join(this.rootDir, 'CLAUDE.md'),
				'utf-8',
			);

			if (agentsContent !== claudeContent) {
				this.errors.push('AGENTS.md and CLAUDE.md must be identical');
			}
		}

		// Validate AGENTS.md is roughly 100 lines (allow some variance)
		if (existsSync(join(this.rootDir, 'AGENTS.md'))) {
			const agentsContent = readFileSync(
				join(this.rootDir, 'AGENTS.md'),
				'utf-8',
			);
			const lineCount = agentsContent.split('\n').length;

			if (lineCount > 150) {
				this.warnings.push(
					`AGENTS.md is ${lineCount} lines (recommended: ~100 lines). Consider moving details to docs/`,
				);
			}
		}
	}

	validateDocsStructure() {
		const requiredDirs = [
			'docs/design-docs',
			'docs/exec-plans/active',
			'docs/exec-plans/completed',
			'docs/product-specs',
			'docs/references',
			'docs/generated',
		];

		for (const dir of requiredDirs) {
			if (!existsSync(join(this.rootDir, dir))) {
				this.errors.push(`Missing required directory: ${dir}`);
			}
		}

		// Validate index files exist
		const requiredIndexes = [
			'docs/design-docs/index.md',
			'docs/product-specs/index.md',
		];

		for (const index of requiredIndexes) {
			if (!existsSync(join(this.rootDir, index))) {
				this.warnings.push(`Missing index file: ${index}`);
			}
		}
	}

	validateCrossLinks() {
		// Basic validation: check that referenced files exist
		const agentsPath = join(this.rootDir, 'AGENTS.md');
		if (!existsSync(agentsPath)) return;

		const agentsContent = readFileSync(agentsPath, 'utf-8');
		const linkRegex = /\[([^\]]+)\]\(([^)]+)\)/g;
		let match;

		while ((match = linkRegex.exec(agentsContent)) !== null) {
			const linkPath = match[2];

			// Skip external links
			if (linkPath.startsWith('http')) continue;

			const fullPath = join(this.rootDir, linkPath);
			if (!existsSync(fullPath)) {
				this.warnings.push(
					`Broken link in AGENTS.md: ${linkPath}`,
				);
			}
		}
	}

	validateDocFreshness() {
		// Check that design docs have been updated recently
		const designDocsDir = join(this.rootDir, 'docs/design-docs');
		if (!existsSync(designDocsDir)) return;

		const files = readdirSync(designDocsDir).filter((f) =>
			f.endsWith('.md'),
		);

		if (files.length === 0) {
			this.warnings.push(
				'No design documents found in docs/design-docs/',
			);
			return;
		}

		const now = Date.now();
		const sixMonths = 6 * 30 * 24 * 60 * 60 * 1000;

		for (const file of files) {
			if (file === 'index.md' || file === 'template.md') continue;

			const filePath = join(designDocsDir, file);
			const stats = statSync(filePath);
			const age = now - stats.mtimeMs;

			if (age > sixMonths) {
				this.warnings.push(
					`Design doc hasn't been updated in 6+ months: ${file}`,
				);
			}
		}
	}

	printResults() {
		console.log('\n' + '='.repeat(60));

		if (this.errors.length === 0 && this.warnings.length === 0) {
			console.log('✅ All validation checks passed!');
		} else {
			if (this.errors.length > 0) {
				console.log(`\n❌ Errors (${this.errors.length}):\n`);
				for (const error of this.errors) {
					console.log(`  - ${error}`);
				}
			}

			if (this.warnings.length > 0) {
				console.log(`\n⚠️  Warnings (${this.warnings.length}):\n`);
				for (const warning of this.warnings) {
					console.log(`  - ${warning}`);
				}
			}
		}

		console.log('\n' + '='.repeat(60) + '\n');
	}
}

// Run validation
const validator = new StructureValidator();
const success = validator.validate();

process.exit(success ? 0 : 1);
".

Definition getGithubWorkflowTemplate (validationLanguage : ValidationLanguage) : string :=
  let runCommand :=
    if bool_decide (validationLanguage = typescript)
    then "cd scripts && npm install && npm run validate"
    else "node scripts/validate-structure.js" in
"name: Validate Documentation Structure

on:
  pull_request:
    branches: [main, develop]
    paths:
      - 'docs/**'
      - 'AGENTS.md'
      - 'CLAUDE.md'
      - 'ARCHITECTURE.md'
      - '*.md'
  push:
    branches: [main, develop]
  schedule:
    # Run weekly to catch stale documentation
    - cron: '0 0 * * 0'

jobs:
  validate-structure:
    runs-on: ubuntu-latest

    steps:
      - name: Checkout code
        uses: actions/checkout@v4

      - name: Setup Node.js
        uses: actions/setup-node@v4
        with:
          node-version: '20'

      - name: Run structure validation
        run: " +:+
runCommand +:+
"

      - name: Check for broken links
        uses: gaurav-nelson/github-action-markdown-link-check@v1
        with:
          use-quiet-mode: 'yes'
          config-file: '.github/markdown-link-check-config.json'

  check-freshness:
    runs-on: ubuntu-latest

    steps:
      - name: Checkout code
        uses: actions/checkout@v4
        with:
          fetch-depth: 0  # Fetch full history for freshness checks

      - name: Check AGENTS.md and CLAUDE.md are identical
        run: |
          if ! cmp -s AGENTS.md CLAUDE.md; then
            echo " +:+ dq +:+ "❌ AGENTS.md and CLAUDE.md must be identical" +:+ dq +:+ "
            exit 1
          fi
          echo " +:+ dq +:+ "✅ AGENTS.md and CLAUDE.md are identical" +:+ dq +:+ "

      - name: Validate AGENTS.md size
        run: |
          lines=$(wc -l < AGENTS.md)
          if [ $lines -gt 150 ]; then
            echo " +:+ dq +:+ "⚠️  AGENTS.md has $lines lines (recommended: ~100)" +:+ dq +:+ "
            echo " +:+ dq +:+ "Consider moving details to docs/ directory" +:+ dq +:+ "
          else
            echo " +:+ dq +:+ "✅ AGENTS.md size is appropriate ($lines lines)" +:+ dq +:+ "
          fi
".

Definition getReadmeTemplate (projectType : ProjectType) (validationLanguage : ValidationLanguage) : string :=
  let validateCommand :=
    if bool_decide (validationLanguage = typescript)
    then "cd scripts && npm install && npm run validate"
    else "node scripts/validate-structure.js" in
"# Project Name

**Agent-first development structure for [project description]**

This project uses an agent-first development approach based on [OpenAI's harness engineering principles](https://openai.com/index/harness-engineering/).

## 🏗️ Project Structure

```
.
├── AGENTS.md              # Agent development guide (table of contents)
├── CLAUDE.md              # Identical to AGENTS.md (for Claude Code)
├── ARCHITECTURE.md        # System architecture overview
├── DESIGN.md              # Design principles
├── FRONTEND.md            # Frontend guidelines" +:+
(if bool_decide (projectType = backend) then " (if applicable)" else "") +:+
"
├── PLANS.md               # Planning guidelines
├── PRODUCT_SENSE.md       # Product principles
├── QUALITY_SCORE.md       # Quality metrics tracker
├── RELIABILITY.md         # Reliability standards
├── SECURITY.md            # Security guidelines
├── docs/
│   ├── design-docs/       # Design documentation
│   ├── exec-plans/        # Execution plans (active & completed)
│   ├── product-specs/     # Product specifications
│   ├── references/        # External library docs for LLMs
│   └── generated/         # Auto-generated documentation
└── scripts/
    └── validate-structure." +:+
(if bool_decide (validationLanguage = typescript) then "ts" else "js") +:+
"  # Structure validation

```

## 🚀 Getting Started

### 1. Initialize Your Application Framework

This structure is framework-agnostic. Choose and initialize your preferred framework:

**Frontend:**
```bash
# React + Vite
npm create vite@latest

# Next.js
npx create-next-app@latest

# SvelteKit
npm create svelte@latest
```

**Backend:**
```bash
# Express
npm create express-app

# Fastify
npm init fastify

# NestJS
npm i -g @nestjs/cli && nest new project-name
```

### 2. Customize Documentation

1. Review and customize [`AGENTS.md`](./AGENTS.md) and [`CLAUDE.md`](./CLAUDE.md)
2. Update [`ARCHITECTURE.md`](./ARCHITECTURE.md) with your system domains
3. Add your first design doc in [`docs/design-docs/`](./docs/design-docs/)
4. Document your tech stack choices

### 3. Validate Structure

Run the validation script to ensure the structure is correct:

```bash
" +:+
validateCommand +:+
"
```

## 🤖 Agent Development Workflow

1. **Read Documentation** - Start with [`AGENTS.md`](./AGENTS.md) for context
2. **Plan** - Create execution plans for complex work in [`docs/exec-plans/`](./docs/exec-plans/)
3. **Design** - Document architectural decisions in [`docs/design-docs/`](./docs/design-docs/)
4. **Implement** - Follow architectural constraints and quality standards
5. **Validate** - Run tests and validation scripts
6. **Review** - Get agent and human feedback
7. **Document** - Update docs based on implementation learnings

## 📚 Core Principles

1. **Repository is the source of truth** - If it's not in the repo, it doesn't exist to agents
2. **Progressive disclosure** - AGENTS.md is a map, detailed docs are in `docs/`
3. **Enforce mechanically** - Use linters and tests, not just manual review
4. **Agent legibility first** - Optimize for agent reasoning
5. **Continuous cleanup** - Fix drift immediately, don't let debt compound

See [`docs/design-docs/core-beliefs.md`](./docs/design-docs/core-beliefs.md) for detailed principles.

## 🔍 Validation

### Structure Validation
```bash
" +:+
validateCommand +:+
"
```

### CI/CD
GitHub Actions automatically validate:
- Documentation structure
- Broken links
- AGENTS.md and CLAUDE.md are identical
- Doc freshness

## 📖 Documentation

- **[`AGENTS.md`](./AGENTS.md)** - Start here for agent development
- **[`ARCHITECTURE.md`](./ARCHITECTURE.md)** - System architecture
- **[`SECURITY.md`](./SECURITY.md)** - Security guidelines
- **[`QUALITY_SCORE.md`](./QUALITY_SCORE.md)** - Quality metrics
- **[`docs/design-docs/`](./docs/design-docs/)** - Design decisions
- **[`docs/exec-plans/`](./docs/exec-plans/)** - Execution plans

## 🛠️ Development

[Add your development instructions here]

```bash
# Install dependencies
npm install

# Run development server
npm run dev

# Run tests
npm test

# Build
npm run build
```

## 🤝 Contributing

This project is optimized for agent-first development:

1. Review [`AGENTS.md`](./AGENTS.md) before contributing
2. Follow architectural constraints in [`ARCHITECTURE.md`](./ARCHITECTURE.md)
3. Adhere to security guidelines in [`SECURITY.md`](./SECURITY.md)
4. Maintain quality standards in [`QUALITY_SCORE.md`](./QUALITY_SCORE.md)

## 📝 License

[Your License Here]

---

**Built with agent-first development principles inspired by [OpenAI's harness engineering](https://openai.com/index/harness-engineering/)**
".

Definition getGitignoreTemplate : string :=
"# Dependencies
node_modules/
.pnp
.pnp.js

# Testing
coverage/
.nyc_output

# Production
build/
dist/
*.log

# Environment variables
.env
.env.local
.env.development.local
.env.test.local
.env.production.local

# IDE
.vscode/
.idea/
*.swp
*.swo
*~

# OS
.DS_Store
Thumbs.db

# Generated files (but keep the directory)
docs/generated/*
!docs/generated/.gitkeep
".

Definition getBiomeConfigTemplate : string :=
"{
  " +:+ dq +:+ "$schema" +:+ dq +:+ ": " +:+ dq +:+ "https://biomejs.dev/schemas/1.9.4/schema.json" +:+ dq +:+ ",
  " +:+ dq +:+ "vcs" +:+ dq +:+ ": {
    " +:+ dq +:+ "enabled" +:+ dq +:+ ": true,
    " +:+ dq +:+ "clientKind" +:+ dq +:+ ": " +:+ dq +:+ "git" +:+ dq +:+ ",
    " +:+ dq +:+ "useIgnoreFile" +:+ dq +:+ ": true
  },
  " +:+ dq +:+ "files" +:+ dq +:+ ": {
    " +:+ dq +:+ "ignoreUnknown" +:+ dq +:+ ": false,
    " +:+ dq +:+ "ignore" +:+ dq +:+ ": [" +:+ dq +:+ "node_modules" +:+ dq +:+ ", " +:+ dq +:+ "dist" +:+ dq +:+ ", " +:+ dq +:+ "build" +:+ dq +:+ ", " +:+ dq +:+ ".next" +:+ dq +:+ ", " +:+ dq +:+ "coverage" +:+ dq +:+ "]
  },
  " +:+ dq +:+ "formatter" +:+ dq +:+ ": {
    " +:+ dq +:+ "enabled" +:+ dq +:+ ": true,
    " +:+ dq +:+ "indentStyle" +:+ dq +:+ ": " +:+ dq +:+ "tab" +:+ dq +:+ ",
    " +:+ dq +:+ "indentWidth" +:+ dq +:+ ": 2,
    " +:+ dq +:+ "lineWidth" +:+ dq +:+ ": 80
  },
  " +:+ dq +:+ "organizeImports" +:+ dq +:+ ": {
    " +:+ dq +:+ "enabled" +:+ dq +:+ ": true
  },
  " +:+ dq +:+ "linter" +:+ dq +:+ ": {
    " +:+ dq +:+ "enabled" +:+ dq +:+ ": true,
    " +:+ dq +:+ "rules" +:+ dq +:+ ": {
      " +:+ dq +:+ "recommended" +:+ dq +:+ ": true,
      " +:+ dq +:+ "complexity" +:+ dq +:+ ": {
        " +:+ dq +:+ "noExtraBooleanCast" +:+ dq +:+ ": " +:+ dq +:+ "error" +:+ dq +:+ ",
        " +:+ dq +:+ "noMultipleSpacesInRegularExpressionLiterals" +:+ dq +:+ ": " +:+ dq +:+ "error" +:+ dq +:+ ",
        " +:+ dq +:+ "noUselessCatch" +:+ dq +:+ ": " +:+ dq +:+ "error" +:+ dq +:+ ",
        " +:+ dq +:+ "noWith" +:+ dq +:+ ": " +:+ dq +:+ "error" +:+ dq +:+ "
      },
      " +:+ dq +:+ "correctness" +:+ dq +:+ ": {
        " +:+ dq +:+ "noConstAssign" +:+ dq +:+ ": " +:+ dq +:+ "error" +:+ dq +:+ ",
        " +:+ dq +:+ "noConstantCondition" +:+ dq +:+ ": " +:+ dq +:+ "error" +:+ dq +:+ ",
        " +:+ dq +:+ "noEmptyCharacterClassInRegex" +:+ dq +:+ ": " +:+ dq +:+ "error" +:+ dq +:+ ",
        " +:+ dq +:+ "noEmptyPattern" +:+ dq +:+ ": " +:+ dq +:+ "error" +:+ dq +:+ ",
        " +:+ dq +:+ "noGlobalObjectCalls" +:+ dq +:+ ": " +:+ dq +:+ "error" +:+ dq +:+ ",
        " +:+ dq +:+ "noInvalidConstructorSuper" +:+ dq +:+ ": " +:+ dq +:+ "error" +:+ dq +:+ ",
        " +:+ dq +:+ "noInvalidNewBuiltin" +:+ dq +:+ ": " +:+ dq +:+ "error" +:+ dq +:+ ",
        " +:+ dq +:+ "noNonoctalDecimalEscape" +:+ dq +:+ ": " +:+ dq +:+ "error" +:+ dq +:+ ",
        " +:+ dq +:+ "noPrecisionLoss" +:+ dq +:+ ": " +:+ dq +:+ "error" +:+ dq +:+ ",
        " +:+ dq +:+ "noSelfAssign" +:+ dq +:+ ": " +:+ dq +:+ "error" +:+ dq +:+ ",
        " +:+ dq +:+ "noSetterReturn" +:+ dq +:+ ": " +:+ dq +:+ "error" +:+ dq +:+ ",
        " +:+ dq +:+ "noSwitchDeclarations" +:+ dq +:+ ": " +:+ dq +:+ "error" +:+ dq +:+ ",
        " +:+ dq +:+ "noUndeclaredVariables" +:+ dq +:+ ": " +:+ dq +:+ "error" +:+ dq +:+ ",
        " +:+ dq +:+ "noUnreachable" +:+ dq +:+ ": " +:+ dq +:+ "error" +:+ dq +:+ ",
        " +:+ dq +:+ "noUnreachableSuper" +:+ dq +:+ ": " +:+ dq +:+ "error" +:+ dq +:+ ",
        " +:+ dq +:+ "noUnsafeFinally" +:+ dq +:+ ": " +:+ dq +:+ "error" +:+ dq +:+ ",
        " +:+ dq +:+ "noUnsafeOptionalChaining" +:+ dq +:+ ": " +:+ dq +:+ "error" +:+ dq +:+ ",
        " +:+ dq +:+ "noUnusedLabels" +:+ dq +:+ ": " +:+ dq +:+ "error" +:+ dq +:+ ",
        " +:+ dq +:+ "noUnusedVariables" +:+ dq +:+ ": " +:+ dq +:+ "warn" +:+ dq +:+ ",
        " +:+ dq +:+ "useIsNan" +:+ dq +:+ ": " +:+ dq +:+ "error" +:+ dq +:+ ",
        " +:+ dq +:+ "useValidForDirection" +:+ dq +:+ ": " +:+ dq +:+ "error" +:+ dq +:+ ",
        " +:+ dq +:+ "useYield" +:+ dq +:+ ": " +:+ dq +:+ "error" +:+ dq +:+ "
      },
      " +:+ dq +:+ "style" +:+ dq +:+ ": {
        " +:+ dq +:+ "noNamespace" +:+ dq +:+ ": " +:+ dq +:+ "error" +:+ dq +:+ ",
        " +:+ dq +:+ "useAsConstAssertion" +:+ dq +:+ ": " +:+ dq +:+ "error" +:+ dq +:+ ",
        " +:+ dq +:+ "useBlockStatements" +:+ dq +:+ ": " +:+ dq +:+ "off" +:+ dq +:+ ",
        " +:+ dq +:+ "useConsistentArrayType" +:+ dq +:+ ": " +:+ dq +:+ "off" +:+ dq +:+ ",
        " +:+ dq +:+ "useForOf" +:+ dq +:+ ": " +:+ dq +:+ "warn" +:+ dq +:+ ",
        " +:+ dq +:+ "useShorthandFunctionType" +:+ dq +:+ ": " +:+ dq +:+ "error" +:+ dq +:+ "
      },
      " +:+ dq +:+ "suspicious" +:+ dq +:+ ": {
        " +:+ dq +:+ "noAsyncPromiseExecutor" +:+ dq +:+ ": " +:+ dq +:+ "error" +:+ dq +:+ ",
        " +:+ dq +:+ "noCatchAssign" +:+ dq +:+ ": " +:+ dq +:+ "error" +:+ dq +:+ ",
        " +:+ dq +:+ "noClassAssign" +:+ dq +:+ ": " +:+ dq +:+ "error" +:+ dq +:+ ",
        " +:+ dq +:+ "noCompareNegZero" +:+ dq +:+ ": " +:+ dq +:+ "error" +:+ dq +:+ ",
        " +:+ dq +:+ "noControlCharactersInRegex" +:+ dq +:+ ": " +:+ dq +:+ "error" +:+ dq +:+ ",
        " +:+ dq +:+ "noDebugger" +:+ dq +:+ ": " +:+ dq +:+ "error" +:+ dq +:+ ",
        " +:+ dq +:+ "noDuplicateCase" +:+ dq +:+ ": " +:+ dq +:+ "error" +:+ dq +:+ ",
        " +:+ dq +:+ "noDuplicateClassMembers" +:+ dq +:+ ": " +:+ dq +:+ "error" +:+ dq +:+ ",
        " +:+ dq +:+ "noDuplicateObjectKeys" +:+ dq +:+ ": " +:+ dq +:+ "error" +:+ dq +:+ ",
        " +:+ dq +:+ "noDuplicateParameters" +:+ dq +:+ ": " +:+ dq +:+ "error" +:+ dq +:+ ",
        " +:+ dq +:+ "noEmptyBlockStatements" +:+ dq +:+ ": " +:+ dq +:+ "error" +:+ dq +:+ ",
        " +:+ dq +:+ "noExplicitAny" +:+ dq +:+ ": " +:+ dq +:+ "warn" +:+ dq +:+ ",
        " +:+ dq +:+ "noExtraNonNullAssertion" +:+ dq +:+ ": " +:+ dq +:+ "error" +:+ dq +:+ ",
        " +:+ dq +:+ "noFallthroughSwitchClause" +:+ dq +:+ ": " +:+ dq +:+ "error" +:+ dq +:+ ",
        " +:+ dq +:+ "noFunctionAssign" +:+ dq +:+ ": " +:+ dq +:+ "error" +:+ dq +:+ ",
        " +:+ dq +:+ "noGlobalAssign" +:+ dq +:+ ": " +:+ dq +:+ "error" +:+ dq +:+ ",
        " +:+ dq +:+ "noImportAssign" +:+ dq +:+ ": " +:+ dq +:+ "error" +:+ dq +:+ ",
        " +:+ dq +:+ "noMisleadingCharacterClass" +:+ dq +:+ ": " +:+ dq +:+ "error" +:+ dq +:+ ",
        " +:+ dq +:+ "noMisleadingInstantiator" +:+ dq +:+ ": " +:+ dq +:+ "error" +:+ dq +:+ ",
        " +:+ dq +:+ "noPrototypeBuiltins" +:+ dq +:+ ": " +:+ dq +:+ "error" +:+ dq +:+ ",
        " +:+ dq +:+ "noRedeclare" +:+ dq +:+ ": " +:+ dq +:+ "error" +:+ dq +:+ ",
        " +:+ dq +:+ "noShadowRestrictedNames" +:+ dq +:+ ": " +:+ dq +:+ "error" +:+ dq +:+ ",
        " +:+ dq +:+ "noUnsafeDeclarationMerging" +:+ dq +:+ ": " +:+ dq +:+ "error" +:+ dq +:+ ",
        " +:+ dq +:+ "noUnsafeNegation" +:+ dq +:+ ": " +:+ dq +:+ "error" +:+ dq +:+ ",
        " +:+ dq +:+ "useGetterReturn" +:+ dq +:+ ": " +:+ dq +:+ "error" +:+ dq +:+ ",
        " +:+ dq +:+ "useValidTypeof" +:+ dq +:+ ": " +:+ dq +:+ "error" +:+ dq +:+ "
      }
    }
  },
  " +:+ dq +:+ "javascript" +:+ dq +:+ ": {
    " +:+ dq +:+ "formatter" +:+ dq +:+ ": {
      " +:+ dq +:+ "quoteStyle" +:+ dq +:+ ": " +:+ dq +:+ "single" +:+ dq +:+ ",
      " +:+ dq +:+ "trailingCommas" +:+ dq +:+ ": " +:+ dq +:+ "all" +:+ dq +:+ ",
      " +:+ dq +:+ "semicolons" +:+ dq +:+ ": " +:+ dq +:+ "always" +:+ dq +:+ ",
      " +:+ dq +:+ "arrowParentheses" +:+ dq +:+ ": " +:+ dq +:+ "always" +:+ dq +:+ "
    }
  }
}
".

Definition getMarkdownLinkCheckConfig : string :=
"{
  " +:+ dq +:+ "ignorePatterns" +:+ dq +:+ ": [
    {
      " +:+ dq +:+ "pattern" +:+ dq +:+ ": " +:+ dq +:+ "^http://localhost" +:+ dq +:+ "
    },
    {
      " +:+ dq +:+ "pattern" +:+ dq +:+ ": " +:+ dq +:+ "^https://localhost" +:+ dq +:+ "
    }
  ],
  " +:+ dq +:+ "replacementPatterns" +:+ dq +:+ ": [],
  " +:+ dq +:+ "httpHeaders" +:+ dq +:+ ": [],
  " +:+ dq +:+ "timeout" +:+ dq +:+ ": " +:+ dq +:+ "5s" +:+ dq +:+ ",
  " +:+ dq +:+ "retryOn429" +:+ dq +:+ ": true,
  " +:+ dq +:+ "retryCount" +:+ dq +:+ ": 3,
  " +:+ dq +:+ "fallbackRetryDelay" +:+ dq +:+ ": " +:+ dq +:+ "5s" +:+ dq +:+ ",
  " +:+ dq +:+ "aliveStatusCodes" +:+ dq +:+ ": [200, 206]
}
".

(** The answers of the questionnaire, as [main] reads them off [project]. *)
Record Project := {
  path : string;
  projectType : ProjectType;
  validationLanguage : ValidationLanguage;
  includeObservability : bool;
  includeCI : bool;
}.

(** ** Strings as JavaScript uses them

    Strings are byte strings (the UTF-8 encoding of the JavaScript string).
    The operations below only look for ASCII characters, whose bytes never
    occur inside a multi-byte UTF-8 sequence, so they agree with the
    JavaScript operations on UTF-16 code units. *)

(** [s.split(c)] for a one-character separator [c]: never empty. *)
Fixpoint split (c : ascii) (s : string) : list string :=
  match s with
  | EmptyString => [EmptyString]
  | String a s' =>
      if Ascii.eqb a c then EmptyString :: split c s'
      else match split c s' with
           | seg :: rest => String a seg :: rest
           | [] => [String a EmptyString]
           end
  end.

(** [s.startsWith(p)] and [s.endsWith(p)]. *)
Definition startsWith (s p : string) : bool := String.prefix p s.

Fixpoint endsWith (s p : string) : bool :=
  String.eqb s p ||
  match s with
  | EmptyString => false
  | String _ s' => endsWith s' p
  end.

(** [buffer.toString('utf-8')], which [readFileSync(p, 'utf-8')] ends
    with: the decoder of the Encoding standard.  A byte that cannot start a
    sequence is replaced by U+FFFD; so is a sequence cut short by a byte
    that cannot continue it (or by the end of the input), and that byte is
    then looked at again as a start.  [lower] and [upper] bound the next
    continuation byte, which excludes overlong forms, surrogates and code
    points above U+10FFFF.  Strings being bytes here, the result is the
    UTF-8 encoding of the decoded string: well-formed text decodes to
    itself, and two decoded strings are equal in JavaScript exactly when
    they are equal here. *)
Definition replacement : string :=
  String (Ascii.ascii_of_nat 239)
    (String (Ascii.ascii_of_nat 191) (String (Ascii.ascii_of_nat 189) EmptyString)).

Fixpoint utf8_decode_from (seen : string) (needed lower upper : nat) (s : string) : string :=
  match s with
  | EmptyString => if (needed =? 0)%nat then EmptyString else replacement
  | String c s' =>
      let b := Ascii.nat_of_ascii c in
      if (needed =? 0)%nat || negb ((lower <=? b)%nat && (b <=? upper)%nat) then
        (if (needed =? 0)%nat then EmptyString else replacement) +:+
        (if (b <=? 127)%nat then
           String c (utf8_decode_from EmptyString 0 128 191 s')
         else if (194 <=? b)%nat && (b <=? 223)%nat then
           utf8_decode_from (String c EmptyString) 1 128 191 s'
         else if (224 <=? b)%nat && (b <=? 239)%nat then
           utf8_decode_from (String c EmptyString) 2
             (if (b =? 224)%nat then 160 else 128) (if (b =? 237)%nat then 159 else 191) s'
         else if (240 <=? b)%nat && (b <=? 244)%nat then
           utf8_decode_from (String c EmptyString) 3
             (if (b =? 240)%nat then 144 else 128) (if (b =? 244)%nat then 143 else 191) s'
         else replacement +:+ utf8_decode_from EmptyString 0 128 191 s')
      else if (needed =? 1)%nat then
        seen +:+ String c (utf8_decode_from EmptyString 0 128 191 s')
      else
        utf8_decode_from (seen +:+ String c EmptyString) (needed - 1) 128 191 s'
  end.

Definition utf8_decode (bytes : string) : string :=
  utf8_decode_from EmptyString 0 128 191 bytes.

(** ** [node:path] (POSIX flavour) *)

Definition slash : ascii := "/"%char.

Definition isAbsolute (p : string) : bool :=
  match p with
  | String c _ => Ascii.eqb c slash
  | EmptyString => false
  end.

(** [normalizeString]: the segments of a path with [""] and ["."] dropped and
    [".."] resolved against the segments kept so far; a [".."] that has
    nothing to remove is kept when [allowAboveRoot] and dropped otherwise. *)
Fixpoint normalizeString (allowAboveRoot : bool) (res segs : list string) : list string :=
  match segs with
  | [] => res
  | seg :: rest =>
      if bool_decide (seg = "") || bool_decide (seg = ".") then
        normalizeString allowAboveRoot res rest
      else if bool_decide (seg = "..") then
        match last res with
        | Some l =>
            if bool_decide (l = "..")
            then normalizeString allowAboveRoot
                   (if allowAboveRoot then res ++ [".."] else res) rest
            else normalizeString allowAboveRoot (removelast res) rest
        | None =>
            normalizeString allowAboveRoot
              (if allowAboveRoot then res ++ [".."] else res) rest
        end
      else normalizeString allowAboveRoot (res ++ [seg]) rest
  end.

(** [path.normalize]. *)
Definition normalize (p : string) : string :=
  if bool_decide (p = "") then "."
  else
    let absolute := isAbsolute p in
    let trailingSeparator := endsWith p "/" in
    let body := String.concat "/" (normalizeString (negb absolute) [] (split slash p)) in
    if bool_decide (body = "") then
      if absolute then "/" else if trailingSeparator then "./" else "."
    else
      let body := if trailingSeparator then body +:+ "/" else body in
      if absolute then "/" +:+ body else body.

(** [path.join(a, b)]: empty arguments are skipped, the rest is joined with
    ["/"] and normalized. *)
Definition join (a b : string) : string :=
  if bool_decide (a = "") then
    if bool_decide (b = "") then "." else normalize b
  else if bool_decide (b = "") then normalize a
  else normalize (a +:+ "/" +:+ b).

(** ** The file system

    The file tree is a map from resolved absolute paths (lists of segments;
    the root directory is [[]] and always exists) to nodes.  A path is
    resolved lexically against the working directory: there are no symbolic
    links, and [".."] removes the segment before it.  That is where the file
    system leads when every entry a [".."] steps back from is a directory,
    as it is for the paths that [join] builds, in which [join] has resolved
    the [".."] segments already.  The one path the program passes on as the
    user typed it is the project path; the statements that depend on the way
    it is walked are about paths without [".."] ([straight] below). *)

Inductive node :=
| File (content : string) (mtimeMs : Z)
| Dir (mtimeMs : Z).

Definition mtimeMs_of (n : node) : Z :=
  match n with File _ t => t | Dir t => t end.

(** Console output of the scaffolder, in the order it is produced. *)
Inductive event :=
| Clear
| Intro (title : string)
| Cancel (message : string)
| SpinnerStart (message : string)
| SpinnerMessage (message : string)
| SpinnerStop (message : string)
| Note (body title : string)
| Outro (message : string)
| ConsoleError (err : string).

Record world := {
  files : gmap (list string) node;
  cwd : list string;
  clock : Z;
  console : list event;
}.

Definition walk (at_ : list string) (seg : string) : list string :=
  if bool_decide (seg = "") || bool_decide (seg = ".") then at_
  else if bool_decide (seg = "..") then removelast at_
  else at_ ++ [seg].

Definition resolve (cwd : list string) (p : string) : list string :=
  foldl walk (if isAbsolute p then [] else cwd) (split slash p).

Definition node_at (m : gmap (list string) node) (k : list string) : option node :=
  match k with
  | [] => Some (Dir 0)
  | _ => m !! k
  end.

(** [process.cwd()] and [process.chdir]. *)
Definition process_cwd (w : world) : string := "/" +:+ String.concat "/" (cwd w).

Definition chdir (p : string) (w : world) : world :=
  {| files := files w; cwd := resolve (cwd w) p; clock := clock w; console := console w |}.

(** ** Computations: state, exceptions and [process.exit] *)

Inductive outcome (A : Type) :=
| Return (a : A)
| Throw (err : string)
| Exit (code : Z).
Arguments Return {A} a.
Arguments Throw {A} err.
Arguments Exit {A} code.

Definition eff (S A : Type) : Type := S → outcome A * S.

#[global] Instance eff_ret {S} : MRet (eff S) := λ A a s, (Return a, s).
#[global] Instance eff_bind {S} : MBind (eff S) := λ A B f m s,
  match m s with
  | (Return a, s') => f a s'
  | (Throw e, s') => (Throw e, s')
  | (Exit c, s') => (Exit c, s')
  end.

Definition throw {S A} (err : string) : eff S A := λ s, (Throw err, s).
Definition process_exit {S A} (code : Z) : eff S A := λ s, (Exit code, s).

(** [for (const x of xs) body(x)]. *)
Fixpoint for_of {S A} (xs : list A) (body : A → eff S unit) : eff S unit :=
  match xs with
  | [] => mret tt
  | x :: rest => body x ;; for_of rest body
  end.

Definition when_ {S} (c : bool) (body : eff S unit) : eff S unit :=
  if c then body else mret tt.

(** ** [node:fs], synchronous calls *)

(** The entry a path leads to, as [stat] finds it.  A path that ends in a
    separator names a directory: on a regular file it fails. *)
Definition entry_at (w : world) (p : string) : string + node :=
  if bool_decide (p = "") then inl "ENOENT"
  else match node_at (files w) (resolve (cwd w) p) with
       | Some (File c t) => if endsWith p "/" then inl "ENOTDIR" else inr (File c t)
       | Some (Dir t) => inr (Dir t)
       | None => inl "ENOENT"
       end.

Definition existsSync (w : world) (p : string) : bool :=
  match entry_at w p with
  | inr _ => true
  | inl _ => false
  end.

(** [mkdir -p]: walks down from [at_], creating what is missing. *)
Fixpoint mkdirp (t : Z) (at_ segs : list string) (m : gmap (list string) node)
  : string + gmap (list string) node :=
  match segs with
  | [] => inr m
  | seg :: rest =>
      let d := at_ ++ [seg] in
      match m !! d with
      | None => mkdirp t d rest (<[d := Dir t]> m)
      | Some (Dir _) => mkdirp t d rest m
      | Some (File _ _) => inl (if rest is [] then "EEXIST" else "ENOTDIR")
      end
  end.

Definition set_files (m : gmap (list string) node) (w : world) : world :=
  {| files := m; cwd := cwd w; clock := clock w; console := console w |}.

(** [mkdirSync(p, { recursive: true })].  Where a regular file is in the
    way, a path that ends in a separator fails as not leading to a
    directory. *)
Definition mkdirSync (p : string) : eff world unit := λ w,
  if bool_decide (p = "") then (Throw "ENOENT", w)
  else match mkdirp (clock w) [] (resolve (cwd w) p) (files w) with
       | inr m => (Return tt, set_files m w)
       | inl e => (Throw (if endsWith p "/" then "ENOTDIR" else e), w)
       end.

(** [writeFileSync(p, data)]: creates or overwrites a file in an existing
    directory.  A path that ends in a separator names a directory, which
    cannot be written. *)
Definition writeFileSync (p data : string) : eff world unit := λ w,
  if bool_decide (p = "") then (Throw "ENOENT", w)
  else
    let k := resolve (cwd w) p in
    match node_at (files w) (removelast k) with
    | Some (Dir _) =>
        match node_at (files w) k with
        | Some (Dir _) => (Throw "EISDIR", w)
        | _ =>
            if endsWith p "/" then (Throw "EISDIR", w)
            else (Return tt, set_files (<[k := File data (clock w)]> (files w)) w)
        end
    | Some (File _ _) => (Throw "ENOTDIR", w)
    | None => (Throw "ENOENT", w)
    end.

(** The read-only calls, used by the validator: they leave the world as it
    is, so they are functions of it. *)

(** [readFileSync(p, 'utf-8')]: the bytes of the file, decoded. *)
Definition readFileSync (w : world) (p : string) : string + string :=
  match entry_at w p with
  | inr (File c _) => inr (utf8_decode c)
  | inr (Dir _) => inl "EISDIR"
  | inl e => inl e
  end.

(** The names in a directory; their order is the one of the map. *)
Definition children (m : gmap (list string) node) (d : list string) : list string :=
  omap (λ kv, match last kv.1 with
              | Some name => if bool_decide (removelast kv.1 = d) then Some name else None
              | None => None
              end) (map_to_list m).

Definition readdirSync (w : world) (p : string) : string + list string :=
  match entry_at w p with
  | inr (Dir _) => inr (children (files w) (resolve (cwd w) p))
  | inr (File _ _) => inl "ENOTDIR"
  | inl e => inl e
  end.

(** [statSync(p).mtimeMs]. *)
Definition statSync_mtimeMs (w : world) (p : string) : string + Z :=
  match entry_at w p with
  | inr n => inr (mtimeMs_of n)
  | inl e => inl e
  end.

Definition console_log (e : event) : eff world unit := λ w,
  (Return tt,
   {| files := files w; cwd := cwd w; clock := clock w; console := console w ++ [e] |}).

Definition read {S A} (f : S → A) : eff S A := λ s, (Return (f s), s).

(** ** [JSON.stringify(value, null, 2)]

    Objects with string leaves are all the scaffolder serializes.  Strings
    are quoted with the double quote and the backslash escaped. *)

#[warnings="-register-all"]
Inductive json :=
| JString (s : string)
| JObject (fields : list (string * json)).

Fixpoint json_escape (s : string) : string :=
  match s with
  | EmptyString => EmptyString
  | String c s' =>
      if Ascii.eqb c (Ascii.ascii_of_nat 34) || Ascii.eqb c (Ascii.ascii_of_nat 92)
      then String (Ascii.ascii_of_nat 92) (String c (json_escape s'))
      else String c (json_escape s')
  end.

Definition json_quote (s : string) : string := dq +:+ json_escape s +:+ dq.

Fixpoint JSON_stringify (indent current : string) (v : json) : string :=
  match v with
  | JString s => json_quote s
  | JObject [] => "{}"
  | JObject fields =>
      let inner := current +:+ indent in
      "{
" +:+ String.concat ",
" (List.map (λ kv, inner +:+ json_quote kv.1 +:+ ": " +:+ JSON_stringify indent inner kv.2)
            fields) +:+ "
" +:+ current +:+ "}"
  end.









(** ** The questionnaire ([@clack/prompts]) *)

(** What the user does at one prompt. *)
Inductive answer (A : Type) :=
| Cancelled
| Answered (a : A).
Arguments Cancelled {A}.
Arguments Answered {A} a.

(** One interactive session: what the user does at each prompt, should the
    prompt be reached. *)
Record session := {
  at_path : answer string;
  at_projectType : answer ProjectType;
  at_validationLanguage : answer ValidationLanguage;
  at_includeObservability : answer bool;
  at_includeCI : answer bool;
}.

(** [p.text({ defaultValue })]: an empty input yields the default. *)
Definition p_text (defaultValue : string) (a : answer string) : answer string :=
  match a with
  | Answered s => Answered (if bool_decide (s = "") then defaultValue else s)
  | Cancelled => Cancelled
  end.

(** The [onCancel] handler of [main]. *)
Definition onCancel {A} : eff world A :=
  console_log (Cancel "Operation cancelled.") ;;
  process_exit 0.

(** One prompt of [p.group]: a cancelled prompt runs the handler, which does
    not return. *)
Definition prompt {A} (a : answer A) : eff world A :=
  match a with
  | Answered v => mret v
  | Cancelled => onCancel
  end.

(** [p.group] over the five prompts, in the order they are declared. *)
Definition group (s : session) : eff world Project :=
  path ← prompt (p_text "./my-agent-project" (at_path s));
  projectType ← prompt (at_projectType s);
  validationLanguage ← prompt (at_validationLanguage s);
  includeObservability ← prompt (at_includeObservability s);
  includeCI ← prompt (at_includeCI s);
  mret {| path := path; projectType := projectType;
          validationLanguage := validationLanguage;
          includeObservability := includeObservability;
          includeCI := includeCI |}.

(** [picocolors]: with colours off, every colour function is the identity. *)
Definition pc_cyan (s : string) : string := s.
Definition pc_dim (s : string) : string := s.
Definition pc_green (s : string) : string := s.

(** ** The scaffolder ([index.js]) *)

Definition validationPackageJson : json :=
  JObject [
    ("name", JString "validation-scripts");
    ("version", JString "1.0.0");
    ("type", JString "module");
    ("scripts", JObject [("validate", JString "tsx scripts/validate-structure.ts")]);
    ("devDependencies", JObject [("tsx", JString "^4.19.2")])
  ].

Definition design_docs_index : string :=
"# Design Documentation

This directory contains all design documents and architectural decisions.

## Active Designs

- [Core Beliefs](./core-beliefs.md)

## Template

Use `template.md` as a starting point for new design documents.
".

Definition product_specs_index : string :=
"# Product Specifications

This directory contains all product specifications and feature requirements.

## Active Specs

- None yet

## Template

Use `template.md` as a starting point for new product specs.
".

Definition directories (project : Project) : list string :=
  [ "docs/design-docs";
    "docs/exec-plans/active";
    "docs/exec-plans/completed";
    "docs/product-specs";
    "docs/references";
    "docs/generated";
    "scripts" ] ++
  (if includeCI project then [".github/workflows"] else []).

Definition getting_started (project : Project) : string :=
  pc_cyan "cd" +:+ " " +:+ path project +:+ "

" +:+ pc_dim "Next steps:" +:+ "
1. Initialize your application framework (e.g., " +:+ pc_cyan "npm create vite@latest" +:+ ", " +:+ pc_cyan "bun create next-app" +:+ ")
2. Review and customize " +:+ pc_cyan "AGENTS.md" +:+ " and " +:+ pc_cyan "CLAUDE.md" +:+ "
3. Add your first design doc in " +:+ pc_cyan "docs/design-docs/" +:+ "
4. " +:+ (if includeCI project then "Push to GitHub to activate CI workflows" else "Set up CI/CD workflows") +:+ "

" +:+ pc_dim "Validation:" +:+ "
" +:+ (if bool_decide (validationLanguage project = typescript)
       then "- Run " +:+ pc_cyan "cd scripts && npm install && npm run validate"
       else "- Run " +:+ pc_cyan "node scripts/validate-structure.js").

(** The body of [main] once the questionnaire is answered. *)
Definition scaffold (project : Project) : eff world unit :=
  console_log (SpinnerStart "Creating project structure") ;;
  let projectPath := path project in
  (* Create root directory *)
  present ← read (λ w, existsSync w projectPath);
  when_ (negb present) (mkdirSync projectPath) ;;
  (* Create directory structure *)
  for_of (directories project) (λ dir, mkdirSync (join projectPath dir)) ;;
  console_log (SpinnerMessage "Writing documentation templates") ;;
  (* Write root documentation files *)
  writeFileSync (join projectPath "AGENTS.md") (getAgentsTemplate (projectType project)) ;;
  writeFileSync (join projectPath "CLAUDE.md") (getAgentsTemplate (projectType project)) ;;
  writeFileSync (join projectPath "ARCHITECTURE.md") (getArchitectureTemplate (projectType project)) ;;
  writeFileSync (join projectPath "DESIGN.md") getDesignTemplate ;;
  writeFileSync (join projectPath "PLANS.md") getPlansTemplate ;;
  writeFileSync (join projectPath "PRODUCT_SENSE.md") getProductSenseTemplate ;;
  writeFileSync (join projectPath "QUALITY_SCORE.md") getQualityScoreTemplate ;;
  writeFileSync (join projectPath "RELIABILITY.md") getReliabilityTemplate ;;
  writeFileSync (join projectPath "SECURITY.md") getSecurityTemplate ;;
  when_ (bool_decide (projectType project = fullstack) || bool_decide (projectType project = frontend))
    (writeFileSync (join projectPath "FRONTEND.md") getFrontendTemplate) ;;
  (* Write docs templates *)
  writeFileSync (join projectPath "docs/design-docs/index.md") design_docs_index ;;
  writeFileSync (join projectPath "docs/design-docs/core-beliefs.md") getCoreBeliefsTemplate ;;
  writeFileSync (join projectPath "docs/design-docs/template.md") getDesignDocTemplate ;;
  writeFileSync (join projectPath "docs/exec-plans/template.md") getExecPlanTemplate ;;
  writeFileSync (join projectPath "docs/exec-plans/tech-debt-tracker.md") getTechDebtTrackerTemplate ;;
  writeFileSync (join projectPath "docs/product-specs/index.md") product_specs_index ;;
  writeFileSync (join projectPath "docs/product-specs/template.md") getProductSpecTemplate ;;
  (* Write validation script *)
  console_log (SpinnerMessage "Creating validation tooling") ;;
  let scriptExt := if bool_decide (validationLanguage project = typescript) then "ts" else "js" in
  writeFileSync (join projectPath ("scripts/validate-structure." +:+ scriptExt))
    (getValidationScriptTemplate (validationLanguage project)) ;;
  (* Add package.json for validation script if TypeScript *)
  when_ (bool_decide (validationLanguage project = typescript))
    (writeFileSync (join projectPath "scripts/package.json")
       (JSON_stringify "  " "" validationPackageJson)) ;;
  (* Write GitHub Actions workflow *)
  when_ (includeCI project)
    (console_log (SpinnerMessage "Creating CI/CD workflows") ;;
     writeFileSync (join projectPath ".github/workflows/validate-docs.yml")
       (getGithubWorkflowTemplate (validationLanguage project)) ;;
     writeFileSync (join projectPath ".github/markdown-link-check-config.json")
       getMarkdownLinkCheckConfig) ;;
  writeFileSync (join projectPath ".gitignore") getGitignoreTemplate ;;
  writeFileSync (join projectPath "biome.json") getBiomeConfigTemplate ;;
  writeFileSync (join projectPath "README.md")
    (getReadmeTemplate (projectType project) (validationLanguage project)) ;;
  console_log (SpinnerStop "Project created successfully!") ;;
  console_log (Note (getting_started project) "Getting Started") ;;
  console_log (Outro (pc_green "âœ“" +:+ " Agent harness ready! Start building with AI agents.")).

Definition main (s : session) : eff world unit :=
  console_log Clear ;;
  console_log (Intro " agentic-engine ") ;;
  project ← group s;
  scaffold project.

(** [main().catch(console.error)], then the event loop drains.  The process
    ends when [process.exit] is called or when nothing is left to run, and
    its exit code is then [process.exitCode], which nothing sets.  [main]
    throws only between [s.start] and [s.stop] (the file-system calls are
    all there): the error is printed, the timer of the spinner is never
    cleared, and the process does not end.  The result is the exit code, if
    the process ends, and the final world. *)
Definition run (s : session) (w : world) : option Z * world :=
  match main s w with
  | (Return _, w') => (Some 0%Z, w')
  | (Throw e, w') => (None, (console_log (ConsoleError e) w').2)
  | (Exit code, w') => (Some code, w')
  end.

(** ** The structure validator

    The class [StructureValidator] of the emitted
    [scripts/validate-structure.js]; the TypeScript variant is the same
    program with type annotations.  The validator only reads the file
    system, so the world is a parameter of the run and the state threaded
    through the methods is the object itself, with what it has printed. *)

Record StructureValidator := {
  rootDir : string;
  errors : list string;
  warnings : list string;
  stdout : list string;
}.

Definition errors_push (e : string) : eff StructureValidator unit := λ v,
  (Return tt, {| rootDir := rootDir v; errors := errors v ++ [e];
                 warnings := warnings v; stdout := stdout v |}).

Definition warnings_push (e : string) : eff StructureValidator unit := λ v,
  (Return tt, {| rootDir := rootDir v; errors := errors v;
                 warnings := warnings v ++ [e]; stdout := stdout v |}).

Definition log (line : string) : eff StructureValidator unit := λ v,
  (Return tt, {| rootDir := rootDir v; errors := errors v;
                 warnings := warnings v; stdout := stdout v ++ [line] |}).

(** A call that returns or throws. *)
Definition try_ {S A} (r : string + A) : eff S A :=
  match r with
  | inr a => mret a
  | inl e => throw e
  end.

(** *** The link pattern [/\[([^\]]+)\]\(([^)]+)\)/g] *)

(** The longest run of characters other than [c] at the start of [s], and
    what follows it, which starts with [c]; [None] when [c] does not occur. *)
Fixpoint take_until (c : ascii) (s : string) : option (string * string) :=
  match s with
  | EmptyString => None
  | String a s' =>
      if Ascii.eqb a c then Some (EmptyString, s)
      else match take_until c s' with
           | Some (run, rest) => Some (String a run, rest)
           | None => None
           end
  end.

(** The pattern matched at the start of [s]: group 2 and the length of the
    match.  Both groups are greedy runs that exclude their closing
    character, so there is one way to match at most. *)
Definition match_link (s : string) : option (string * nat) :=
  match s with
  | String "[" s1 =>
      match take_until "]" s1 with
      | Some (String a text, String _ (String "(" s3)) =>
          match take_until ")" s3 with
          | Some (String b linkPath, _) =>
              Some (String b linkPath,
                    4 + String.length (String a text) + String.length (String b linkPath))
          | _ => None
          end
      | _ => None
      end
  | _ => None
  end.

(** The successive results of [linkRegex.exec], group 2 of each: the
    leftmost match from [lastIndex] on, then on from its end.  [skip] counts
    the characters of the last match still to pass. *)
Fixpoint exec_all (skip : nat) (s : string) : list string :=
  match s with
  | EmptyString => []
  | String _ s' =>
      match skip with
      | S n => exec_all n s'
      | O =>
          match match_link s with
          | Some (linkPath, len) => linkPath :: exec_all (len - 1) s'
          | None => exec_all 0 s'
          end
      end
  end.

Definition sixMonths : Z := 6 * 30 * 24 * 60 * 60 * 1000.

Section StructureValidator.
(** The file system the validator runs on; its clock is [Date.now()]. *)
Variable w : world.

Definition validateRootDocs : eff StructureValidator unit :=
  rootDir ← read rootDir;
  let requiredDocs :=
    [ "AGENTS.md"; "CLAUDE.md"; "ARCHITECTURE.md"; "DESIGN.md"; "PLANS.md";
      "PRODUCT_SENSE.md"; "QUALITY_SCORE.md"; "RELIABILITY.md"; "SECURITY.md" ] in
  for_of requiredDocs (λ doc,
    when_ (negb (existsSync w (join rootDir doc)))
      (errors_push ("Missing required document: " +:+ doc))) ;;
  (* Validate AGENTS.md and CLAUDE.md are identical *)
  when_ (existsSync w (join rootDir "AGENTS.md") && existsSync w (join rootDir "CLAUDE.md"))
    (agentsContent ← try_ (readFileSync w (join rootDir "AGENTS.md"));
     claudeContent ← try_ (readFileSync w (join rootDir "CLAUDE.md"));
     when_ (negb (String.eqb agentsContent claudeContent))
       (errors_push "AGENTS.md and CLAUDE.md must be identical")) ;;
  (* Validate AGENTS.md is roughly 100 lines (allow some variance) *)
  when_ (existsSync w (join rootDir "AGENTS.md"))
    (agentsContent ← try_ (readFileSync w (join rootDir "AGENTS.md"));
     let lineCount := length (split (Ascii.ascii_of_nat 10) agentsContent) in
     when_ (150 <? lineCount)%nat
       (warnings_push ("AGENTS.md is " +:+ pretty lineCount +:+
                       " lines (recommended: ~100 lines). Consider moving details to docs/"))).

Definition validateDocsStructure : eff StructureValidator unit :=
  rootDir ← read rootDir;
  let requiredDirs :=
    [ "docs/design-docs"; "docs/exec-plans/active"; "docs/exec-plans/completed";
      "docs/product-specs"; "docs/references"; "docs/generated" ] in
  for_of requiredDirs (λ dir,
    when_ (negb (existsSync w (join rootDir dir)))
      (errors_push ("Missing required directory: " +:+ dir))) ;;
  (* Validate index files exist *)
  let requiredIndexes := [ "docs/design-docs/index.md"; "docs/product-specs/index.md" ] in
  for_of requiredIndexes (λ index,
    when_ (negb (existsSync w (join rootDir index)))
      (warnings_push ("Missing index file: " +:+ index))).

Definition validateCrossLinks : eff StructureValidator unit :=
  rootDir ← read rootDir;
  (* Basic validation: check that referenced files exist *)
  let agentsPath := join rootDir "AGENTS.md" in
  if negb (existsSync w agentsPath) then mret tt
  else
    agentsContent ← try_ (readFileSync w agentsPath);
    for_of (exec_all 0 agentsContent) (λ linkPath,
      (* Skip external links *)
      if startsWith linkPath "http" then mret tt
      else
        let fullPath := join rootDir linkPath in
        when_ (negb (existsSync w fullPath))
          (warnings_push ("Broken link in AGENTS.md: " +:+ linkPath))).

Definition validateDocFreshness : eff StructureValidator unit :=
  rootDir ← read rootDir;
  (* Check that design docs have been updated recently *)
  let designDocsDir := join rootDir "docs/design-docs" in
  if negb (existsSync w designDocsDir) then mret tt
  else
    entries ← try_ (readdirSync w designDocsDir);
    let files := List.filter (λ f, endsWith f ".md") entries in
    if (length files =? 0)%nat then
      warnings_push "No design documents found in docs/design-docs/"
    else
      let now := clock w in
      for_of files (λ file,
        if String.eqb file "index.md" || String.eqb file "template.md" then mret tt
        else
          let filePath := join designDocsDir file in
          mtimeMs ← try_ (statSync_mtimeMs w filePath);
          let age := (now - mtimeMs)%Z in
          when_ (sixMonths <? age)%Z
            (warnings_push ("Design doc hasn't been updated in 6+ months: " +:+ file))).

Definition rule : string := String.concat "" (replicate 60 "=").

Definition printResults : eff StructureValidator unit :=
  errors ← read errors;
  warnings ← read warnings;
  log ("
" +:+ rule) ;;
  (if (length errors =? 0)%nat && (length warnings =? 0)%nat then
     log "✅ All validation checks passed!"
   else
     when_ (0 <? length errors)%nat
       (log ("
❌ Errors (" +:+ pretty (length errors) +:+ "):
") ;;
        for_of errors (λ error, log ("  - " +:+ error))) ;;
     when_ (0 <? length warnings)%nat
       (log ("
⚠️  Warnings (" +:+ pretty (length warnings) +:+ "):
") ;;
        for_of warnings (λ warning, log ("  - " +:+ warning)))) ;;
  log ("
" +:+ rule +:+ "
").

Definition validate : eff StructureValidator bool :=
  log "🔍 Validating project structure...
" ;;
  validateRootDocs ;;
  validateDocsStructure ;;
  validateCrossLinks ;;
  validateDocFreshness ;;
  printResults ;;
  errors ← read errors;
  mret (length errors =? 0)%nat.

(** [new StructureValidator(rootDir)]. *)
Definition new_StructureValidator (rootDir : string) : StructureValidator :=
  {| rootDir := rootDir; errors := []; warnings := []; stdout := [] |}.

(** The script: [validate] on the working directory, then
    [process.exit(success ? 0 : 1)]. *)
Definition script : eff StructureValidator unit :=
  validate ≫= λ success : bool,
  process_exit (if success then 0 else 1).

(** The run of the script as a process: its exit code and the validator
    as the run left it.  An exception nobody catches ends the process with
    code 1. *)
Definition validate_structure : Z * StructureValidator :=
  match script (new_StructureValidator (process_cwd w)) with
  | (Exit code, v) => (code, v)
  | (Throw _, v) => (1%Z, v)
  | (Return _, v) => (0%Z, v)
  end.
End StructureValidator.

(** The clock moves on by [d] milliseconds. *)
Definition later (d : Z) (w : world) : world :=
  {| files := files w; cwd := cwd w; clock := (clock w + d)%Z; console := console w |}.

(** ** Vocabulary of the statements *)

(** A path segment that names an entry: not empty, not ["."] or [".."], and
    without a separator. *)
Definition slash_free (s : string) : Prop := split slash s = [s].

Definition normal_seg (s : string) : Prop :=
  s ≠ "" ∧ s ≠ "." ∧ s ≠ ".." ∧ slash_free s.

(** Nothing exists below the path [p]: if there is a directory at [p], it
    is empty. *)
Definition empty_target (w : world) (p : string) : Prop :=
  map_Forall (λ k _, ¬ (resolve (cwd w) p `prefix_of` k ∧ k ≠ resolve (cwd w) p)) (files w).

(** A path as the user types it that is walked the way it reads: no segment
    is [".."], and the last one is a name, so the path ends neither in a
    separator nor in [.]. *)
Definition straight (p : string) : Prop :=
  Forall (λ seg, seg ≠ "..") (split slash p) ∧
  match last (split slash p) with
  | Some seg => normal_seg seg
  | None => False
  end.


(** [s.includes(sub)]. *)
Fixpoint includes (s sub : string) : bool :=
  String.prefix sub s ||
  match s with
  | EmptyString => false
  | String _ s' => includes s' sub
  end.

(** The session is cancelled at one of its prompts. *)
Definition cancelled (s : session) : Prop :=
  at_path s = Cancelled ∨ at_projectType s = Cancelled ∨
  at_validationLanguage s = Cancelled ∨ at_includeObservability s = Cancelled ∨
  at_includeCI s = Cancelled.

(** *** The steps of [scaffold], listed

    [scaffold] is straight-line code; the list of its file-system calls and
    messages, in order, lets the reasoning go by induction.  Paths are the
    ones the source passes to [join(projectPath, _)].
    [scaffold_steps] states that [scaffold] performs exactly this list. *)

Inductive step :=
| Mkdir (rel : string)
| WriteFile (rel content : string)
| Say (e : event).

Definition perform (projectPath : string) (s : step) : eff world unit :=
  match s with
  | Mkdir rel => mkdirSync (join projectPath rel)
  | WriteFile rel content => writeFileSync (join projectPath rel) content
  | Say e => console_log e
  end.

Definition ensure_root (projectPath : string) : eff world unit :=
  present ← read (λ w, existsSync w projectPath);
  when_ (negb present) (mkdirSync projectPath).

Definition steps (project : Project) : list step :=
  (Mkdir <$> directories project) ++
  [ Say (SpinnerMessage "Writing documentation templates");
    WriteFile "AGENTS.md" (getAgentsTemplate (projectType project));
    WriteFile "CLAUDE.md" (getAgentsTemplate (projectType project));
    WriteFile "ARCHITECTURE.md" (getArchitectureTemplate (projectType project));
    WriteFile "DESIGN.md" getDesignTemplate;
    WriteFile "PLANS.md" getPlansTemplate;
    WriteFile "PRODUCT_SENSE.md" getProductSenseTemplate;
    WriteFile "QUALITY_SCORE.md" getQualityScoreTemplate;
    WriteFile "RELIABILITY.md" getReliabilityTemplate;
    WriteFile "SECURITY.md" getSecurityTemplate ] ++
  (if bool_decide (projectType project = fullstack) || bool_decide (projectType project = frontend)
   then [ WriteFile "FRONTEND.md" getFrontendTemplate ] else []) ++
  [ WriteFile "docs/design-docs/index.md" design_docs_index;
    WriteFile "docs/design-docs/core-beliefs.md" getCoreBeliefsTemplate;
    WriteFile "docs/design-docs/template.md" getDesignDocTemplate;
    WriteFile "docs/exec-plans/template.md" getExecPlanTemplate;
    WriteFile "docs/exec-plans/tech-debt-tracker.md" getTechDebtTrackerTemplate;
    WriteFile "docs/product-specs/index.md" product_specs_index;
    WriteFile "docs/product-specs/template.md" getProductSpecTemplate;
    Say (SpinnerMessage "Creating validation tooling");
    WriteFile ("scripts/validate-structure." +:+
               (if bool_decide (validationLanguage project = typescript) then "ts" else "js"))
      (getValidationScriptTemplate (validationLanguage project)) ] ++
  (if bool_decide (validationLanguage project = typescript)
   then [ WriteFile "scripts/package.json" (JSON_stringify "  " "" validationPackageJson) ]
   else []) ++
  (if includeCI project
   then [ Say (SpinnerMessage "Creating CI/CD workflows");
          WriteFile ".github/workflows/validate-docs.yml"
            (getGithubWorkflowTemplate (validationLanguage project));
          WriteFile ".github/markdown-link-check-config.json" getMarkdownLinkCheckConfig ]
   else []) ++
  [ WriteFile ".gitignore" getGitignoreTemplate;
    WriteFile "biome.json" getBiomeConfigTemplate;
    WriteFile "README.md" (getReadmeTemplate (projectType project) (validationLanguage project));
    Say (SpinnerStop "Project created successfully!");
    Say (Note (getting_started project) "Getting Started");
    Say (Outro (pc_green "âœ“" +:+ " Agent harness ready! Start building with AI agents.")) ].

(** What a step that succeeds does to the node at key [k], where [base] is
    the resolved project path and [prev] the node before the step. *)
Definition step_at (t : Z) (base k : list string) (prev : option node) (s : step)
  : option node :=
  match s with
  | Mkdir rel =>
      match prev with
      | Some n => Some n
      | None =>
          if bool_decide (k ≠ [] ∧ k `prefix_of` base ++ split slash rel)
          then Some (Dir t) else None
      end
  | WriteFile rel content =>
      if bool_decide (k = base ++ split slash rel) then Some (File content t) else prev
  | Say _ => prev
  end.

(** The relative paths of the steps are plain: every segment names an
    entry. *)
Definition plain (rel : string) : Prop := Forall normal_seg (split slash rel).

Definition step_plain (s : step) : Prop :=
  match s with
  | Mkdir rel => plain rel
  | WriteFile rel _ => plain rel
  | Say _ => True
  end.

(** What the step writes is well-formed UTF-8: it decodes to itself. *)
Definition step_utf8 (s : step) : Prop :=
  match s with
  | WriteFile _ content => utf8_decode content = content
  | _ => True
  end.

#[global] Instance step_utf8_dec s : Decision (step_utf8 s).
Proof. destruct s; unfold step_utf8; apply _. Defined.

#[global] Instance normal_seg_dec s : Decision (normal_seg s).
Proof. unfold normal_seg, slash_free. apply _. Defined.

#[global] Instance step_plain_dec s : Decision (step_plain s).
Proof. destruct s; unfold step_plain, plain; apply _. Defined.

#[global] Instance straight_dec p : Decision (straight p).
Proof. unfold straight. destruct (last (split slash p)); apply _. Defined.

(** [step_at] seen from the project directory: the node at [base ++ r]. *)
Definition step_rel (t : Z) (r : list string) (prev : option node) (s : step)
  : option node :=
  match s with
  | Mkdir rel =>
      match prev with
      | Some n => Some n
      | None => if bool_decide (r `prefix_of` split slash rel) then Some (Dir t) else None
      end
  | WriteFile rel content =>
      if bool_decide (r = split slash rel) then Some (File content t) else prev
  | Say _ => prev
  end.

(** *** Sample inputs *)

(** A home directory, with the clock at some time of day. *)
Definition home : world :=
  {| files := {[ ["home"] := Dir 0; ["home"; "u"] := Dir 0 ]};
     cwd := ["home"; "u"];
     clock := 1700000000000;
     console := [] |}.

Definition fullstack_ts_ci : Project :=
  {| path := "./my-agent-project"; projectType := fullstack;
     validationLanguage := typescript; includeObservability := true;
     includeCI := true |}.

Definition backend_js_plain : Project :=
  {| path := "svc"; projectType := backend;
     validationLanguage := javascript; includeObservability := false;
     includeCI := false |}.

(** A session abandoned at the first prompt; the later answers are never
    asked for. *)
Definition cancel_at_start : session :=
  {| at_path := Cancelled; at_projectType := Answered fullstack;
     at_validationLanguage := Answered typescript;
     at_includeObservability := Answered true; at_includeCI := Answered true |}.

(** A session abandoned at the last prompt. *)
Definition cancel_at_end : session :=
  {| at_path := Answered "proj"; at_projectType := Answered frontend;
     at_validationLanguage := Answered javascript;
     at_includeObservability := Answered false; at_includeCI := Cancelled |}.

(** The templates other than the agent guide and the README, in all their
    variants, and the literal documents of [main]. *)
Definition other_documents : list string :=
  [ getArchitectureTemplate fullstack; getArchitectureTemplate backend;
    getArchitectureTemplate frontend; getDesignTemplate; getFrontendTemplate;
    getPlansTemplate; getProductSenseTemplate; getQualityScoreTemplate;
    getReliabilityTemplate; getSecurityTemplate; getDesignDocTemplate;
    getExecPlanTemplate; getProductSpecTemplate; getTechDebtTrackerTemplate;
    getCoreBeliefsTemplate; getValidationScriptTemplate typescript;
    getValidationScriptTemplate javascript; getGithubWorkflowTemplate typescript;
    getGithubWorkflowTemplate javascript; getGitignoreTemplate;
    getBiomeConfigTemplate; getMarkdownLinkCheckConfig; design_docs_index;
    product_specs_index; JSON_stringify "  " "" validationPackageJson ].

(** Following the spec's words: the path starts with a URL scheme, that is
    (RFC 3986) a letter, then letters, digits, [+], [-] or [.], then a
    colon. *)
Definition is_alpha (c : ascii) : bool :=
  let n := Ascii.nat_of_ascii c in
  ((65 <=? n) && (n <=? 90) || (97 <=? n) && (n <=? 122))%nat.

Definition is_scheme_char (c : ascii) : bool :=
  let n := Ascii.nat_of_ascii c in
  (is_alpha c || (48 <=? n) && (n <=? 57) || (n =? 43) || (n =? 45) || (n =? 46))%nat.

Fixpoint scheme_rest (s : string) : bool :=
  match s with
  | EmptyString => false
  | String c s' => Ascii.eqb c ":" || is_scheme_char c && scheme_rest s'
  end.

Definition starts_with_url_scheme (s : string) : bool :=
  match s with
  | EmptyString => false
  | String c s' => is_alpha c && scheme_rest s'
  end.

Definition broken_link (linkPath : string) : string :=
  "Broken link in AGENTS.md: " +:+ linkPath.

(** Following the spec's words: the warnings the link check would record if
    it skipped the links that start with a URL scheme, and only those. *)
Definition link_warnings_by_scheme (w : world) (root content : string) : list string :=
  broken_link <$>
    List.filter (λ l, negb (starts_with_url_scheme l) && negb (existsSync w (join root l)))
      (exec_all 0 content).

(** The warnings the link check records: it skips the links that start with
    the four characters [http]. *)
Definition link_warnings (w : world) (root content : string) : list string :=
  broken_link <$>
    List.filter (λ l, negb (startsWith l "http") && negb (existsSync w (join root l)))
      (exec_all 0 content).

(** A project whose agent guide links to a local directory named
    [httpdocs], which does not exist, and to an FTP server. *)
Definition linked : world :=
  {| files := {[ ["p"] := Dir 0;
                 ["p"; "AGENTS.md"] :=
                   File "See [the docs](httpdocs/guide.md) and [the mirror](ftp://example.org/guide.md)." 0 ]};
     cwd := ["p"];
     clock := 1700000000000;
     console := [] |}.

(** A project with every required document and directory in place, except
    that [docs/design-docs] is a regular file. *)
Definition design_docs_is_a_file : world :=
  {| files := list_to_map
       ([ (["p"], Dir 0); (["p"; "docs"], Dir 0); (["p"; "docs"; "exec-plans"], Dir 0) ] ++
        ((λ doc, (["p"; doc], File "# doc" 0)) <$>
           [ "AGENTS.md"; "CLAUDE.md"; "ARCHITECTURE.md"; "DESIGN.md"; "PLANS.md";
             "PRODUCT_SENSE.md"; "QUALITY_SCORE.md"; "RELIABILITY.md"; "SECURITY.md" ]) ++
        [ (["p"; "docs"; "design-docs"], File "not a directory" 0);
          (["p"; "docs"; "exec-plans"; "active"], Dir 0);
          (["p"; "docs"; "exec-plans"; "completed"], Dir 0);
          (["p"; "docs"; "product-specs"], Dir 0);
          (["p"; "docs"; "references"], Dir 0);
          (["p"; "docs"; "generated"], Dir 0) ]);
     cwd := ["p"];
     clock := 1700000000000;
     console := [] |}.

(** A computation that never calls [process.exit]. *)
Definition never_exits {S A} (m : eff S A) : Prop :=
  ∀ s c s', m s ≠ (Exit c, s').

(** A method of the validator that does nothing but print. *)
Definition only_logs (m : eff StructureValidator unit) : Prop :=
  ∀ v, ∃ out, m v = (Return tt, {| rootDir := rootDir v; errors := errors v;
                                   warnings := warnings v; stdout := out |}).

(** The step creates or writes the entry at [r], relative to the project
    directory. *)
Definition names (r : list string) (s : step) : bool :=
  match s with
  | Mkdir rel => bool_decide (r `prefix_of` split slash rel)
  | WriteFile rel _ => bool_decide (r = split slash rel)
  | Say _ => false
  end.

(** A relative path, possibly with [.] segments and without a separator at
    its end, that stays below the directory it starts from and leads to an
    entry the steps of [project] create. *)
Definition leads_to_created (project : Project) (rel : string) : bool :=
  negb (endsWith rel "/") &&
  forallb (λ seg, negb (String.eqb seg "..")) (split slash rel) &&
  negb (bool_decide (foldl walk [] (split slash rel) = [])) &&
  existsb (names (foldl walk [] (split slash rel))) (steps project).

Definition dir_at (m : gmap (list string) node) (k : list string) : Prop :=
  ∃ t, node_at m k = Some (Dir t).

Definition file_at (m : gmap (list string) node) (k : list string) : Prop :=
  ∃ c t, node_at m k = Some (File c t).

(** What a step needs of a tree in which it was already performed once: its
    directories are there, its file is there with its parent. *)
Definition settled (base : list string) (m : gmap (list string) node) (s : step) : Prop :=
  match s with
  | Mkdir rel => ∀ k, k `prefix_of` base ++ split slash rel → dir_at m k
  | WriteFile rel _ =>
      dir_at m (removelast (base ++ split slash rel)) ∧ file_at m (base ++ split slash rel)
  | Say _ => True
  end.

(** The emitted documents in which a reference to FRONTEND.md is found: the
    README, and the agent guide and its copy unless the project is backend
    only. *)
Definition may_mention_frontend_md (project : Project) (rel : string) : bool :=
  String.eqb rel "README.md" ||
  (String.eqb rel "AGENTS.md" || String.eqb rel "CLAUDE.md") &&
  negb (bool_decide (projectType project = backend)).

Definition mentions_as_expected (project : Project) (s : step) : bool :=
  match s with
  | WriteFile rel content =>
      Bool.eqb (includes content "FRONTEND.md") (may_mention_frontend_md project rel)
  | _ => true
  end.

(** ** Vocabulary of the further properties *)

Definition is_file (n : option node) : bool :=
  match n with Some (File _ _) => true | _ => false end.

Definition is_dir (n : option node) : bool :=
  match n with Some (Dir _) => true | _ => false end.

(** The tree [m] has room for the step: no regular file on the way to a
    directory the step makes, no directory where the step writes a file. *)
Definition clear_for (m : gmap (list string) node) (base : list string) (s : step) : bool :=
  match s with
  | Mkdir rel =>
      forallb (λ n, negb (is_file (node_at m (take n (base ++ split slash rel)))))
        (seq 0 (S (length (base ++ split slash rel))))
  | WriteFile rel _ => negb (is_dir (node_at m (base ++ split slash rel)))
  | Say _ => true
  end.

(** The tree of [w] has room for every step of [scaffold]. *)
Definition nothing_in_the_way (w : world) (project : Project) : bool :=
  forallb (clear_for (files w) (resolve (cwd w) (path project))) (steps project).

(** Every existing entry on the way to [p], [p] included, is a directory. *)
Definition leads_through_directories (w : world) (p : string) : Prop :=
  map_Forall (λ k n, k `prefix_of` resolve (cwd w) p → is_dir (Some n) = true) (files w).

(** The step writes into the project directory or into a directory that is
    among [dirs] or on the way to one of them, and not where one of them
    is. *)
Definition writes_into (dirs : list string) (s : step) : bool :=
  match s with
  | Mkdir _ => false
  | WriteFile rel _ =>
      bool_decide (plain rel) &&
      (bool_decide (removelast (split slash rel) = []) ||
       existsb (λ dir, bool_decide (removelast (split slash rel) `prefix_of` split slash dir)) dirs) &&
      forallb (λ dir, negb (bool_decide (split slash rel `prefix_of` split slash dir))) dirs
  | Say _ => true
  end.

(** What a run leaves of a node it does not write: a regular file as it
    was, bytes and time; a directory as a directory (making an entry in a
    directory changes the time of the directory). *)
Definition kept (n n' : node) : Prop :=
  match n with
  | File _ _ => n' = n
  | Dir _ => is_dir (Some n') = true
  end.

(** The messages among the steps. *)
Definition says (ss : list step) : list event :=
  omap (λ s, match s with Say e => Some e | _ => None end) ss.

#[global] Instance event_eq_dec : EqDecision event.
Proof. solve_decision. Defined.

#[global] Instance step_eq_dec : EqDecision step.
Proof. solve_decision. Defined.

(** The message that reports success comes after every file-system step. *)
Fixpoint reports_success_last (ss : list step) : bool :=
  match ss with
  | [] => true
  | s :: rest =>
      match s with
      | Say e =>
          if bool_decide (e = SpinnerStop "Project created successfully!")
          then forallb (λ s', match s' with Say _ => true | _ => false end) rest
          else reports_success_last rest
      | _ => reports_success_last rest
      end
  end.

(** *** Further sample inputs *)

(** A home directory in which [svc] is a regular file. *)
Definition svc_is_a_file : world :=
  {| files := {[ ["home"] := Dir 0; ["home"; "u"] := Dir 0;
                 ["home"; "u"; "svc"] := File "#!/bin/sh" 0 ]};
     cwd := ["home"; "u"];
     clock := 1700000000000;
     console := [] |}.

(** A home directory in which [svc] is an empty directory. *)
Definition svc_is_empty : world :=
  {| files := {[ ["home"] := Dir 0; ["home"; "u"] := Dir 0; ["home"; "u"; "svc"] := Dir 5 ]};
     cwd := ["home"; "u"];
     clock := 1700000000000;
     console := [] |}.

(** A home directory with a project directory [svc] that holds notes of the
    user and an agent guide of its own. *)
Definition svc_in_use : world :=
  {| files := {[ ["home"] := Dir 0; ["home"; "u"] := Dir 0;
                 ["home"; "u"; "svc"] := Dir 5;
                 ["home"; "u"; "svc"; "notes.txt"] := File "remember the milk" 7;
                 ["home"; "u"; "svc"; "AGENTS.md"] := File "# my own guide" 9 ]};
     cwd := ["home"; "u"];
     clock := 1700000000000;
     console := [] |}.

(** A session in which every prompt is answered. *)
Definition answered (project : Project) : session :=
  {| at_path := Answered (path project);
     at_projectType := Answered (projectType project);
     at_validationLanguage := Answered (validationLanguage project);
     at_includeObservability := Answered (includeObservability project);
     at_includeCI := Answered (includeCI project) |}.

(** Where the steps write, relative to the project directory. *)
Definition written (ss : list step) : list (list string) :=
  omap (λ s, match s with WriteFile rel _ => Some (split slash rel) | _ => None end) ss.

(** The project as [main] builds it from the answers of [project]'s
    session: an empty path stands for the default. *)
Definition as_answered (project : Project) : Project :=
  {| path := if bool_decide (path project = "") then "./my-agent-project" else path project;
     projectType := projectType project;
     validationLanguage := validationLanguage project;
     includeObservability := includeObservability project;
     includeCI := includeCI project |}.

(** The number of line feeds in a string. *)
Fixpoint newlines (s : string) : nat :=
  match s with
  | EmptyString => 0
  | String a s' => (if Ascii.eqb a (Ascii.ascii_of_nat 10) then 1 else 0) + newlines s'
  end.

(** The first line the validator prints. *)
Definition banner : string := "🔍 Validating project structure...
".

(** What [printResults] prints for the errors [es] and the warnings [ws]. *)
Definition report (es ws : list string) : list string :=
  [ "
" +:+ rule ] ++
  (if (length es =? 0)%nat && (length ws =? 0)%nat then
     [ "✅ All validation checks passed!" ]
   else
     (if (0 <? length es)%nat then
        ("
❌ Errors (" +:+ pretty (length es) +:+ "):
") :: ((λ e, "  - " +:+ e) <$> es)
      else []) ++
     (if (0 <? length ws)%nat then
        ("
⚠️  Warnings (" +:+ pretty (length ws) +:+ "):
") :: ((λ e, "  - " +:+ e) <$> ws)
      else [])) ++
  [ "
" +:+ rule +:+ "
" ].

(** From [v] to [v'] the validator has only added findings and output. *)
Definition grows (v v' : StructureValidator) : Prop :=
  rootDir v' = rootDir v ∧
  errors v `prefix_of` errors v' ∧
  warnings v `prefix_of` warnings v' ∧
  stdout v `prefix_of` stdout v'.

(** From [v] to [v'] the validator has only added warnings. *)
Definition warns_only (v v' : StructureValidator) : Prop :=
  rootDir v' = rootDir v ∧ errors v' = errors v ∧
  warnings v `prefix_of` warnings v' ∧ stdout v' = stdout v.

(** From [v] to [v'] the validator has printed nothing. *)
Definition silent (v v' : StructureValidator) : Prop := stdout v' = stdout v.

(** Whatever way [m] ends, the validator it leaves is related by [R] to the
    one it started from. *)
Definition respects {A} (R : relation StructureValidator) (m : eff StructureValidator A)
  : Prop :=
  ∀ v o v', m v = (o, v') → R v v'.

(** Nothing exists below the working directory. *)
Definition empty_below (w : world) : Prop :=
  map_Forall (λ k _, ¬ (cwd w `prefix_of` k ∧ k ≠ cwd w)) (files w).

(** An empty project directory. *)
Definition empty_project : world :=
  {| files := {[ ["p"] := Dir 0 ]};
     cwd := ["p"];
     clock := 1700000000000;
     console := [] |}.

(** A project whose design-docs directory holds an index, an old document,
    a document that is exactly 180 days old, and a text file. *)
Definition aging_design_docs : world :=
  {| files := {[ ["p"] := Dir 0; ["p"; "docs"] := Dir 0;
                 ["p"; "docs"; "design-docs"] := Dir 0;
                 ["p"; "docs"; "design-docs"; "index.md"] := File "# Design Documentation" 0;
                 ["p"; "docs"; "design-docs"; "core-beliefs.md"] := File "# Core beliefs" 1000;
                 ["p"; "docs"; "design-docs"; "caching.md"] :=
                   File "# Caching" (1700000000000 - 15552000000);
                 ["p"; "docs"; "design-docs"; "notes.txt"] := File "to do" 0 ]};
     cwd := ["p"];
     clock := 1700000000000;
     console := [] |}.

Definition aging_entries : list string :=
  children (files aging_design_docs) ["p"; "docs"; "design-docs"].

Definition aging_mtime (file : string) : Z :=
  match statSync_mtimeMs aging_design_docs (join "/p/docs/design-docs" file) with
  | inr t => t
  | inl _ => 0
  end.

(** A home directory with a project directory [svc] in which [AGENTS.md] is
    a directory. *)
Definition guide_is_a_directory : world :=
  {| files := {[ ["home"] := Dir 0; ["home"; "u"] := Dir 0;
                 ["home"; "u"; "svc"] := Dir 5;
                 ["home"; "u"; "svc"; "AGENTS.md"] := Dir 9 ]};
     cwd := ["home"; "u"];
     clock := 1700000000000;
     console := [] |}.

(** A project whose guide files differ in bytes that are not UTF-8:
    [AGENTS.md] holds [#] and the byte 255, [CLAUDE.md] holds [#] and the
    byte 254.  Both read as [#] followed by U+FFFD. *)
Definition guides_of_odd_bytes : world :=
  {| files := {[ ["p"] := Dir 0;
                 ["p"; "AGENTS.md"] := File (String "#" (String (Ascii.ascii_of_nat 255) "")) 0;
                 ["p"; "CLAUDE.md"] := File (String "#" (String (Ascii.ascii_of_nat 254) "")) 0 ]};
     cwd := ["p"];
     clock := 1700000000000;
     console := [] |}.

(** Every entry of the tree has a name at every level: no segment is empty,
    [.], [..], or holds a separator. *)
Definition well_named (w : world) : Prop :=
  map_Forall (λ k _, Forall normal_seg k) (files w).

Definition stale (file : string) : string :=
  "Design doc hasn't been updated in 6+ months: " +:+ file.

(** * Theorems *)

(** ** Strings and paths *)

Lemma split_nonempty c s : split c s ≠ [].
Proof.
  destruct s as [|a s]; simpl; [done|].
  destruct (Ascii.eqb a c); [done|]. by destruct (split c s).
Qed.

(** Splitting a concatenation at a separator that joins its halves. *)
Lemma split_app c a b :
  split c (a +:+ String c b) = split c a ++ split c b.
Proof.
  induction a as [|x a IH]; simpl.
  - by rewrite Ascii.eqb_refl.
  - destruct (Ascii.eqb x c); [by rewrite IH|].
    rewrite IH. destruct (split c a) as [|seg rest] eqn:E; [by apply split_nonempty in E|done].
Qed.

(** The segments of a split contain no separator. *)
Lemma split_slash_free s : Forall slash_free (split slash s).
Proof.
  induction s as [|a s IH]; simpl.
  - by constructor.
  - destruct (Ascii.eqb a slash) eqn:Ha.
    + constructor; [done|apply IH].
    + destruct (split slash s) as [|seg rest] eqn:E; [by apply split_nonempty in E|].
      inversion IH as [|? ? Hseg Hrest]; subst. constructor; [|done].
      unfold slash_free in *. simpl. by rewrite Ha, Hseg.
Qed.

Lemma slash_free_not_absolute s : slash_free s → s ≠ "" → isAbsolute s = false.
Proof.
  unfold slash_free. destruct s as [|a s]; [done|]. intros Hs _. simpl in *.
  destruct (Ascii.eqb a slash); [|done].
  destruct (split slash s) eqn:E; [by apply split_nonempty in E|done].
Qed.

Lemma concat_cons2 sep (x y : string) l :
  String.concat sep (x :: y :: l) = x +:+ sep +:+ String.concat sep (y :: l).
Proof. done. Qed.

Lemma append_cons a (s t : string) : String a s +:+ t = String a (s +:+ t).
Proof. done. Qed.

Lemma append_eq_nil (a b : string) : a +:+ b = "" → a = "" ∧ b = "".
Proof. by destruct a. Qed.

(** Joining slash-free segments and splitting again is the identity. *)
Lemma split_concat l :
  Forall slash_free l → l ≠ [] → split slash (String.concat "/" l) = l.
Proof.
  induction l as [|x l IH]; [done|]. intros Hl _.
  inversion Hl as [|? ? Hx Hl']; subst.
  destruct l as [|y l]; [by simpl|].
  rewrite concat_cons2. change ("/" +:+ ?s) with (String slash s).
  rewrite split_app, Hx, IH; done.
Qed.

Lemma concat_eq_nil l :
  Forall (λ s, s ≠ "") l → String.concat "/" l = "" → l = [].
Proof.
  destruct l as [|x [|y l]]; [done| |].
  - simpl. intros H ->. by inversion H.
  - rewrite concat_cons2. intros H E. apply append_eq_nil in E as [-> _]. by inversion H.
Qed.

Lemma concat_not_absolute l :
  Forall slash_free l → Forall (λ s, s ≠ "") l →
  isAbsolute (String.concat "/" l) = false.
Proof.
  destruct l as [|x [|y l]]; [done| |]; intros Hs Hn;
    inversion Hs; inversion Hn; subst.
  - simpl. by apply slash_free_not_absolute.
  - rewrite concat_cons2.
    assert (isAbsolute x = false) as Hx by by apply slash_free_not_absolute.
    destruct x; [done|]. done.
Qed.

(** *** Walking *)

Lemma walk_kept at_ seg :
  seg ≠ "" → seg ≠ "." → seg ≠ ".." → walk at_ seg = at_ ++ [seg].
Proof.
  intros. unfold walk.
  rewrite !bool_decide_eq_false_2 by done. done.
Qed.

Lemma walk_normal at_ seg : normal_seg seg → walk at_ seg = at_ ++ [seg].
Proof. intros (?&?&?&?). by apply walk_kept. Qed.

Lemma foldl_walk_normal at_ segs :
  Forall normal_seg segs → foldl walk at_ segs = at_ ++ segs.
Proof.
  revert at_. induction segs as [|s segs IH]; intros at_ H; simpl.
  - by rewrite app_nil_r.
  - inversion H; subst. rewrite walk_normal by done. rewrite IH by done.
    by rewrite <- app_assoc.
Qed.

Lemma walk_preserves_normal at_ seg :
  slash_free seg → Forall normal_seg at_ → Forall normal_seg (walk at_ seg).
Proof.
  intros Hs Hat. unfold walk.
  destruct (bool_decide (seg = "")) eqn:E1; simpl; [done|].
  destruct (bool_decide (seg = ".")) eqn:E2; simpl; [done|].
  destruct (bool_decide (seg = "..")) eqn:E3.
  - destruct at_ as [|a at_] using rev_ind; [done|].
    rewrite removelast_last. by apply Forall_app in Hat as [? _].
  - apply bool_decide_eq_false in E1, E2, E3.
    apply Forall_app; split; [done|]. by repeat constructor.
Qed.

Lemma foldl_walk_preserves_normal at_ segs :
  Forall slash_free segs → Forall normal_seg at_ → Forall normal_seg (foldl walk at_ segs).
Proof.
  revert at_. induction segs as [|s segs IH]; intros at_ Hs Hat; simpl; [done|].
  inversion Hs; subst. apply IH; [done|]. by apply walk_preserves_normal.
Qed.

(** Resolved paths are sequences of entry names. *)
Lemma resolve_normal cwd p : Forall normal_seg cwd → Forall normal_seg (resolve cwd p).
Proof.
  intros H. unfold resolve. apply foldl_walk_preserves_normal.
  - apply split_slash_free.
  - by destruct (isAbsolute p).
Qed.

(** *** [normalize] does not change where a path leads *)

Lemma normalizeString_elems allow res segs :
  Forall (λ s, slash_free s ∧ s ≠ "") res →
  Forall slash_free segs →
  Forall (λ s, slash_free s ∧ s ≠ "") (normalizeString allow res segs).
Proof.
  revert res. induction segs as [|seg segs IH]; intros res Hres Hsegs; simpl; [done|].
  inversion Hsegs as [|? ? Hseg Hsegs']; subst.
  assert (Forall (λ s, slash_free s ∧ s ≠ "") (if allow then res ++ [".."] else res)) as Hdots.
  { destruct allow; [|done]. apply Forall_app; split; [done|]. by repeat constructor. }
  destruct (bool_decide (seg = "")) eqn:E1; simpl; [by apply IH|].
  destruct (bool_decide (seg = ".")) eqn:E2; simpl; [by apply IH|].
  destruct (bool_decide (seg = "..")) eqn:E3.
  - destruct (last res) as [l|] eqn:El; [|by apply IH].
    destruct (bool_decide (l = "..")); [by apply IH|].
    apply IH; [|done].
    destruct res as [|r res] using rev_ind; [done|].
    rewrite removelast_last. by apply Forall_app in Hres as [? _].
  - apply IH; [|done]. apply Forall_app; split; [done|].
    apply bool_decide_eq_false in E1. by repeat constructor.
Qed.

Lemma foldl_walk_normalizeString allow base segs res :
  Forall (λ s, s ≠ "" ∧ s ≠ "." ∧ (allow = false → s ≠ "..")) res →
  (allow = false → base = []) →
  foldl walk base (normalizeString allow res segs)
  = foldl walk (foldl walk base res) segs.
Proof.
  intros Hres Hbase. revert res Hres.
  induction segs as [|seg segs IH]; intros res Hres; simpl; [done|].
  assert (foldl walk base
            (normalizeString allow (if allow then res ++ [".."] else res) segs)
          = foldl walk (removelast (foldl walk base res)) segs
          ∨ (∃ l, last res = Some l ∧ l ≠ "..")) as Hdots.
  { destruct res as [|l res _] using rev_ind.
    - left. destruct allow.
      + rewrite IH; [by rewrite foldl_app|]. repeat constructor; done.
      + rewrite IH by done. simpl. by rewrite Hbase.
    - destruct (decide (l = "..")) as [->|Hl]; [|right; exists l; by rewrite last_snoc].
      left. destruct allow.
      + rewrite IH; [by rewrite foldl_app|].
        apply Forall_app; split; [done|]. repeat constructor; done.
      + apply Forall_app in Hres as [_ Hl]. inversion Hl as [|? ? (_&_&Hl') _]. by destruct Hl'. }
  destruct (bool_decide (seg = "")) eqn:E1; simpl.
  { apply bool_decide_eq_true in E1 as ->. by apply IH. }
  destruct (bool_decide (seg = ".")) eqn:E2; simpl.
  { apply bool_decide_eq_true in E2 as ->. by apply IH. }
  apply bool_decide_eq_false in E1, E2.
  destruct (bool_decide (seg = "..")) eqn:E3.
  - apply bool_decide_eq_true in E3 as ->.
    change (walk ?a "..") with (removelast a).
    destruct (last res) as [l|] eqn:El.
    + destruct (bool_decide (l = "..")) eqn:E4.
      * apply bool_decide_eq_true in E4 as ->.
        destruct Hdots as [?|(l'&Hl'&?)]; [done|congruence].
      * apply bool_decide_eq_false in E4.
        destruct res as [|l' res _] using rev_ind; [done|].
        rewrite last_snoc in El. injection El as ->.
        rewrite removelast_last. apply Forall_app in Hres as [Hres Hl].
        inversion Hl as [|? ? (?&?&?) _]; subst.
        rewrite IH by done. rewrite foldl_app. simpl.
        rewrite walk_kept by done. by rewrite removelast_last.
    + destruct Hdots as [?|(l'&Hl'&?)]; [done|congruence].
  - apply bool_decide_eq_false in E3. rewrite walk_kept by done. rewrite IH.
    + rewrite foldl_app. simpl. by rewrite walk_kept.
    + apply Forall_app; split; [done|]. repeat constructor; done.
Qed.

Lemma isAbsolute_append a b : a ≠ "" → isAbsolute (a +:+ b) = isAbsolute a.
Proof. by destruct a. Qed.

Lemma resolve_normalize cwd p : resolve cwd (normalize p) = resolve cwd p.
Proof.
  unfold normalize. case_bool_decide as Hp; [by subst|].
  set (N := normalizeString (negb (isAbsolute p)) [] (split slash p)).
  assert (Forall (λ s, slash_free s ∧ s ≠ "") N) as HN.
  { apply normalizeString_elems; [done|apply split_slash_free]. }
  assert (resolve cwd p = foldl walk (if isAbsolute p then [] else cwd) N) as ->.
  { unfold resolve, N. rewrite foldl_walk_normalizeString; [done|done|].
    by destruct (isAbsolute p). }
  simpl. case_bool_decide as Hbody.
  - assert (N = []) as ->.
    { apply concat_eq_nil; [|done]. eapply Forall_impl; [exact HN|]. by intros ? [_ ?]. }
    destruct (isAbsolute p); [done|]. by destruct (endsWith p "/").
  - assert (N ≠ []) as HN' by (by intros E; rewrite E in Hbody).
    assert (Forall slash_free N) as Hsf by (eapply Forall_impl; [exact HN|]; by intros ? [? _]).
    assert (Forall (λ s, s ≠ "") N) as Hne by (eapply Forall_impl; [exact HN|]; by intros ? [_ ?]).
    set (tail := if endsWith p "/" then [""] else []).
    assert (split slash (if endsWith p "/" then String.concat "/" N +:+ "/"
                         else String.concat "/" N) = N ++ tail) as Hsplit.
    { unfold tail. destruct (endsWith p "/").
      - change "/" with (String slash ""). by rewrite split_app, split_concat.
      - by rewrite split_concat, app_nil_r. }
    assert (isAbsolute (if endsWith p "/" then String.concat "/" N +:+ "/"
                        else String.concat "/" N) = false) as Habs.
    { destruct (endsWith p "/"); [rewrite isAbsolute_append by done|];
        by apply concat_not_absolute. }
    assert (∀ at_, foldl walk at_ (N ++ tail) = foldl walk at_ N) as Htail.
    { intros at_. rewrite foldl_app. unfold tail. by destruct (endsWith p "/"). }
    destruct (isAbsolute p).
    + unfold resolve. change ("/" +:+ ?s) with (String slash s).
      cbn [isAbsolute]. rewrite Ascii.eqb_refl.
      change (String slash ?s) with ("" +:+ String slash s).
      rewrite split_app, Hsplit. simpl. apply Htail.
    + unfold resolve. rewrite Habs, Hsplit. apply Htail.
Qed.

(** Where [join(a, b)] leads: from where [a] leads, along the segments of
    [b]. *)
Lemma resolve_join cwd a b :
  a ≠ "" → b ≠ "" →
  resolve cwd (join a b) = foldl walk (resolve cwd a) (split slash b).
Proof.
  intros Ha Hb. unfold join. rewrite !bool_decide_eq_false_2 by done.
  rewrite resolve_normalize. unfold resolve.
  rewrite isAbsolute_append by done.
  change ("/" +:+ b) with (String slash b).
  by rewrite split_app, foldl_app.
Qed.

Lemma plain_nonempty rel : plain rel → rel ≠ "".
Proof.
  intros H ->. unfold plain in H. simpl in H.
  inversion H as [|? ? (Hne&_) _]. done.
Qed.

Lemma resolve_join_plain cwd a rel :
  a ≠ "" → plain rel →
  resolve cwd (join a rel) = resolve cwd a ++ split slash rel.
Proof.
  intros Ha Hrel. rewrite resolve_join by eauto using plain_nonempty.
  by apply foldl_walk_normal.
Qed.

Lemma join_nonempty a b : join a b ≠ "".
Proof.
  assert (∀ p, normalize p ≠ "") as Hn.
  { intros p. unfold normalize. case_bool_decide; [done|]. simpl.
    case_bool_decide as Hbody.
    - destruct (isAbsolute p); [done|]. by destruct (endsWith p "/").
    - destruct (isAbsolute p); [done|].
      destruct (endsWith p "/"); [|done].
      intros E. by apply append_eq_nil in E as [_ ?]. }
  unfold join. repeat case_bool_decide; done.
Qed.

(** The working directory, as a string, leads back to itself. *)
Lemma resolve_process_cwd w :
  Forall normal_seg (cwd w) → resolve (cwd w) (process_cwd w) = cwd w.
Proof.
  intros Hc. unfold process_cwd, resolve.
  change ("/" +:+ ?s) with (String slash s). cbn [isAbsolute]. rewrite Ascii.eqb_refl.
  change (String slash ?s) with ("" +:+ String slash s). rewrite split_app.
  destruct (cwd w) as [|c l] eqn:E; [done|].
  rewrite split_concat; [|eapply Forall_impl; [exact Hc|]; by intros ? (_&_&_&?)|done].
  rewrite foldl_app. change (foldl walk [] (split slash "")) with (@nil string).
  by rewrite foldl_walk_normal.
Qed.

(** *** Paths that end in a separator *)

Lemma endsWith_slash_split s :
  endsWith s "/" = true → ∃ l, l ≠ [] ∧ split slash s = l ++ [""].
Proof.
  induction s as [|a s IH]; [done|]. simpl. intros H.
  apply orb_true_iff in H as [H|H].
  - apply andb_true_iff in H as [Ha Hs]. apply Ascii.eqb_eq in Ha as ->.
    destruct s; [|done]. by exists [""].
  - destruct (IH H) as (l & Hl & E). rewrite E.
    destruct (Ascii.eqb a slash); [by exists ("" :: l)|].
    destruct l as [|x l]; [done|]. by exists (String a x :: l).
Qed.

Lemma endsWith_append a b : b ≠ "" → endsWith (a +:+ b) "/" = endsWith b "/".
Proof.
  intros Hb. induction a as [|x a IH]; [done|].
  rewrite append_cons. cbn [endsWith]. rewrite IH.
  assert (String.eqb (String x (a +:+ b)) "/" = false) as ->; [|done].
  simpl. destruct (a +:+ b) eqn:E; [|by destruct (Ascii.eqb x "/")].
  by apply append_eq_nil in E as [_ ?].
Qed.

Lemma foldl_walk_below base segs :
  Forall (λ seg, seg ≠ "..") segs →
  foldl walk base segs = base ++ foldl walk [] segs.
Proof.
  intros H. rewrite <- (app_nil_r base) at 1. generalize (@nil string) as acc.
  induction H as [|seg segs Hseg _ IH]; intros acc; simpl; [done|].
  assert (walk (base ++ acc) seg = base ++ walk acc seg) as ->; [|apply IH].
  unfold walk. destruct (bool_decide (seg = "") || bool_decide (seg = ".")); [done|].
  rewrite bool_decide_eq_false_2 by done. by rewrite app_assoc.
Qed.

Lemma normalizeString_app allow res segs1 segs2 :
  normalizeString allow res (segs1 ++ segs2)
  = normalizeString allow (normalizeString allow res segs1) segs2.
Proof.
  revert res. induction segs1 as [|seg segs1 IH]; intros res; simpl; [done|].
  destruct (bool_decide (seg = "") || bool_decide (seg = ".")); [apply IH|].
  destruct (bool_decide (seg = "..")); [|apply IH].
  destruct (last res) as [l|]; [|apply IH].
  destruct (bool_decide (l = "..")); apply IH.
Qed.

(** Without [".."] among them, the segments are kept but for the empty ones
    and the dots. *)
Lemma normalizeString_below allow res segs :
  Forall (λ seg, seg ≠ "..") segs →
  normalizeString allow res segs = res ++ foldl walk [] segs.
Proof.
  intros H. revert res. induction H as [|seg segs Hseg Hsegs IH]; intros res; simpl.
  - by rewrite app_nil_r.
  - unfold walk at 2. destruct (bool_decide (seg = "") || bool_decide (seg = ".")); [apply IH|].
    rewrite bool_decide_eq_false_2 by done. rewrite IH. simpl.
    rewrite (foldl_walk_below [seg]) by done. by rewrite <- app_assoc.
Qed.

Lemma normalize_no_trailing p :
  p ≠ "" → endsWith p "/" = false →
  normalizeString (negb (isAbsolute p)) [] (split slash p) ≠ [] →
  endsWith (normalize p) "/" = false.
Proof.
  intros Hp Htr HN. unfold normalize. rewrite bool_decide_eq_false_2 by done.
  cbv zeta. rewrite Htr.
  set (N := normalizeString (negb (isAbsolute p)) [] (split slash p)) in *.
  assert (Forall (λ s, slash_free s ∧ s ≠ "") N) as Helems.
  { apply normalizeString_elems; [done|apply split_slash_free]. }
  assert (Forall slash_free N) as Hsf by (eapply Forall_impl; [exact Helems|]; by intros ? [? _]).
  assert (Forall (λ s, s ≠ "") N) as Hne by (eapply Forall_impl; [exact Helems|]; by intros ? [_ ?]).
  rewrite bool_decide_eq_false_2 by (intros E; by apply concat_eq_nil in E).
  assert ("" ∈ N → False) as Hempty.
  { intros Hin. rewrite Forall_forall in Hne. by apply (Hne _ Hin). }
  destruct (isAbsolute p).
  - destruct (endsWith ("/" +:+ String.concat "/" N) "/") eqn:E; [|done].
    apply endsWith_slash_split in E as (l & Hl & E).
    change ("/" +:+ ?s) with ("" +:+ String slash s) in E.
    rewrite split_app, split_concat in E by done. simpl in E.
    destruct l as [|x l]; [done|]. injection E as _ E.
    destruct Hempty. rewrite E. apply elem_of_app. right. by left.
  - destruct (endsWith (String.concat "/" N) "/") eqn:E; [|done].
    apply endsWith_slash_split in E as (l & Hl & E).
    rewrite split_concat in E by done.
    destruct Hempty. rewrite E. apply elem_of_app. right. by left.
Qed.

(** [join] keeps no separator at the end of a path that has none. *)
Lemma join_no_trailing a b :
  b ≠ "" → endsWith b "/" = false →
  Forall (λ seg, seg ≠ "..") (split slash b) → foldl walk [] (split slash b) ≠ [] →
  endsWith (join a b) "/" = false.
Proof.
  intros Hb Htr Hdots Hwalk. unfold join. rewrite (bool_decide_eq_false_2 (b = "")) by done.
  case_bool_decide as Ha.
  - apply normalize_no_trailing; [done..|].
    rewrite normalizeString_below by done. done.
  - apply normalize_no_trailing.
    + intros E. by apply append_eq_nil in E as [? _].
    + rewrite endsWith_append by done.
      change ("/" +:+ b) with (String slash b). cbn [endsWith].
      rewrite Htr. simpl. by destruct b.
    + change ("/" +:+ b) with (String slash b). rewrite split_app.
      rewrite normalizeString_app, normalizeString_below by done.
      intros E. by apply app_eq_nil in E as [_ ?].
Qed.

Lemma normal_last_no_trailing p seg :
  last (split slash p) = Some seg → seg ≠ "" → endsWith p "/" = false.
Proof.
  intros Hlast Hseg. destruct (endsWith p "/") eqn:E; [|done].
  apply endsWith_slash_split in E as (l & _ & E).
  rewrite E, last_snoc in Hlast. congruence.
Qed.

Lemma join_plain_no_trailing a rel : plain rel → endsWith (join a rel) "/" = false.
Proof.
  intros Hrel. pose proof (plain_nonempty _ Hrel) as Hne. unfold plain in Hrel.
  apply join_no_trailing; [done| | |].
  - destruct (split slash rel) as [|x l] eqn:E using rev_ind; [by apply split_nonempty in E|].
    apply (normal_last_no_trailing _ x); [by rewrite E, last_snoc|].
    apply Forall_app in Hrel as [_ Hx]. by inversion Hx as [|? ? (?&_) _].
  - eapply Forall_impl; [exact Hrel|]. by intros ? (_&_&?&_).
  - rewrite foldl_walk_normal by done. apply split_nonempty.
Qed.

(** *** What a path leads to *)

Lemma entry_at_eq w p :
  p ≠ "" → endsWith p "/" = false →
  entry_at w p = match node_at (files w) (resolve (cwd w) p) with
                 | Some n => inr n
                 | None => inl "ENOENT"
                 end.
Proof.
  intros Hp Htr. unfold entry_at. rewrite bool_decide_eq_false_2 by done.
  rewrite Htr. by destruct (node_at _ _) as [[]|].
Qed.

Lemma existsSync_eq w p :
  p ≠ "" → endsWith p "/" = false →
  existsSync w p = bool_decide (is_Some (node_at (files w) (resolve (cwd w) p))).
Proof.
  intros Hp Htr. unfold existsSync. rewrite entry_at_eq by done.
  destruct (node_at _ _).
  - by rewrite bool_decide_eq_true_2.
  - rewrite bool_decide_eq_false_2; [done|]. by intros [? ?].
Qed.

Lemma existsSync_true w p :
  existsSync w p = true → p ≠ "" ∧ is_Some (node_at (files w) (resolve (cwd w) p)).
Proof.
  unfold existsSync, entry_at. case_bool_decide; [done|].
  destruct (node_at _ _); [|done]. by split.
Qed.


Lemma existsSync_absent w p :
  node_at (files w) (resolve (cwd w) p) = None → existsSync w p = false.
Proof.
  intros H. unfold existsSync, entry_at. rewrite H. by case_bool_decide.
Qed.

(** *** Straight paths *)

Lemma straight_nonempty p : straight p → p ≠ "".
Proof. intros [_ H] ->. simpl in H. by destruct H. Qed.

Lemma straight_no_trailing p : straight p → endsWith p "/" = false.
Proof.
  intros [_ H]. destruct (last (split slash p)) as [seg|] eqn:E; [|done].
  apply (normal_last_no_trailing _ _ E). by destruct H.
Qed.

(** ** Computations *)

Lemma bind_Return_inv {S A B} (m : eff S A) (f : A → eff S B) s b s' :
  (m ≫= f) s = (Return b, s') →
  ∃ a s1, m s = (Return a, s1) ∧ f a s1 = (Return b, s').
Proof.
  unfold mbind, eff_bind. destruct (m s) as [[a|e|c] s1]; [|done..].
  intros H. by exists a, s1.
Qed.

Lemma bind_ext {S A B} (m : eff S A) (f g : A → eff S B) s :
  (∀ a s', f a s' = g a s') → (m ≫= f) s = (m ≫= g) s.
Proof. intros H. unfold mbind, eff_bind. by destruct (m s) as [[a|e|c] s1]. Qed.

Lemma bind_assoc {S A B C} (m : eff S A) (f : A → eff S B) (g : B → eff S C) s :
  ((m ≫= f) ≫= g) s = (m ≫= λ a, f a ≫= g) s.
Proof. unfold mbind, eff_bind. by destruct (m s) as [[a|e|c] s1]. Qed.

Lemma bind_ret_r {S} (m : eff S unit) s : (m ≫= λ _, mret tt) s = m s.
Proof. unfold mbind, eff_bind. by destruct (m s) as [[[]|e|c] s1]. Qed.

Lemma for_of_Return_inv {S A} (xs : list A) (body : A → eff S unit) x s s' :
  for_of (x :: xs) body s = (Return tt, s') →
  ∃ s1, body x s = (Return tt, s1) ∧ for_of xs body s1 = (Return tt, s').
Proof.
  intros H. apply bind_Return_inv in H as ([] & s1 & H1 & H2). by exists s1.
Qed.

(** ** The file-system calls *)

Lemma created_by_mkdirp_step (at_ rest k : list string) seg :
  k ≠ at_ ++ [seg] →
  ((at_ ++ [seg]) `prefix_of` k ∧ k ≠ at_ ++ [seg] ∧ k `prefix_of` (at_ ++ [seg]) ++ rest)
  ↔ (at_ `prefix_of` k ∧ k ≠ at_ ∧ k `prefix_of` at_ ++ seg :: rest).
Proof.
  intros Hk. rewrite <- app_assoc. simpl. split.
  - intros ([x ->] & _ & H3). split_and!; [|  |done].
    + rewrite <- app_assoc. by eexists.
    + rewrite <- app_assoc. intros E. by apply (f_equal length) in E;
        rewrite !length_app in E; simpl in E; lia.
  - intros ([k' ->] & H2 & H3). apply prefix_app_inv in H3.
    destruct k' as [|y k'']; [by rewrite app_nil_r in H2|].
    pose proof (prefix_cons_inv_1 _ _ _ _ H3) as ->.
    apply prefix_cons_inv_2 in H3. split_and!; [|done|].
    + exists k''. by rewrite <- app_assoc.
    + by apply prefix_app, prefix_cons.
Qed.

Lemma mkdirp_lookup t at_ segs m m' :
  mkdirp t at_ segs m = inr m' →
  ∀ k, m' !! k =
    match m !! k with
    | Some n => Some n
    | None =>
        if bool_decide (at_ `prefix_of` k ∧ k ≠ at_ ∧ k `prefix_of` at_ ++ segs)
        then Some (Dir t) else None
    end.
Proof.
  revert at_ m. induction segs as [|seg rest IH]; intros at_ m H k; simpl in H.
  - injection H as <-. destruct (m !! k); [done|].
    rewrite bool_decide_eq_false_2; [done|]. rewrite app_nil_r.
    intros (H1 & H2 & H3). apply H2. by apply (anti_symm prefix).
  - assert (at_ `prefix_of` at_ ++ [seg] ∧ at_ ++ [seg] ≠ at_ ∧
            (at_ ++ [seg]) `prefix_of` at_ ++ seg :: rest) as Hd.
    { split_and!.
      - by apply prefix_app_r.
      - intros E. apply (f_equal length) in E. rewrite length_app in E. simpl in E. lia.
      - exists rest. by rewrite <- app_assoc. }
    destruct (m !! (at_ ++ [seg])) as [[c t'|t']|] eqn:Ed; [done| |].
    + rewrite (IH _ _ H k). destruct (decide (k = at_ ++ [seg])) as [->|Hk].
      * by rewrite Ed.
      * destruct (m !! k); [done|].
        by rewrite (bool_decide_ext _ _ (created_by_mkdirp_step at_ rest k seg Hk)).
    + rewrite (IH _ _ H k). destruct (decide (k = at_ ++ [seg])) as [->|Hk].
      * rewrite lookup_insert_eq, Ed. by rewrite bool_decide_eq_true_2.
      * rewrite lookup_insert_ne by done. destruct (m !! k); [done|].
        by rewrite (bool_decide_ext _ _ (created_by_mkdirp_step at_ rest k seg Hk)).
Qed.

Lemma mkdirSync_Return p w w' :
  mkdirSync p w = (Return tt, w') →
  p ≠ "" ∧ cwd w' = cwd w ∧ clock w' = clock w ∧ console w' = console w ∧
  ∀ k, files w' !! k =
    match files w !! k with
    | Some n => Some n
    | None =>
        if bool_decide (k ≠ [] ∧ k `prefix_of` resolve (cwd w) p)
        then Some (Dir (clock w)) else None
    end.
Proof.
  unfold mkdirSync. case_bool_decide as Hp; [done|].
  destruct (mkdirp _ _ _ _) as [e|m] eqn:E; [done|]. intros [= <-].
  split_and!; [done..|]. intros k. simpl. rewrite (mkdirp_lookup _ _ _ _ _ E k).
  destruct (files w !! k); [done|].
  assert (([] `prefix_of` k ∧ k ≠ [] ∧ k `prefix_of` [] ++ resolve (cwd w) p)
          ↔ (k ≠ [] ∧ k `prefix_of` resolve (cwd w) p)) as Hiff.
  { simpl. split; [by intros (_&?&?)|]. intros (?&?). split_and!; [apply prefix_nil|done..]. }
  by rewrite (bool_decide_ext _ _ Hiff).
Qed.

Lemma writeFileSync_Return p data w w' :
  writeFileSync p data w = (Return tt, w') →
  p ≠ "" ∧ cwd w' = cwd w ∧ clock w' = clock w ∧ console w' = console w ∧
  files w' = <[resolve (cwd w) p := File data (clock w)]> (files w).
Proof.
  unfold writeFileSync. case_bool_decide as Hp; [done|].
  destruct (node_at _ (removelast _)) as [[]|]; [done| |done].
  destruct (node_at _ (resolve _ _)) as [[]|]; [|done|];
    destruct (endsWith p "/"); [done| |done|]; by intros [= <-].
Qed.

Lemma console_log_Return e w w' :
  console_log e w = (Return tt, w') →
  cwd w' = cwd w ∧ clock w' = clock w ∧ files w' = files w.
Proof. by intros [= <-]. Qed.

(** ** The steps of [scaffold] *)

Arguments getAgentsTemplate : simpl never.
Arguments getArchitectureTemplate : simpl never.
Arguments getDesignTemplate : simpl never.
Arguments getFrontendTemplate : simpl never.
Arguments getPlansTemplate : simpl never.
Arguments getProductSenseTemplate : simpl never.
Arguments getQualityScoreTemplate : simpl never.
Arguments getReliabilityTemplate : simpl never.
Arguments getSecurityTemplate : simpl never.
Arguments getDesignDocTemplate : simpl never.
Arguments getExecPlanTemplate : simpl never.
Arguments getProductSpecTemplate : simpl never.
Arguments getTechDebtTrackerTemplate : simpl never.
Arguments getCoreBeliefsTemplate : simpl never.
Arguments getValidationScriptTemplate : simpl never.
Arguments getGithubWorkflowTemplate : simpl never.
Arguments getReadmeTemplate : simpl never.
Arguments getGitignoreTemplate : simpl never.
Arguments getBiomeConfigTemplate : simpl never.
Arguments getMarkdownLinkCheckConfig : simpl never.
Arguments design_docs_index : simpl never.
Arguments product_specs_index : simpl never.
Arguments JSON_stringify : simpl never.
Arguments getting_started : simpl never.
Arguments join : simpl never.
Arguments mkdirSync : simpl never.
Arguments writeFileSync : simpl never.
Arguments console_log : simpl never.
Arguments existsSync : simpl never.
Arguments utf8_decode : simpl never.
Arguments String.append : simpl never.

Ltac step_through :=
  repeat lazymatch goal with
    | |- ((?m ≫= ?f) ≫= ?g) ?s = _ => rewrite (bind_assoc m f g s)
    | |- (mret ?a ≫= ?f) ?s = _ => change ((mret a ≫= f) s) with (f a s); cbv beta
    | |- ?m ?s = (?m ≫= λ _, mret tt) ?s => by rewrite bind_ret_r
    | |- (?m ≫= ?f) ?s = (?m ≫= ?g) ?s => apply bind_ext; intros [] ?
    end.

(** [scaffold] performs its steps, in order. *)
Lemma scaffold_steps project w :
  scaffold project w =
  (console_log (SpinnerStart "Creating project structure") ;;
   ensure_root (path project) ;;
   for_of (steps project) (perform (path project))) w.
Proof.
  destruct project as [P pt vl ob ci].
  unfold scaffold, steps, ensure_root, directories; simpl path; simpl projectType;
    simpl validationLanguage; simpl includeCI.
  apply bind_ext; intros [] w1.
  rewrite (bind_assoc (read _)).
  apply bind_ext; intros present w2.
  apply bind_ext; intros [] w3.
  destruct pt, vl, ci; simpl; step_through.
Qed.

Lemma steps_plain project : Forall step_plain (steps project).
Proof.
  destruct project as [P [] [] ob []];
    apply (bool_decide_unpack _); vm_compute; exact I.
Qed.

Lemma perform_lookup P s w w' :
  P ≠ "" → step_plain s → perform P s w = (Return tt, w') →
  cwd w' = cwd w ∧ clock w' = clock w ∧
  ∀ k, files w' !! k = step_at (clock w) (resolve (cwd w) P) k (files w !! k) s.
Proof.
  intros HP Hs H. destruct s as [rel|rel c|e]; simpl in *.
  - apply mkdirSync_Return in H as (_ & ? & ? & _ & H). split_and!; [done..|].
    intros k. rewrite H. by rewrite resolve_join_plain.
  - apply writeFileSync_Return in H as (_ & ? & ? & _ & ->). split_and!; [done..|].
    intros k. rewrite resolve_join_plain by done. rewrite lookup_insert.
    destruct (decide (resolve (cwd w) P ++ split slash rel = k)) as [<-|Hk].
    + by rewrite bool_decide_eq_true_2.
    + by rewrite bool_decide_eq_false_2.
  - apply console_log_Return in H as (? & ? & ->). done.
Qed.

Lemma for_of_perform_lookup P ss w w' :
  P ≠ "" → Forall step_plain ss → for_of ss (perform P) w = (Return tt, w') →
  cwd w' = cwd w ∧ clock w' = clock w ∧
  ∀ k, files w' !! k
       = foldl (step_at (clock w) (resolve (cwd w) P) k) (files w !! k) ss.
Proof.
  intros HP. revert w. induction ss as [|s ss IH]; intros w Hss H.
  - by injection H as <-.
  - inversion Hss as [|? ? Hs Hss']; subst.
    apply for_of_Return_inv in H as (w1 & H1 & H2).
    apply perform_lookup in H1 as (Hc & Ht & Hk); [|done..].
    apply IH in H2 as (Hc' & Ht' & Hk'); [|done].
    split_and!; [congruence..|]. intros k. rewrite Hk', Hk, Hc, Ht. done.
Qed.

Lemma ensure_root_lookup P w w' :
  ensure_root P w = (Return tt, w') →
  P ≠ "" ∧ cwd w' = cwd w ∧ clock w' = clock w ∧
  ∀ k, files w' !! k = files w !! k ∨
       (files w !! k = None ∧ files w' !! k = Some (Dir (clock w)) ∧
        k ≠ [] ∧ k `prefix_of` resolve (cwd w) P).
Proof.
  unfold ensure_root. intros H.
  apply bind_Return_inv in H as (present & w1 & [= <- <-] & H).
  destruct (existsSync w P) eqn:E; simpl in H.
  - injection H as <-. split_and!; [|done..|by left].
    by apply existsSync_true in E as [? _].
  - apply mkdirSync_Return in H as (? & ? & ? & _ & H). split_and!; [done..|].
    intros k. rewrite H. destruct (files w !! k) eqn:Ek; [by left|].
    case_bool_decide as Hk; [|by left]. right. by destruct Hk.
Qed.

Lemma steps_head project :
  ∃ rest, steps project = Mkdir "docs/design-docs" :: rest.
Proof. by eexists. Qed.

(** What a successful [scaffold] leaves at every key of the file tree. *)
Lemma scaffold_lookup project w w' :
  scaffold project w = (Return tt, w') →
  path project ≠ "" ∧ cwd w' = cwd w ∧ clock w' = clock w ∧
  ∀ k, files w' !! k
       = foldl (step_at (clock w) (resolve (cwd w) (path project)) k)
           (files w !! k) (steps project).
Proof.
  rewrite scaffold_steps. intros H.
  apply bind_Return_inv in H as ([] & w1 & H1 & H).
  apply bind_Return_inv in H as ([] & w2 & H2 & H).
  apply console_log_Return in H1 as (Hc1 & Ht1 & Hf1).
  apply ensure_root_lookup in H2 as (HP & Hc2 & Ht2 & Hf2).
  apply for_of_perform_lookup in H as (Hc & Ht & Hf); [|done|apply steps_plain].
  split_and!; [done|congruence..|].
  intros k. rewrite Hf, Hc2, Ht2, Hc1, Ht1.
  destruct (Hf2 k) as [->|(Hn & -> & Hk & Hpre)]; [by rewrite Hf1|].
  rewrite Hf1 in Hn. rewrite Hn, Ht1.
  destruct (steps_head project) as [rest ->]. simpl.
  rewrite bool_decide_eq_true_2; [done|].
  split; [done|]. rewrite Hc1 in Hpre. by apply prefix_app_r.
Qed.

(** Seen from the project directory. *)
Lemma step_at_rel t base r prev s :
  r ≠ [] → step_at t base (base ++ r) prev s = step_rel t r prev s.
Proof.
  intros Hr. destruct s as [rel|rel c|e]; simpl; [| |done].
  - destruct prev; [done|].
    rewrite (bool_decide_ext _ (r `prefix_of` split slash rel)); [done|]. split.
    + intros [_ H]. by apply prefix_app_inv in H.
    + intros H. split; [by destruct base, r|by apply prefix_app].
  - rewrite (bool_decide_ext _ (r = split slash rel)); [done|].
    split; [apply app_inv_head|by intros ->].
Qed.

Lemma foldl_step_at_rel t base r prev ss :
  r ≠ [] →
  foldl (step_at t base (base ++ r)) prev ss = foldl (step_rel t r) prev ss.
Proof.
  intros Hr. revert prev. induction ss as [|s ss IH]; intros prev; simpl; [done|].
  by rewrite step_at_rel, IH.
Qed.

Lemma scaffold_lookup_rel project w w' r :
  scaffold project w = (Return tt, w') → r ≠ [] →
  files w' !! (resolve (cwd w) (path project) ++ r)
  = foldl (step_rel (clock w) r)
      (files w !! (resolve (cwd w) (path project) ++ r)) (steps project).
Proof.
  intros H Hr. apply scaffold_lookup in H as (_ & _ & _ & H).
  by rewrite H, foldl_step_at_rel.
Qed.

(** Nodes only change by the steps: whatever the steps leave at a key was
    there before or carries the time of the run. *)
Lemma foldl_step_rel_mtime t r prev ss n :
  foldl (step_rel t r) prev ss = Some n →
  prev = Some n ∨ mtimeMs_of n = t.
Proof.
  revert prev. induction ss as [|s ss IH]; intros prev H; simpl in H; [by left|].
  apply IH in H as [H|H]; [|by right].
  destruct s as [rel|rel c|e]; simpl in H; [| |by left].
  - destruct prev; [by left|]. case_bool_decide; [|done]. injection H as <-. by right.
  - case_bool_decide; [|by left]. injection H as <-. by right.
Qed.

(** The steps create entries with plain names only. *)
Lemma foldl_step_rel_normal t r prev ss n :
  Forall step_plain ss →
  foldl (step_rel t r) prev ss = Some n →
  prev = Some n ∨ Forall normal_seg r.
Proof.
  revert prev. induction ss as [|s ss IH]; intros prev Hss H; simpl in H; [by left|].
  inversion Hss as [|? ? Hs Hss']; subst.
  apply IH in H as [H|H]; [|by right|done].
  destruct s as [rel|rel c|e]; simpl in H; [| |by left].
  - destruct prev; [by left|]. case_bool_decide as Hp; [|done]. right.
    destruct Hp as [x Hx]. unfold step_plain, plain in Hs. rewrite Hx in Hs.
    by apply Forall_app in Hs as [? _].
  - case_bool_decide as Hp; [|by left]. right. by subst.
Qed.


(** ** What the scaffolder leaves on disk *)

(** A run that returns, with the state it leaves. *)
Lemma returned {S A} (x : outcome A * S) a : x.1 = Return a → x = (Return a, x.2).
Proof. destruct x as [o s]. by intros [= ->]. Qed.

Lemma node_at_app m (base r : list string) :
  r ≠ [] → node_at m (base ++ r) = m !! (base ++ r).
Proof. intros Hr. by destruct base, r. Qed.

(** The node at a plain path below the project directory, after a
    successful run. *)
Lemma scaffold_node project w w' rel :
  scaffold project w = (Return tt, w') → plain rel →
  node_at (files w') (resolve (cwd w') (join (path project) rel))
  = foldl (step_rel (clock w) (split slash rel))
      (files w !! (resolve (cwd w) (path project) ++ split slash rel))
      (steps project).
Proof.
  intros H Hrel. pose proof (scaffold_lookup _ _ _ H) as (HP & Hc & _ & _).
  rewrite Hc, resolve_join_plain by done.
  rewrite node_at_app by apply split_nonempty.
  apply scaffold_lookup_rel; [done|apply split_nonempty].
Qed.

(** The same, as the read-only calls find it. *)
Lemma scaffold_entry project w w' rel :
  scaffold project w = (Return tt, w') → plain rel →
  entry_at w' (join (path project) rel)
  = match foldl (step_rel (clock w) (split slash rel))
            (files w !! (resolve (cwd w) (path project) ++ split slash rel))
            (steps project) with
    | Some n => inr n
    | None => inl "ENOENT"
    end.
Proof.
  intros H Hrel.
  rewrite entry_at_eq by (apply join_nonempty || by apply join_plain_no_trailing).
  by rewrite (scaffold_node _ _ _ _ H).
Qed.

Ltac plain_path := apply (bool_decide_unpack _); vm_compute; exact I.

(** The documents of the scaffolder are well-formed UTF-8: they read back
    as they were written. *)
Lemma steps_utf8 project rel c :
  WriteFile rel c ∈ steps project → utf8_decode c = c.
Proof.
  assert (Forall step_utf8 (steps project)) as H.
  { destruct project as [P [] [] ob []]; apply (bool_decide_unpack _); vm_compute; exact I. }
  intros Hin. rewrite Forall_forall in H. apply (H _ Hin).
Qed.

Lemma guide_utf8 pt : utf8_decode (getAgentsTemplate pt) = getAgentsTemplate pt.
Proof. destruct pt; vm_compute; reflexivity. Qed.

Ltac by_steps :=
  match goal with
  | |- context [steps ?project] =>
      destruct project as [? [] [] ? []]; intros; simplify_eq/=; vm_compute; reflexivity
  end.

Lemma agents_written project t prev :
  foldl (step_rel t ["AGENTS.md"]) prev (steps project)
  = Some (File (getAgentsTemplate (projectType project)) t).
Proof. by_steps. Qed.

Lemma claude_written project t prev :
  foldl (step_rel t ["CLAUDE.md"]) prev (steps project)
  = Some (File (getAgentsTemplate (projectType project)) t).
Proof. by_steps. Qed.

(** C4. After a successful run, CLAUDE.md and AGENTS.md hold the same
    bytes: both are the agent guide rendered for the project type. *)
Theorem claude_md_is_agents_md project w w' :
  scaffold project w = (Return tt, w') →
  readFileSync w' (join (path project) "CLAUDE.md")
  = readFileSync w' (join (path project) "AGENTS.md") ∧
  readFileSync w' (join (path project) "AGENTS.md")
  = inr (getAgentsTemplate (projectType project)).
Proof.
  intros H. unfold readFileSync.
  rewrite !(scaffold_entry _ _ _ _ H) by plain_path.
  change (split slash "CLAUDE.md") with ["CLAUDE.md"].
  change (split slash "AGENTS.md") with ["AGENTS.md"].
  by rewrite agents_written, claude_written, guide_utf8.
Qed.

Lemma claude_md_is_agents_md_witness :
  readFileSync (scaffold fullstack_ts_ci home).2 (join "./my-agent-project" "CLAUDE.md")
  = readFileSync (scaffold fullstack_ts_ci home).2 (join "./my-agent-project" "AGENTS.md").
Proof.
  apply (claude_md_is_agents_md fullstack_ts_ci home (scaffold fullstack_ts_ci home).2).
  apply returned. vm_compute. reflexivity.
Defined.




















(** ** The questionnaire *)

(** What a cancelled session comes to: the two opening messages, the
    cancellation message, and [process.exit(0)] with the world as it was. *)
Lemma cancelled_main s w :
  cancelled s →
  main s w =
  (Exit 0,
   {| files := files w; cwd := cwd w; clock := clock w;
      console := console w ++ [Clear; Intro " agentic-engine "; Cancel "Operation cancelled."] |}).
Proof.
  destruct s as [[|p] [|pt] [|vl] [|ob] [|ci]];
    intros [H|[H|[H|[H|H]]]]; try discriminate H;
    cbv [main group prompt onCancel p_text console_log process_exit mbind eff_bind
         mret eff_ret at_path at_projectType at_validationLanguage
         at_includeObservability at_includeCI files cwd clock console];
    by rewrite <- !app_assoc.
Qed.

(** C2, as the code has it. A cancelled session ends the process with exit
    code 0, after the message "Operation cancelled." and nothing else: no
    error is printed.  Exit code 0 is therefore not reserved for runs that
    scaffold a project. *)
Theorem cancel_exits_with_code_zero s w :
  cancelled s →
  (run s w).1 = Some 0%Z ∧
  console (run s w).2
  = console w ++ [Clear; Intro " agentic-engine "; Cancel "Operation cancelled."].
Proof. intros H. unfold run. by rewrite (cancelled_main _ _ H). Qed.

Lemma cancel_exits_with_code_zero_witness :
  (run cancel_at_end home).1 = Some 0%Z ∧
  console (run cancel_at_end home).2
  = console home ++ [Clear; Intro " agentic-engine "; Cancel "Operation cancelled."].
Proof.
  apply (cancel_exits_with_code_zero cancel_at_end home).
  unfold cancelled. simpl. tauto.
Defined.

(** C2 as stated fails: this cancelled session does not end with a non-zero
    exit code. *)
Lemma cancel_exit_code_not_nonzero :
  cancelled cancel_at_start ∧ ¬ ((run cancel_at_start home).1 ≠ Some 0%Z).
Proof. split; [by left|]. intros H. by apply H. Qed.

(** C10. A cancelled session leaves the file tree and the working directory
    exactly as they were: no directory is created and no file is written. *)
Theorem cancel_touches_no_file s w :
  cancelled s →
  files (run s w).2 = files w ∧ cwd (run s w).2 = cwd w.
Proof. intros H. unfold run. by rewrite (cancelled_main _ _ H). Qed.

Lemma cancel_touches_no_file_witness :
  files (run cancel_at_start home).2 = files home ∧
  cwd (run cancel_at_start home).2 = cwd home.
Proof.
  apply (cancel_touches_no_file cancel_at_start home).
  unfold cancelled. simpl. tauto.
Defined.

(** ** References to FRONTEND.md in the templates *)

Lemma steps_mention_as_expected project :
  forallb (mentions_as_expected project) (steps project) = true.
Proof. destruct project as [? [] [] ? []]; vm_compute; reflexivity. Qed.

(** C3, as the code has it. The agent guide mentions FRONTEND.md exactly
    when the project type is fullstack or frontend; the README mentions it
    for every project type, marked "(if applicable)" exactly for backend; no
    other template mentions it.  So among the documents the scaffolder
    writes, FRONTEND.md is mentioned in README.md, always, and in AGENTS.md
    and CLAUDE.md unless the project is backend only. *)
Theorem frontend_md_references project :
  let pt := projectType project in
  let vl := validationLanguage project in
  includes (getAgentsTemplate pt) "FRONTEND.md"
  = bool_decide (pt = fullstack) || bool_decide (pt = frontend) ∧
  includes (getReadmeTemplate pt vl) "FRONTEND.md" = true ∧
  includes (getReadmeTemplate pt vl) "FRONTEND.md            # Frontend guidelines (if applicable)"
  = bool_decide (pt = backend) ∧
  Forall (λ doc, includes doc "FRONTEND.md" = false) other_documents ∧
  ∀ rel content, WriteFile rel content ∈ steps project →
    includes content "FRONTEND.md" = may_mention_frontend_md project rel.
Proof.
  split_and!.
  - by destruct project as [? [] [] ? []]; vm_compute.
  - by destruct project as [? [] [] ? []]; vm_compute.
  - by destruct project as [? [] [] ? []]; vm_compute.
  - apply (bool_decide_unpack _). vm_compute. exact I.
  - intros rel content Hin.
    pose proof (steps_mention_as_expected project) as H.
    rewrite forallb_forall in H. apply list_elem_of_In, H in Hin.
    by apply Bool.eqb_prop in Hin.
Qed.

(** C3 as stated fails: the README of a backend project mentions
    FRONTEND.md. *)
Lemma backend_readme_mentions_frontend_md :
  includes (getReadmeTemplate backend javascript) "FRONTEND.md" = true.
Proof. by vm_compute. Qed.

(** ** The structure validator *)

Lemma bind_Return {S A B} (m : eff S A) (f : A → eff S B) s a s' :
  m s = (Return a, s') → (m ≫= f) s = f a s'.
Proof. intros H. unfold mbind, eff_bind. by rewrite H. Qed.

Lemma for_of_ext {S A} (xs : list A) (f g : A → eff S unit) s :
  (∀ x s', f x s' = g x s') → for_of xs f s = for_of xs g s.
Proof.
  intros H. revert s. induction xs as [|x xs IH]; intros s; [done|].
  simpl. unfold mbind, eff_bind. rewrite H. by destruct (g x s) as [[[]|e|c] s1].
Qed.

(** A loop that pushes a warning for the elements that satisfy a test. *)
Lemma for_of_warnings {A} (xs : list A) (c : A → bool) (f : A → string) v :
  for_of xs (λ x, when_ (c x) (warnings_push (f x))) v
  = (Return tt, {| rootDir := rootDir v; errors := errors v;
                   warnings := warnings v ++ (f <$> List.filter c xs);
                   stdout := stdout v |}).
Proof.
  revert v. induction xs as [|x xs IH]; intros v.
  - simpl. rewrite app_nil_r. by destruct v.
  - simpl. destruct (c x); simpl.
    + erewrite bind_Return by done. rewrite IH. simpl. by rewrite <- app_assoc.
    + erewrite bind_Return by done. by rewrite IH.
Qed.

Lemma for_of_errors {A} (xs : list A) (c : A → bool) (f : A → string) v :
  for_of xs (λ x, when_ (c x) (errors_push (f x))) v
  = (Return tt, {| rootDir := rootDir v; errors := errors v ++ (f <$> List.filter c xs);
                   warnings := warnings v; stdout := stdout v |}).
Proof.
  revert v. induction xs as [|x xs IH]; intros v.
  - simpl. rewrite app_nil_r. by destruct v.
  - simpl. destruct (c x); simpl.
    + erewrite bind_Return by done. rewrite IH. simpl. by rewrite <- app_assoc.
    + erewrite bind_Return by done. by rewrite IH.
Qed.

Lemma filter_none {A} (c : A → bool) xs :
  Forall (λ x, c x = false) xs → List.filter c xs = [].
Proof.
  induction 1 as [|x xs Hx _ IH]; [done|]. simpl. by rewrite Hx.
Qed.

Lemma readFileSync_exists w p c :
  readFileSync w p = inr c → existsSync w p = true.
Proof.
  unfold readFileSync, existsSync. by destruct (entry_at w p) as [e|[]].
Qed.

(** *** The link check *)

(** What [validateCrossLinks] does when the agent guide can be read. *)
Lemma validateCrossLinks_read w v c :
  readFileSync w (join (rootDir v) "AGENTS.md") = inr c →
  validateCrossLinks w v
  = (Return tt, {| rootDir := rootDir v; errors := errors v;
                   warnings := warnings v ++ link_warnings w (rootDir v) c;
                   stdout := stdout v |}).
Proof.
  intros H. unfold validateCrossLinks.
  erewrite bind_Return by done.
  rewrite (readFileSync_exists _ _ _ H). simpl.
  rewrite H. erewrite bind_Return by done.
  erewrite for_of_ext; [apply for_of_warnings|].
  intros l v'. simpl. by destruct (startsWith l "http").
Qed.

(** X24. What the link check records.  With the agent guide readable, the
    link check returns, changes nothing but the warnings, and appends one
    warning for each match of the link pattern, in order, whose path does
    not start with the characters "http" and, joined to the root, does not
    exist. *)
Theorem link_check_skips_http_prefix w v c :
  readFileSync w (join (rootDir v) "AGENTS.md") = inr c →
  validateCrossLinks w v
  = (Return tt,
     {| rootDir := rootDir v; errors := errors v;
        warnings := warnings v ++
          (broken_link <$>
             List.filter (λ l, negb (startsWith l "http") &&
                               negb (existsSync w (join (rootDir v) l)))
               (exec_all 0 c));
        stdout := stdout v |}).
Proof. apply validateCrossLinks_read. Qed.

Lemma link_check_skips_http_prefix_witness :
  let c := "See [the docs](httpdocs/guide.md) and [the mirror](ftp://example.org/guide.md)." in
  validateCrossLinks linked (new_StructureValidator "/p")
  = (Return tt,
     {| rootDir := "/p"; errors := [];
        warnings := [] ++
          (broken_link <$>
             List.filter (λ l, negb (startsWith l "http") &&
                               negb (existsSync linked (join "/p" l)))
               (exec_all 0 c));
        stdout := [] |}).
Proof.
  apply (link_check_skips_http_prefix linked (new_StructureValidator "/p")).
  vm_compute. reflexivity.
Defined.

(** C5. The link check does not go by URL scheme, as the specification has
    it and as the comment "Skip external links" above its test announces:
    it skips the paths that start with the characters "http".  In this guide the
    link to "httpdocs/guide.md" has no scheme and leads nowhere, yet it is
    skipped; the link to "ftp://example.org/guide.md" is external, yet it
    is looked up as a file and reported.  The warnings differ from the ones
    a check by URL scheme records. *)
Lemma link_check_is_not_by_scheme :
  let guide := "See [the docs](httpdocs/guide.md) and [the mirror](ftp://example.org/guide.md)." in
  let found := warnings (validateCrossLinks linked (new_StructureValidator "/p")).2 in
  readFileSync linked (join "/p" "AGENTS.md") = inr guide ∧
  found = ["Broken link in AGENTS.md: ftp://example.org/guide.md"] ∧
  link_warnings_by_scheme linked "/p" guide
  = ["Broken link in AGENTS.md: httpdocs/guide.md"] ∧
  found ≠ link_warnings_by_scheme linked "/p" guide.
Proof. vm_compute. split_and!; [reflexivity..|discriminate]. Qed.

(** The pattern matches a well-formed link, and group 2 is its path. *)
Lemma take_until_run c run rest :
  Forall (λ a, Ascii.eqb a c = false) (String.list_ascii_of_string run) →
  take_until c (run +:+ String c rest) = Some (run, String c rest).
Proof.
  induction run as [|a run IH]; intros H.
  - simpl. by rewrite Ascii.eqb_refl.
  - inversion H as [|? ? Ha Hrun]; subst. rewrite append_cons. simpl.
    by rewrite Ha, IH.
Qed.

Lemma match_link_wellformed text linkPath rest :
  text ≠ "" → linkPath ≠ "" →
  Forall (λ a, Ascii.eqb a "]" = false) (String.list_ascii_of_string text) →
  Forall (λ a, Ascii.eqb a ")" = false) (String.list_ascii_of_string linkPath) →
  match_link ("[" +:+ text +:+ "](" +:+ linkPath +:+ ")" +:+ rest)
  = Some (linkPath, 4 + String.length text + String.length linkPath).
Proof.
  intros Ht Hp Htext Hpath. unfold match_link.
  change ("[" +:+ ?s) with (String "[" s).
  change ("](" +:+ ?s) with (String "]" (String "(" s)).
  change (")" +:+ ?s) with (String ")" s).
  cbv beta iota.
  rewrite (take_until_run "]" text) by done. destruct text as [|a text]; [done|].
  cbv beta iota.
  rewrite (take_until_run ")" linkPath) by done. by destruct linkPath.
Qed.

(** *** The outcome of a run *)

Lemma never_exits_ret {S A} (a : A) : never_exits (mret a : eff S A).
Proof. by intros s c s'. Qed.

Lemma never_exits_read {S A} (f : S → A) : never_exits (read f).
Proof. by intros s c s'. Qed.

Lemma never_exits_try {S A} (r : string + A) : never_exits (try_ r : eff S A).
Proof. by destruct r as [e|a]; intros s c s'. Qed.

Lemma never_exits_errors_push e : never_exits (errors_push e).
Proof. by intros s c s'. Qed.

Lemma never_exits_warnings_push e : never_exits (warnings_push e).
Proof. by intros s c s'. Qed.

Lemma never_exits_log line : never_exits (log line).
Proof. by intros s c s'. Qed.

Lemma never_exits_bind {S A B} (m : eff S A) (f : A → eff S B) :
  never_exits m → (∀ a, never_exits (f a)) → never_exits (m ≫= f).
Proof.
  intros Hm Hf s c s'. unfold mbind, eff_bind.
  destruct (m s) as [[a|e|c'] s1] eqn:E; [apply Hf|done|by apply Hm in E].
Qed.

Lemma never_exits_for_of {S A} (xs : list A) (body : A → eff S unit) :
  (∀ x, never_exits (body x)) → never_exits (for_of xs body).
Proof.
  intros H. induction xs as [|x xs IH]; simpl.
  - apply never_exits_ret.
  - by apply never_exits_bind.
Qed.

Lemma never_exits_when {S} c (m : eff S unit) :
  never_exits m → never_exits (when_ c m).
Proof. destruct c; [done|]. intros _. apply never_exits_ret. Qed.

Ltac no_exit :=
  repeat (intros; cbv zeta;
    lazymatch goal with
    | |- never_exits (_ ≫= _) => apply never_exits_bind
    | |- never_exits (for_of _ _) => apply never_exits_for_of
    | |- never_exits (when_ _ _) => apply never_exits_when
    | |- never_exits (if ?b then _ else _) => destruct b
    | |- never_exits (mret _) => apply never_exits_ret
    | |- never_exits (read _) => apply never_exits_read
    | |- never_exits (try_ _) => apply never_exits_try
    | |- never_exits (errors_push _) => apply never_exits_errors_push
    | |- never_exits (warnings_push _) => apply never_exits_warnings_push
    | |- never_exits (log _) => apply never_exits_log
    end).

(** The validator leaves the process through the last line of the script
    only. *)
Lemma validate_never_exits w : never_exits (validate w).
Proof.
  unfold validate, validateRootDocs, validateDocsStructure, validateCrossLinks,
    validateDocFreshness, printResults.
  no_exit.
Qed.

(** [validate] returns whether the error list is empty. *)
Lemma validate_Return w v b v' :
  validate w v = (Return b, v') → b = (length (errors v') =? 0)%nat.
Proof.
  unfold validate. intros H.
  do 6 (apply bind_Return_inv in H as ([] & ? & _ & H)).
  by injection H as <- <-.
Qed.

(** C8, as the code has it. The run ends with exit code 0 exactly when the
    validation pass completes and the error list it has accumulated is
    empty; the warnings play no part.  A pass that a file-system call cuts
    short by throwing ends the run with code 1, whatever the error list
    holds. *)
Theorem validator_succeeds_iff_completes_without_errors w :
  let r := validate w (new_StructureValidator (process_cwd w)) in
  ((validate_structure w).1 = 0%Z ↔ (∃ b, r.1 = Return b) ∧ errors r.2 = []) ∧
  (validate_structure w).2 = r.2.
Proof.
  intros r. unfold validate_structure, script.
  set (pass := validate w). unfold mbind, eff_bind. subst pass. fold r.
  destruct r as [[b|e|c] v'] eqn:E; simpl.
  - apply validate_Return in E as ->. split; [|done].
    destruct (errors v') as [|x l]; simpl.
    + split; [eauto|done].
    + split; [done|]. by intros [_ ?].
  - split; [|done]. split; [done|]. by intros [[b ?] _].
  - by apply validate_never_exits in E.
Qed.

(** C8 as stated fails for a project whose [docs/design-docs] is a regular
    file: [readdirSync] throws, the run ends with code 1, and the error list
    is empty. *)
Lemma empty_error_list_yet_failure :
  ¬ ((validate_structure design_docs_is_a_file).1 = 0%Z
     ↔ errors (validate_structure design_docs_is_a_file).2 = []).
Proof.
  assert ((validate_structure design_docs_is_a_file).1 = 1%Z) as E1
    by (vm_compute; reflexivity).
  assert (errors (validate_structure design_docs_is_a_file).2 = []) as E2
    by (vm_compute; reflexivity).
  intros [_ H]. rewrite E1 in H. by specialize (H E2).
Qed.

(** *** A pass without findings *)

Lemma for_of_errors_none {A} (xs : list A) (c : A → bool) (f : A → string) v :
  Forall (λ x, c x = false) xs →
  for_of xs (λ x, when_ (c x) (errors_push (f x))) v = (Return tt, v).
Proof.
  intros H. rewrite for_of_errors, (filter_none _ _ H). simpl.
  rewrite app_nil_r. by destruct v.
Qed.

Lemma for_of_warnings_none {A} (xs : list A) (c : A → bool) (f : A → string) v :
  Forall (λ x, c x = false) xs →
  for_of xs (λ x, when_ (c x) (warnings_push (f x))) v = (Return tt, v).
Proof.
  intros H. rewrite for_of_warnings, (filter_none _ _ H). simpl.
  rewrite app_nil_r. by destruct v.
Qed.

Lemma for_of_skip {S A} (xs : list A) (body : A → eff S unit) s :
  Forall (λ x, ∀ s, body x s = (Return tt, s)) xs →
  for_of xs body s = (Return tt, s).
Proof.
  induction 1 as [|x xs Hx _ IH]; [done|].
  simpl. erewrite bind_Return by apply Hx. apply IH.
Qed.

Lemma only_logs_log line : only_logs (log line).
Proof. intros v. by eexists. Qed.

Lemma only_logs_ret : only_logs (mret tt).
Proof. intros v. exists (stdout v). by destruct v. Qed.

Lemma only_logs_bind (m k : eff StructureValidator unit) :
  only_logs m → only_logs k → only_logs (m ≫= λ _, k).
Proof.
  intros Hm Hk v. destruct (Hm v) as [out E]. erewrite bind_Return by exact E.
  destruct (Hk {| rootDir := rootDir v; errors := errors v;
                  warnings := warnings v; stdout := out |}) as [out' E'].
  by exists out'.
Qed.

Lemma only_logs_for_of {A} (xs : list A) (body : A → eff StructureValidator unit) :
  (∀ x, only_logs (body x)) → only_logs (for_of xs body).
Proof.
  intros H. induction xs as [|x xs IH]; simpl.
  - apply only_logs_ret.
  - by apply only_logs_bind.
Qed.

Lemma only_logs_when c (m : eff StructureValidator unit) :
  only_logs m → only_logs (when_ c m).
Proof. destruct c; [done|]. intros _. apply only_logs_ret. Qed.

Ltac just_logs :=
  repeat (intros;
    lazymatch goal with
    | |- only_logs (_ ≫= λ _, _) => apply only_logs_bind
    | |- only_logs (for_of _ _) => apply only_logs_for_of
    | |- only_logs (when_ _ _) => apply only_logs_when
    | |- only_logs (if ?b then _ else _) => destruct b
    | |- only_logs (log _) => apply only_logs_log
    end).

(** [printResults] prints and changes nothing else. *)
Lemma printResults_only_logs : only_logs printResults.
Proof.
  intros v. unfold printResults.
  erewrite bind_Return by done. erewrite bind_Return by done.
  lazymatch goal with
  | |- ∃ out, ?m v = _ =>
      let f := eval pattern (errors v), (warnings v) in m in
      lazymatch f with
      | ?g _ _ =>
          assert (∀ es ws, only_logs (g es ws)) as H by (intros; cbv beta; just_logs);
          exact (H (errors v) (warnings v) v)
      end
  end.
Qed.

Section clean_pass.
Variable w : world.
Variable root : string.
Variable guide : string.

Hypothesis docs_exist :
  Forall (λ doc, existsSync w (join root doc) = true)
    [ "AGENTS.md"; "CLAUDE.md"; "ARCHITECTURE.md"; "DESIGN.md"; "PLANS.md";
      "PRODUCT_SENSE.md"; "QUALITY_SCORE.md"; "RELIABILITY.md"; "SECURITY.md" ].
Hypothesis agents_read : readFileSync w (join root "AGENTS.md") = inr guide.
Hypothesis claude_read : readFileSync w (join root "CLAUDE.md") = inr guide.
Hypothesis guide_short : (length (split (Ascii.ascii_of_nat 10) guide) ≤ 150)%nat.
Hypothesis dirs_exist :
  Forall (λ dir, existsSync w (join root dir) = true)
    [ "docs/design-docs"; "docs/exec-plans/active"; "docs/exec-plans/completed";
      "docs/product-specs"; "docs/references"; "docs/generated" ].
Hypothesis indexes_exist :
  Forall (λ index, existsSync w (join root index) = true)
    [ "docs/design-docs/index.md"; "docs/product-specs/index.md" ].
Hypothesis links_lead_somewhere :
  Forall (λ l, existsSync w (join root l) = true) (exec_all 0 guide).
Variable entries : list string.
Hypothesis design_docs_read :
  readdirSync w (join root "docs/design-docs") = inr entries.
Hypothesis design_docs_indexed : "index.md" ∈ entries.
Hypothesis design_docs_recent :
  Forall (λ file, ∃ mtimeMs,
            statSync_mtimeMs w (join (join root "docs/design-docs") file) = inr mtimeMs ∧
            (clock w - mtimeMs ≤ sixMonths)%Z) entries.

Lemma validateRootDocs_clean v :
  rootDir v = root → validateRootDocs w v = (Return tt, v).
Proof.
  intros Hv. unfold validateRootDocs.
  erewrite bind_Return by done. rewrite Hv. cbv zeta.
  erewrite bind_Return; cycle 1.
  { apply for_of_errors_none. eapply Forall_impl; [exact docs_exist|].
    by intros doc ->. }
  pose proof docs_exist as Hd. rewrite !Forall_cons in Hd.
  destruct Hd as (Ha & Hc & _). rewrite Ha, Hc. simpl.
  rewrite agents_read, claude_read. simpl.
  erewrite bind_Return; cycle 1.
  { erewrite bind_Return by done. erewrite bind_Return by done.
    by rewrite String.eqb_refl. }
  erewrite bind_Return by done.
  apply Nat.ltb_ge in guide_short as ->. done.
Qed.

Lemma validateDocsStructure_clean v :
  rootDir v = root → validateDocsStructure w v = (Return tt, v).
Proof.
  intros Hv. unfold validateDocsStructure.
  erewrite bind_Return by done. rewrite Hv. cbv zeta.
  erewrite bind_Return; cycle 1.
  { apply for_of_errors_none. eapply Forall_impl; [exact dirs_exist|].
    by intros dir ->. }
  apply for_of_warnings_none. eapply Forall_impl; [exact indexes_exist|].
  by intros index ->.
Qed.

Lemma validateCrossLinks_clean v :
  rootDir v = root → validateCrossLinks w v = (Return tt, v).
Proof.
  intros Hv. rewrite (validateCrossLinks_read w v guide) by by rewrite Hv.
  unfold link_warnings. rewrite filter_none.
  - simpl. rewrite app_nil_r. by destruct v.
  - rewrite Hv. eapply Forall_impl; [exact links_lead_somewhere|].
    intros l ->. simpl. apply andb_false_r.
Qed.

Lemma validateDocFreshness_clean v :
  rootDir v = root → validateDocFreshness w v = (Return tt, v).
Proof.
  intros Hv. unfold validateDocFreshness.
  erewrite bind_Return by done. rewrite Hv. cbv zeta.
  pose proof dirs_exist as Hd. rewrite !Forall_cons in Hd.
  destruct Hd as (-> & _). simpl.
  rewrite design_docs_read. erewrite bind_Return by done.
  assert ("index.md" ∈ List.filter (λ f, endsWith f ".md") entries) as Hin.
  { apply list_elem_of_In, filter_In. split; [by apply list_elem_of_In|done]. }
  assert ((length (List.filter (λ f, endsWith f ".md") entries) =? 0)%nat = false) as ->.
  { destruct (List.filter _ entries); [by apply elem_of_nil in Hin|done]. }
  apply for_of_skip. apply Forall_forall. intros file Hfile v'.
  apply list_elem_of_In, filter_In in Hfile as [Hfile _].
  destruct (String.eqb file "index.md" || String.eqb file "template.md"); [done|].
  pose proof design_docs_recent as Hr. rewrite Forall_forall in Hr.
  destruct (Hr file) as (m & -> & Hage); [by apply list_elem_of_In|].
  erewrite bind_Return by done.
  apply Z.ltb_ge in Hage as ->. done.
Qed.
(** A pass over such a tree returns with the findings it started with. *)
Lemma validate_clean v :
  rootDir v = root →
  ∃ out, validate w v
         = (Return (length (errors v) =? 0)%nat,
            {| rootDir := rootDir v; errors := errors v;
               warnings := warnings v; stdout := out |}).
Proof.
  intros Hv. unfold validate.
  erewrite bind_Return by done.
  erewrite bind_Return by (by apply validateRootDocs_clean).
  erewrite bind_Return by (by apply validateDocsStructure_clean).
  erewrite bind_Return by (by apply validateCrossLinks_clean).
  erewrite bind_Return by (by apply validateDocFreshness_clean).
  match goal with
  | |- context [(printResults ≫= _) ?v1] =>
      destruct (printResults_only_logs v1) as [out E]
  end.
  erewrite bind_Return by exact E. simpl. by exists out.
Qed.
End clean_pass.

(** ** The validator on a fresh scaffold *)

Lemma children_elem m d name :
  name ∈ children m d ↔ is_Some (m !! (d ++ [name])).
Proof.
  unfold children. rewrite list_elem_of_omap. split.
  - intros ([k n] & Hkv & H). apply elem_of_map_to_list in Hkv. simpl in H.
    destruct (last k) as [x|] eqn:El; [|done].
    case_bool_decide as Hd; [|done]. injection H as ->.
    apply last_Some in El as [l' ->]. rewrite removelast_last in Hd. subst.
    by exists n.
  - intros [n Hn]. exists (d ++ [name], n). split; [by apply elem_of_map_to_list|].
    simpl. rewrite last_snoc, removelast_last. by rewrite bool_decide_eq_true_2.
Qed.

Lemma foldl_step_rel_is_Some t r n ss :
  is_Some (foldl (step_rel t r) (Some n) ss).
Proof.
  revert n. induction ss as [|s ss IH]; intros n; simpl; [by eexists|].
  destruct s as [rel|rel c|e]; simpl; [apply IH| |apply IH].
  destruct (bool_decide _); apply IH.
Qed.

(** An entry that one of the steps names is there after the steps. *)
Lemma named_is_Some t r prev ss :
  existsb (names r) ss = true → is_Some (foldl (step_rel t r) prev ss).
Proof.
  revert prev. induction ss as [|s ss IH]; intros prev H; simpl in *; [done|].
  destruct (names r s) eqn:Hs; simpl in H.
  - destruct s as [rel|rel c|e]; simpl in *; [| |done]; rewrite Hs.
    + destruct prev; apply foldl_step_rel_is_Some.
    + apply foldl_step_rel_is_Some.
  - by apply IH.
Qed.

(** What the validator looks for is among the entries the steps create. *)
Lemma required_created project :
  forallb (leads_to_created project)
    [ "AGENTS.md"; "CLAUDE.md"; "ARCHITECTURE.md"; "DESIGN.md"; "PLANS.md";
      "PRODUCT_SENSE.md"; "QUALITY_SCORE.md"; "RELIABILITY.md"; "SECURITY.md";
      "docs/design-docs"; "docs/exec-plans/active"; "docs/exec-plans/completed";
      "docs/product-specs"; "docs/references"; "docs/generated";
      "docs/design-docs/index.md"; "docs/product-specs/index.md" ] = true.
Proof. destruct project as [? [] [] ? []]; vm_compute; reflexivity. Qed.

(** So is every link of the agent guide; none of them starts with "http". *)
Lemma links_created project :
  forallb (leads_to_created project)
    (exec_all 0 (getAgentsTemplate (projectType project))) = true.
Proof. destruct project as [? [] [] ? []]; vm_compute; reflexivity. Qed.

Lemma guide_is_short pt :
  (length (split (Ascii.ascii_of_nat 10) (getAgentsTemplate pt)) ≤ 150)%nat.
Proof. destruct pt; vm_compute; lia. Qed.

Lemma design_docs_made project t :
  foldl (step_rel t ["docs"; "design-docs"]) None (steps project) = Some (Dir t).
Proof. by_steps. Qed.

Lemma design_docs_index_written project t prev :
  foldl (step_rel t ["docs"; "design-docs"; "index.md"]) prev (steps project)
  = Some (File design_docs_index t).
Proof. by_steps. Qed.

Lemma empty_target_lookup w p r :
  empty_target w p → r ≠ [] → files w !! (resolve (cwd w) p ++ r) = None.
Proof.
  intros H Hr. destruct (files w !! _) as [n|] eqn:E; [|done].
  destruct (H _ n E). split; [by apply prefix_app_r|].
  intros E'. rewrite <- (app_nil_r (resolve (cwd w) p)) in E' at 2.
  by apply app_inv_head in E'.
Qed.

Section fresh_scaffold.
Variable project : Project.
Variables w0 w1 : world.
Variable d : Z.

Hypothesis fresh : empty_target w0 (path project).
Hypothesis cwd_normal : Forall normal_seg (cwd w0).
Hypothesis scaffolded : scaffold project w0 = (Return tt, w1).
Hypothesis soon : (d ≤ sixMonths)%Z.

Local Abbreviation base := (resolve (cwd w0) (path project)).
Local Abbreviation w := (later d (chdir (path project) w1)).
Local Abbreviation root := (process_cwd (later d (chdir (path project) w1))).

Lemma cwd_scaffolded : cwd w = base.
Proof.
  destruct (scaffold_lookup _ _ _ scaffolded) as (_ & Hc & _ & _).
  simpl. by rewrite Hc.
Qed.

Lemma base_normal : Forall normal_seg base.
Proof. by apply resolve_normal. Qed.

(** Paths as the validator builds them lead below the project directory. *)
Lemma resolve_root rel :
  rel ≠ "" → resolve (cwd w) (join root rel) = foldl walk base (split slash rel).
Proof.
  intros Hrel. rewrite resolve_join by done.
  rewrite resolve_process_cwd; rewrite cwd_scaffolded; [done|apply base_normal].
Qed.

(** Below the project directory there is what the steps put there. *)
Lemma fresh_lookup r :
  r ≠ [] →
  files w !! (base ++ r) = foldl (step_rel (clock w0) r) None (steps project).
Proof.
  intros Hr. change (files w) with (files w1).
  rewrite (scaffold_lookup_rel _ _ _ _ scaffolded) by done.
  by rewrite (empty_target_lookup _ _ _ fresh).
Qed.

Lemma exists_created rel :
  leads_to_created project rel = true → existsSync w (join root rel) = true.
Proof.
  unfold leads_to_created. rewrite !andb_true_iff, !negb_true_iff.
  intros [[[Htr Hdots] Hne] Hnamed]. apply bool_decide_eq_false in Hne.
  assert (rel ≠ "") as Hrel by (by intros ->).
  assert (Forall (λ seg, seg ≠ "..") (split slash rel)) as Hdots'.
  { apply Forall_forall. intros seg Hseg.
    rewrite forallb_forall in Hdots. apply list_elem_of_In, Hdots in Hseg.
    apply negb_true_iff in Hseg. intros ->. done. }
  rewrite existsSync_eq by (apply join_nonempty || by apply join_no_trailing).
  apply bool_decide_eq_true_2. rewrite resolve_root by done.
  rewrite foldl_walk_below by done.
  rewrite node_at_app, fresh_lookup by done. by apply named_is_Some.
Qed.

Lemma all_created rels :
  forallb (leads_to_created project) rels = true →
  Forall (λ rel, existsSync w (join root rel) = true) rels.
Proof.
  intros H. apply Forall_forall. intros rel Hrel. apply exists_created.
  rewrite forallb_forall in H. by apply H, list_elem_of_In.
Qed.

Lemma read_created rel c :
  plain rel → utf8_decode c = c →
  (∀ prev, foldl (step_rel (clock w0) (split slash rel)) prev (steps project)
           = Some (File c (clock w0))) →
  readFileSync w (join root rel) = inr c.
Proof.
  intros Hrel Hc H. unfold readFileSync.
  rewrite entry_at_eq by (apply join_nonempty || by apply join_plain_no_trailing).
  rewrite resolve_root by (by apply plain_nonempty).
  rewrite foldl_walk_normal by done.
  rewrite node_at_app, fresh_lookup by apply split_nonempty. by rewrite H, Hc.
Qed.

Lemma design_docs_key :
  resolve (cwd w) (join root "docs/design-docs") = base ++ ["docs"; "design-docs"].
Proof. rewrite resolve_root by done. by apply foldl_walk_normal; plain_path. Qed.

Lemma design_docs_listed :
  readdirSync w (join root "docs/design-docs")
  = inr (children (files w) (base ++ ["docs"; "design-docs"])).
Proof.
  unfold readdirSync.
  rewrite entry_at_eq by (apply join_nonempty || apply join_plain_no_trailing; plain_path).
  rewrite design_docs_key.
  rewrite node_at_app, fresh_lookup by done. by rewrite design_docs_made.
Qed.

Lemma design_docs_has_index :
  "index.md" ∈ children (files w) (base ++ ["docs"; "design-docs"]).
Proof.
  apply children_elem. rewrite <- app_assoc. simpl.
  rewrite fresh_lookup by done. by rewrite design_docs_index_written.
Qed.

Lemma design_docs_are_recent :
  Forall (λ file, ∃ mtimeMs,
            statSync_mtimeMs w (join (join root "docs/design-docs") file) = inr mtimeMs ∧
            (clock w - mtimeMs ≤ sixMonths)%Z)
    (children (files w) (base ++ ["docs"; "design-docs"])).
Proof.
  apply Forall_forall. intros file Hfile.
  apply children_elem in Hfile as [n Hn].
  rewrite <- app_assoc in Hn. simpl in Hn. rewrite fresh_lookup in Hn by done.
  destruct (foldl_step_rel_normal _ _ _ _ _ (steps_plain project) Hn) as [?|Hnormal]; [done|].
  destruct (foldl_step_rel_mtime _ _ _ _ _ Hn) as [?|Hmtime]; [done|].
  rewrite !Forall_cons in Hnormal. destruct Hnormal as (_ & _ & Hfile & _).
  pose proof Hfile as (Hne & _ & _ & Hsf).
  exists (mtimeMs_of n). split.
  - unfold statSync_mtimeMs.
    assert (plain file) as Hplain by (unfold plain; rewrite Hsf; by constructor).
    rewrite entry_at_eq by (apply join_nonempty || by apply join_plain_no_trailing).
    rewrite resolve_join by (apply join_nonempty || done).
    rewrite design_docs_key, Hsf. cbn [foldl].
    rewrite walk_normal by done.
    rewrite node_at_app by done. rewrite <- app_assoc. simpl.
    rewrite fresh_lookup by done. by rewrite Hn.
  - destruct (scaffold_lookup _ _ _ scaffolded) as (_ & _ & Ht & _).
    rewrite Hmtime. simpl. rewrite Ht. lia.
Qed.

(** On a fresh scaffold the pass completes and finds nothing. *)
Lemma fresh_scaffold_validates :
  ∃ out, validate w (new_StructureValidator root)
         = (Return true, {| rootDir := root; errors := []; warnings := []; stdout := out |}).
Proof.
  pose proof (required_created project) as Hreq.
  apply all_created in Hreq. rewrite !Forall_cons in Hreq.
  apply (validate_clean w root (getAgentsTemplate (projectType project))
           ltac:(rewrite !Forall_cons; tauto)
           ltac:(apply read_created; [plain_path|apply guide_utf8|apply agents_written])
           ltac:(apply read_created; [plain_path|apply guide_utf8|apply claude_written])
           (guide_is_short _)
           ltac:(rewrite !Forall_cons; tauto)
           ltac:(rewrite !Forall_cons; tauto)
           (all_created _ (links_created project))
           _ design_docs_listed design_docs_has_index design_docs_are_recent
           (new_StructureValidator root) eq_refl).
Qed.
End fresh_scaffold.

(** C1, as the code has it. Run on a project scaffolded into a target
    below which nothing existed (an absent path or an empty directory),
    within six months of the scaffold, the validator completes with exit
    code 0, no error and no warning.  The warning about missing design
    documents is not produced: it is for a [docs/design-docs] without any
    [.md] file, and the scaffold has put [index.md], [core-beliefs.md] and
    [template.md] there. *)
Theorem fresh_scaffold_has_no_findings project w0 w1 d :
  empty_target w0 (path project) →
  Forall normal_seg (cwd w0) →
  scaffold project w0 = (Return tt, w1) →
  (d ≤ sixMonths)%Z →
  let run := validate_structure (later d (chdir (path project) w1)) in
  run.1 = 0%Z ∧ errors run.2 = [] ∧ warnings run.2 = [].
Proof.
  intros Hfresh Hcwd Hscaffold Hd run.
  destruct (fresh_scaffold_validates project w0 w1 d Hfresh Hcwd Hscaffold Hd)
    as [out E].
  unfold run, validate_structure, script.
  erewrite bind_Return by exact E. done.
Qed.

Lemma fresh_scaffold_has_no_findings_witness :
  let run := validate_structure
               (later 1000 (chdir "svc" (scaffold backend_js_plain svc_is_empty).2)) in
  run.1 = 0%Z ∧ errors run.2 = [] ∧ warnings run.2 = [].
Proof.
  apply (fresh_scaffold_has_no_findings backend_js_plain svc_is_empty
           (scaffold backend_js_plain svc_is_empty).2 1000).
  - apply (bool_decide_unpack _). vm_compute. exact I.
  - apply (bool_decide_unpack _). vm_compute. exact I.
  - apply returned. vm_compute. reflexivity.
  - vm_compute. discriminate.
Defined.

(** C1 as stated fails: validating this fresh scaffold at once gives no
    warning at all, so not the one about missing design documents. *)
Lemma fresh_scaffold_gives_no_warning :
  let run := validate_structure
               (chdir "./my-agent-project" (scaffold fullstack_ts_ci home).2) in
  (scaffold fullstack_ts_ci home).1 = Return tt ∧
  errors run.2 = [] ∧
  warnings run.2 ≠ ["No design documents found in docs/design-docs/"].
Proof. vm_compute. split_and!; [reflexivity..|discriminate]. Qed.

(** ** Determinism and idempotence of the scaffolder *)

(** *** The tree does not depend on the world *)




(** *** A second run succeeds *)

Lemma node_at_insert_ne m (k k' : list string) n :
  k ≠ k' → node_at (<[k := n]> m) k' = node_at m k'.
Proof. intros H. destruct k'; [done|]. simpl. by rewrite lookup_insert_ne. Qed.

Lemma removelast_ne (k : list string) : k ≠ [] → removelast k ≠ k.
Proof.
  intros Hk E. destruct k as [|x k] using rev_ind; [done|].
  rewrite removelast_last in E. apply (f_equal length) in E.
  rewrite length_app in E. simpl in E. lia.
Qed.

(** [mkdirp] succeeds exactly when no file is in the way, and then every
    directory on the way is there. *)
Lemma mkdirp_dirs t at_ segs m m' :
  mkdirp t at_ segs m = inr m' →
  ∀ k, at_ `prefix_of` k → k ≠ at_ → k `prefix_of` at_ ++ segs →
       ∃ t', m' !! k = Some (Dir t').
Proof.
  revert at_ m. induction segs as [|seg rest IH]; intros at_ m H k H1 H2 H3.
  - rewrite app_nil_r in H3. destruct H2. by apply (anti_symm prefix).
  - simpl in H. destruct (decide (k = at_ ++ [seg])) as [->|Hk].
    + destruct (m !! (at_ ++ [seg])) as [[c t'|t']|] eqn:Ed; [done| |].
      * rewrite (mkdirp_lookup _ _ _ _ _ H), Ed. by eexists.
      * rewrite (mkdirp_lookup _ _ _ _ _ H), lookup_insert_eq. by eexists.
    + assert ((at_ ++ [seg]) `prefix_of` k ∧ k ≠ at_ ++ [seg] ∧
              k `prefix_of` (at_ ++ [seg]) ++ rest) as (?&?&?)
        by (by apply created_by_mkdirp_step).
      destruct (m !! (at_ ++ [seg])) as [[c t'|t']|]; [done|by eapply IH..].
Qed.


Lemma mkdirSync_dirs p w w' :
  mkdirSync p w = (Return tt, w') →
  ∀ k, k `prefix_of` resolve (cwd w) p → dir_at (files w') k.
Proof.
  unfold mkdirSync. case_bool_decide as Hp; [done|].
  destruct (mkdirp _ _ _ _) as [e|m] eqn:E; [done|]. intros [= <-] k Hk.
  destruct k as [|x k]; [by exists 0%Z|].
  destruct (mkdirp_dirs _ _ _ _ _ E (x :: k)) as [t' Ht]; [apply prefix_nil|done..|].
  by exists t'.
Qed.



Lemma writeFileSync_settled p data w w' :
  writeFileSync p data w = (Return tt, w') →
  dir_at (files w') (removelast (resolve (cwd w) p)) ∧
  file_at (files w') (resolve (cwd w) p) ∧
  (∀ k, dir_at (files w) k → dir_at (files w') k) ∧
  (∀ k, file_at (files w) k → file_at (files w') k).
Proof.
  unfold writeFileSync. case_bool_decide as Hp; [done|].
  set (key := resolve (cwd w) p).
  destruct (node_at _ (removelast key)) as [[|tp]|] eqn:Ep; [done| |done].
  intros H.
  assert (key ≠ [] ∧ (∀ t, node_at (files w) key ≠ Some (Dir t)) ∧
          w' = set_files (<[key := File data (clock w)]> (files w)) w)
    as (Hkey & Hnd & ->).
  { destruct (node_at (files w) key) as [[c t|t]|] eqn:Ek; [|done|];
      (destruct (endsWith p "/"); [done|]);
      injection H as <-; (split_and!; [|done|done]);
      intros E; rewrite E in Ek; done. }
  simpl. split_and!.
  - exists tp. rewrite node_at_insert_ne; [done|].
    intros E. by apply (removelast_ne key).
  - exists data, (clock w). destruct key; [done|]. simpl. by rewrite lookup_insert_eq.
  - intros k [t Hk]. exists t. rewrite node_at_insert_ne; [done|].
    intros <-. by apply (Hnd t).
  - intros k (c & t & Hk). destruct (decide (key = k)) as [<-|Hne].
    + exists data, (clock w). destruct key; [done|]. simpl. by rewrite lookup_insert_eq.
    + exists c, t. by rewrite node_at_insert_ne.
Qed.

Lemma mkdirSync_keeps p w w' :
  mkdirSync p w = (Return tt, w') →
  (∀ k, dir_at (files w) k → dir_at (files w') k) ∧
  (∀ k, file_at (files w) k → file_at (files w') k).
Proof.
  intros H. apply mkdirSync_Return in H as (_ & _ & _ & _ & H).
  split; intros k Hk.
  - destruct Hk as [t Hk]. exists t. destruct k as [|x k]; [done|].
    simpl in *. by rewrite H, Hk.
  - destruct Hk as (c & t & Hk). exists c, t. destruct k as [|x k]; [done|].
    simpl in *. by rewrite H, Hk.
Qed.

(** A step that succeeds keeps the kind of every node. *)
Lemma perform_keeps P s w w' :
  perform P s w = (Return tt, w') →
  (∀ k, dir_at (files w) k → dir_at (files w') k) ∧
  (∀ k, file_at (files w) k → file_at (files w') k).
Proof.
  destruct s as [rel|rel c|e]; simpl; intros H.
  - by apply mkdirSync_keeps in H.
  - by apply writeFileSync_settled in H as (_ & _ & ? & ?).
  - apply console_log_Return in H as (_ & _ & ->). done.
Qed.

Lemma settled_keeps (base : list string) (m m' : gmap (list string) node) s :
  (∀ k, dir_at m k → dir_at m' k) → (∀ k, file_at m k → file_at m' k) →
  settled base m s → settled base m' s.
Proof.
  intros Hd Hf. destruct s as [rel|rel c|e]; simpl; [|intros [? ?]|]; eauto.
Qed.

(** After a step that succeeds, the tree is settled for it. *)
Lemma perform_settles P s w w' :
  P ≠ "" → step_plain s → perform P s w = (Return tt, w') →
  settled (resolve (cwd w) P) (files w') s.
Proof.
  intros HP Hs H. destruct s as [rel|rel c|e]; simpl in *; [| |done].
  - intros k Hk. eapply mkdirSync_dirs; [exact H|]. by rewrite resolve_join_plain.
  - apply writeFileSync_settled in H as (Hd & Hf & _).
    by rewrite resolve_join_plain in Hd, Hf.
Qed.

Lemma for_of_perform_keeps P ss w w' :
  for_of ss (perform P) w = (Return tt, w') →
  (∀ k, dir_at (files w) k → dir_at (files w') k) ∧
  (∀ k, file_at (files w) k → file_at (files w') k).
Proof.
  revert w. induction ss as [|s ss IH]; intros w H.
  - by injection H as <-.
  - apply for_of_Return_inv in H as (w1 & H1 & H2).
    apply perform_keeps in H1 as [Hd1 Hf1]. apply IH in H2 as [Hd2 Hf2].
    split; eauto.
Qed.

(** After steps that succeed, the tree is settled for all of them. *)
Lemma for_of_perform_settles P ss w w' :
  P ≠ "" → Forall step_plain ss → for_of ss (perform P) w = (Return tt, w') →
  Forall (settled (resolve (cwd w) P) (files w')) ss.
Proof.
  intros HP. revert w. induction ss as [|s ss IH]; intros w Hss H; [done|].
  inversion Hss as [|? ? Hs Hss']; subst.
  apply for_of_Return_inv in H as (w1 & H1 & H2).
  pose proof (perform_settles _ _ _ _ HP Hs H1) as Hsettled.
  pose proof (perform_lookup _ _ _ _ HP Hs H1) as (Hc & _ & _).
  pose proof (for_of_perform_keeps _ _ _ _ H2) as [Hd Hf].
  constructor.
  - by eapply settled_keeps.
  - rewrite <- Hc. by apply IH.
Qed.




(** *** A second run writes the same bytes *)





(** * Further properties of the scaffolder *)

(** ** How a run can end *)

Lemma for_of_app {S A} (xs ys : list A) (body : A → eff S unit) s :
  for_of (xs ++ ys) body s = (for_of xs body ;; for_of ys body) s.
Proof.
  revert s. induction xs as [|x xs IH]; intros s; simpl; [done|].
  rewrite bind_assoc. apply bind_ext. intros [] s'. apply IH.
Qed.

(** A file-system call returns, or throws and leaves the world as it is. *)
Lemma mkdirSync_cases p w :
  (∃ w', mkdirSync p w = (Return tt, w')) ∨ (∃ e, mkdirSync p w = (Throw e, w)).
Proof.
  unfold mkdirSync. case_bool_decide; [right; by eexists|].
  destruct (mkdirp _ _ _ _); [right|left]; by eexists.
Qed.

Lemma writeFileSync_cases p data w :
  (∃ w', writeFileSync p data w = (Return tt, w')) ∨
  (∃ e, writeFileSync p data w = (Throw e, w)).
Proof.
  unfold writeFileSync. case_bool_decide; [right; by eexists|].
  destruct (node_at _ (removelast _)) as [[]|]; [right; by eexists| |right; by eexists].
  destruct (node_at _ (resolve _ _)) as [[]|]; [|right; by eexists|];
    (destruct (endsWith p "/"); [right|left]; by eexists).
Qed.

Lemma perform_cases P s w :
  (∃ w', perform P s w = (Return tt, w')) ∨ (∃ e, perform P s w = (Throw e, w)).
Proof.
  destruct s as [rel|rel c|e]; simpl.
  - apply mkdirSync_cases.
  - apply writeFileSync_cases.
  - left. by eexists.
Qed.

(** The steps are performed up to the first that throws. *)
Lemma for_of_perform_cases P ss w o w' :
  for_of ss (perform P) w = (o, w') →
  ∃ pre rest, ss = pre ++ rest ∧ for_of pre (perform P) w = (Return tt, w') ∧
    (o = Return tt ∧ rest = [] ∨
     ∃ e s rest', o = Throw e ∧ rest = s :: rest' ∧ perform P s w' = (Throw e, w')).
Proof.
  revert w. induction ss as [|s ss IH]; intros w H.
  - injection H as <- <-. exists [], []. split_and!; [done..|by left].
  - simpl in H. destruct (perform_cases P s w) as [[w1 H1]|[e H1]].
    + erewrite bind_Return in H by exact H1.
      apply IH in H as (pre & rest & -> & Hd & Hr).
      exists (s :: pre), rest. split_and!; [done| |done].
      simpl. by erewrite bind_Return by exact H1.
    + unfold mbind, eff_bind in H. rewrite H1 in H. injection H as <- <-.
      exists [], (s :: ss). split_and!; [done..|]. right. by exists e, s, ss.
Qed.

Lemma console_log_eq e w : console_log e w = (Return tt, (console_log e w).2).
Proof. reflexivity. Qed.

Lemma ensure_root_cases P w :
  (∃ w', ensure_root P w = (Return tt, w')) ∨ (∃ e, ensure_root P w = (Throw e, w)).
Proof.
  unfold ensure_root. erewrite bind_Return by reflexivity.
  destruct (existsSync w P); simpl; [left; by eexists|apply mkdirSync_cases].
Qed.

(** A run of [scaffold] ends in one of two ways: the project directory
    cannot be made, and nothing is done; or some of the steps are performed,
    all of them unless one throws. *)
Lemma scaffold_cases project w o w' :
  scaffold project w = (o, w') →
  (∃ e, o = Throw e ∧ w' = (console_log (SpinnerStart "Creating project structure") w).2) ∨
  (∃ w2 pre rest,
     ensure_root (path project)
       (console_log (SpinnerStart "Creating project structure") w).2 = (Return tt, w2) ∧
     steps project = pre ++ rest ∧
     for_of pre (perform (path project)) w2 = (Return tt, w') ∧
     (o = Return tt ∧ rest = [] ∨
      ∃ e s rest', o = Throw e ∧ rest = s :: rest' ∧
                   perform (path project) s w' = (Throw e, w'))).
Proof.
  rewrite scaffold_steps. intros H.
  erewrite bind_Return in H by apply console_log_eq.
  destruct (ensure_root_cases (path project)
              (console_log (SpinnerStart "Creating project structure") w).2)
    as [[w2 H2]|[e H2]].
  - erewrite bind_Return in H by exact H2.
    apply for_of_perform_cases in H as (pre & rest & Hs & Hd & Hr).
    right. by exists w2, pre, rest.
  - unfold mbind, eff_bind in H. rewrite H2 in H. injection H as <- <-.
    left. by exists e.
Qed.

(** ** When the scaffolder succeeds *)

Lemma mkdirp_clear t at_ segs m :
  (∀ k, at_ `prefix_of` k → k ≠ at_ → k `prefix_of` at_ ++ segs →
        is_file (m !! k) = false) →
  ∃ m', mkdirp t at_ segs m = inr m'.
Proof.
  revert at_ m. induction segs as [|seg rest IH]; intros at_ m H; simpl; [by eexists|].
  assert (at_ `prefix_of` at_ ++ [seg] ∧ at_ ++ [seg] ≠ at_ ∧
          (at_ ++ [seg]) `prefix_of` at_ ++ seg :: rest) as (H1 & H2 & H3).
  { split_and!.
    - by apply prefix_app_r.
    - intros E. apply (f_equal length) in E. rewrite length_app in E. simpl in E. lia.
    - exists rest. by rewrite <- app_assoc. }
  pose proof (H _ H1 H2 H3) as Hd.
  destruct (m !! (at_ ++ [seg])) as [[c t'|t']|] eqn:Ed; [done| |].
  - apply IH. intros k Hk1 Hk2 Hk3.
    destruct (proj1 (created_by_mkdirp_step at_ rest k seg Hk2) (conj Hk1 (conj Hk2 Hk3)))
      as (?&?&?).
    by apply H.
  - apply IH. intros k Hk1 Hk2 Hk3. rewrite lookup_insert_ne by done.
    destruct (proj1 (created_by_mkdirp_step at_ rest k seg Hk2) (conj Hk1 (conj Hk2 Hk3)))
      as (?&?&?).
    by apply H.
Qed.

Lemma mkdirSync_clear p w :
  p ≠ "" →
  (∀ k, k `prefix_of` resolve (cwd w) p → is_file (node_at (files w) k) = false) →
  ∃ w', mkdirSync p w = (Return tt, w').
Proof.
  intros Hp H. unfold mkdirSync. rewrite bool_decide_eq_false_2 by done.
  destruct (mkdirp_clear (clock w) [] (resolve (cwd w) p) (files w)) as [m' ->];
    [|by eexists].
  intros k _ Hk Hpre. specialize (H k Hpre). by destruct k.
Qed.

Lemma writeFileSync_clear p data w :
  p ≠ "" → endsWith p "/" = false →
  dir_at (files w) (removelast (resolve (cwd w) p)) →
  is_dir (node_at (files w) (resolve (cwd w) p)) = false →
  writeFileSync p data w
  = (Return tt, set_files (<[resolve (cwd w) p := File data (clock w)]> (files w)) w).
Proof.
  intros Hp Htr [t Hd] Hk. unfold writeFileSync.
  rewrite bool_decide_eq_false_2 by done. rewrite Hd, Htr.
  by destruct (node_at (files w) (resolve (cwd w) p)) as [[]|].
Qed.

Lemma clear_for_mkdir m base rel :
  clear_for m base (Mkdir rel) = true ↔
  ∀ k, k `prefix_of` base ++ split slash rel → is_file (node_at m k) = false.
Proof.
  unfold clear_for. rewrite forallb_forall. split.
  - intros H k [x Hk]. apply negb_true_iff.
    rewrite <- (take_app_length k x), <- Hk. apply H, in_seq.
    rewrite Hk, length_app. lia.
  - intros H n _. apply negb_true_iff, H.
    exists (drop n (base ++ split slash rel)). by rewrite take_drop.
Qed.

Lemma prefix_app_self {A} (l r : list A) : l ++ r `prefix_of` l → r = [].
Proof.
  intros H. apply prefix_length in H. rewrite length_app in H.
  destruct r; [done|]. simpl in H. lia.
Qed.

Lemma kinds_exclusive m k : dir_at m k → file_at m k → False.
Proof. intros [t H] (c & t' & H'). congruence. Qed.

Lemma is_file_at m k : is_file (node_at m k) = true → file_at m k.
Proof. destruct (node_at m k) as [[c t|t]|] eqn:E; [|done..]. intros _. by exists c, t. Qed.

Lemma is_dir_at m k : is_dir (node_at m k) = true → dir_at m k.
Proof. destruct (node_at m k) as [[c t|t]|] eqn:E; [done| |done]. intros _. by exists t. Qed.

Lemma dir_at_is_file m k : dir_at m k → is_file (node_at m k) = false.
Proof. intros [t ->]. done. Qed.

(** The directories are made first. *)
Lemma for_of_mkdirs_clear P dirs w :
  P ≠ "" → Forall plain dirs →
  (∀ dir k, dir ∈ dirs → k `prefix_of` resolve (cwd w) P ++ split slash dir →
            is_file (node_at (files w) k) = false) →
  ∃ w', for_of (Mkdir <$> dirs) (perform P) w = (Return tt, w').
Proof.
  intros HP. revert w. induction dirs as [|dir dirs IH]; intros w Hplain H; [by eexists|].
  inversion Hplain as [|? ? Hdir Hdirs]; subst.
  destruct (mkdirSync_clear (join P dir) w) as [w1 H1].
  - apply join_nonempty.
  - intros k Hk. rewrite resolve_join_plain in Hk by done. eapply H; [left|done].
  - pose proof (mkdirSync_Return _ _ _ H1) as (_ & Hc & _ & _ & Hf).
    destruct (IH w1) as [w' H']; [done| |].
    + intros dir' k Hin Hk. rewrite Hc in Hk.
      pose proof (H dir' k (list_elem_of_further _ _ _ Hin) Hk) as Hfile.
      destruct k as [|x k]; [done|]. simpl in *. rewrite Hf.
      destruct (files w !! (x :: k)) as [n|]; [done|]. by destruct (bool_decide _).
    + exists w'. simpl. by erewrite bind_Return by exact H1.
Qed.

(** Then the files are written, each into a directory that is there. *)
Lemma for_of_writes_clear P dirs rest w :
  P ≠ "" → dirs ≠ [] →
  forallb (writes_into dirs) rest = true →
  (∀ dir k, dir ∈ dirs → k `prefix_of` resolve (cwd w) P ++ split slash dir →
            dir_at (files w) k) →
  (∀ rel c, WriteFile rel c ∈ rest →
            is_dir (node_at (files w) (resolve (cwd w) P ++ split slash rel)) = false) →
  ∃ w', for_of rest (perform P) w = (Return tt, w').
Proof.
  intros HP Hdirs. revert w. induction rest as [|s rest IH]; intros w Hinto Hmade Hclear;
    [by eexists|].
  simpl in Hinto. apply andb_true_iff in Hinto as [Hs Hinto].
  destruct s as [rel|rel c|e]; [done| |].
  - simpl in Hs. rewrite !andb_true_iff in Hs. destruct Hs as [[Hplain Hparent] _].
    apply bool_decide_eq_true in Hplain.
    assert (dir_at (files w) (removelast (resolve (cwd w) (join P rel)))) as Hd.
    { rewrite resolve_join_plain by done.
      rewrite removelast_app by apply split_nonempty.
      apply orb_true_iff in Hparent as [Hroot|Hsub].
      - apply bool_decide_eq_true in Hroot. rewrite Hroot, app_nil_r.
        destruct dirs as [|dir dirs']; [done|].
        apply (Hmade dir); [left|]. by apply prefix_app_r.
      - apply existsb_exists in Hsub as (dir & Hin & Hpre).
        apply bool_decide_eq_true in Hpre.
        apply (Hmade dir); [by apply list_elem_of_In|]. by apply prefix_app. }
    assert (is_dir (node_at (files w) (resolve (cwd w) (join P rel))) = false) as Hk.
    { rewrite resolve_join_plain by done. apply (Hclear rel c). left. }
    pose proof (writeFileSync_clear (join P rel) c w (join_nonempty _ _)
                  (join_plain_no_trailing _ _ Hplain) Hd Hk) as H1.
    rewrite resolve_join_plain in H1 by done.
    rewrite resolve_join_plain in Hk by done.
    set (key := resolve (cwd w) P ++ split slash rel) in *.
    destruct (IH (set_files (<[key := File c (clock w)]> (files w)) w)) as [w' H'];
      [done| |  |].
    + intros dir k Hin Hpre. simpl in *. destruct (Hmade dir k Hin Hpre) as [t Ht].
      exists t. rewrite node_at_insert_ne; [done|]. intros <-. by rewrite Ht in Hk.
    + intros rel' c' Hin. simpl.
      destruct (decide (key = resolve (cwd w) P ++ split slash rel')) as [<-|Hne].
      * destruct key; [done|]. simpl. by rewrite lookup_insert_eq.
      * rewrite node_at_insert_ne by done. apply (Hclear rel' c'). by right.
    + exists w'. simpl. by erewrite bind_Return by exact H1.
  - destruct (IH (console_log e w).2) as [w' H']; [done| | |].
    + intros dir k Hin Hpre. by apply (Hmade dir).
    + intros rel' c' Hin. apply (Hclear rel' c'). by right.
    + exists w'. simpl. by erewrite bind_Return by apply console_log_eq.
Qed.

(** The layout of the steps: the directories, then writes into them. *)
Lemma steps_layout project :
  ∃ rest, steps project = (Mkdir <$> directories project) ++ rest ∧
          forallb (writes_into (directories project)) rest = true.
Proof.
  destruct project as [P pt vl ob ci]. eexists. split; [unfold steps; reflexivity|].
  destruct pt, vl, ci; vm_compute; reflexivity.
Qed.

Lemma directories_plain project : Forall plain (directories project).
Proof. destruct project as [P pt vl ob []]; apply (bool_decide_unpack _); vm_compute; exact I. Qed.

Lemma design_docs_among_directories project : "docs/design-docs" ∈ directories project.
Proof. unfold directories. simpl. left. Qed.

Lemma foldl_step_at_mkdirs t base k x dirs :
  (∀ dir, dir ∈ dirs → ¬ k `prefix_of` base ++ split slash dir) →
  foldl (step_at t base k) x (Mkdir <$> dirs) = x.
Proof.
  revert x. induction dirs as [|dir dirs IH]; intros x H; simpl; [done|].
  rewrite IH by (intros dir' Hin; apply H; by right).
  destruct x; [done|]. rewrite bool_decide_eq_false_2; [done|].
  intros [_ Hpre]. by apply (H dir); [left|].
Qed.

Lemma ensure_root_keeps P w w' :
  ensure_root P w = (Return tt, w') →
  (∀ k, dir_at (files w) k → dir_at (files w') k) ∧
  (∀ k, file_at (files w) k → file_at (files w') k).
Proof.
  unfold ensure_root. erewrite bind_Return by reflexivity.
  destruct (existsSync w P); simpl.
  - by intros [= <-].
  - apply mkdirSync_keeps.
Qed.

Lemma scaffold_returns_if_clear project w :
  path project ≠ "" → nothing_in_the_way w project = true →
  ∃ w', scaffold project w = (Return tt, w').
Proof.
  intros HP Hclear. unfold nothing_in_the_way in Hclear.
  rewrite forallb_forall in Hclear.
  set (base := resolve (cwd w) (path project)) in *.
  set (w1 := (console_log (SpinnerStart "Creating project structure") w).2).
  destruct (steps_layout project) as (rest & Hsteps & Hinto).
  assert (∀ dir k, dir ∈ directories project → k `prefix_of` base ++ split slash dir →
                   is_file (node_at (files w) k) = false) as Hdirs.
  { intros dir k Hin. apply clear_for_mkdir, Hclear, list_elem_of_In.
    rewrite Hsteps. apply elem_of_app. left. by apply list_elem_of_fmap_2. }
  assert (∀ rel c, WriteFile rel c ∈ rest →
                   is_dir (node_at (files w) (base ++ split slash rel)) = false) as Hwrites.
  { intros rel c Hin. apply negb_true_iff.
    apply (Hclear (WriteFile rel c)), list_elem_of_In.
    rewrite Hsteps. apply elem_of_app. by right. }
  (* the project directory *)
  assert (∃ w2, ensure_root (path project) w1 = (Return tt, w2)) as [w2 H2].
  { unfold ensure_root. erewrite bind_Return by reflexivity.
    destruct (existsSync w1 (path project)); simpl; [by eexists|].
    apply mkdirSync_clear; [done|]. intros k Hk.
    apply (Hdirs "docs/design-docs"); [apply design_docs_among_directories|].
    by apply prefix_app_r. }
  pose proof (ensure_root_lookup _ _ _ H2) as (_ & Hc2 & _ & Hf2).
  change (cwd w1) with (cwd w) in *. change (files w1) with (files w) in *.
  fold base in Hf2.
  (* the directories *)
  destruct (for_of_mkdirs_clear (path project) (directories project) w2 HP
              (directories_plain project)) as [w3 H3].
  { intros dir k Hin Hk. rewrite Hc2 in Hk.
    pose proof (Hdirs dir k Hin Hk) as Hfile.
    destruct k as [|x k]; [done|]. simpl in *.
    destruct (Hf2 (x :: k)) as [->|(_ & -> & _)]; done. }
  assert (Forall step_plain (Mkdir <$> directories project)) as Hplain.
  { pose proof (steps_plain project) as Hp. rewrite Hsteps in Hp.
    by apply Forall_app in Hp as [? _]. }
  pose proof (for_of_perform_lookup _ _ _ _ HP Hplain H3) as (Hc3 & _ & Hf3).
  pose proof (for_of_perform_settles _ _ _ _ HP Hplain H3) as Hsettled.
  rewrite Hc2 in Hsettled, Hf3. fold base in Hsettled, Hf3.
  (* the files *)
  destruct (for_of_writes_clear (path project) (directories project) rest w3 HP) as [w' H'].
  - intros E. pose proof (design_docs_among_directories project) as Hin.
    rewrite E in Hin. by apply elem_of_nil in Hin.
  - done.
  - intros dir k Hin Hk. rewrite Hc3, Hc2 in Hk.
    rewrite Forall_forall in Hsettled.
    by apply (Hsettled (Mkdir dir)); [apply list_elem_of_fmap_2|].
  - intros rel c Hin. rewrite Hc3, Hc2. fold base.
    rewrite node_at_app by apply split_nonempty. rewrite Hf3.
    rewrite foldl_step_at_mkdirs.
    + destruct (Hf2 (base ++ split slash rel)) as [->|(_ & _ & _ & Hpre)].
      * rewrite <- node_at_app by apply split_nonempty. by apply (Hwrites rel c).
      * apply prefix_app_self in Hpre. by destruct (split_nonempty slash rel).
    + intros dir Hdir Hpre. apply prefix_app_inv in Hpre.
      rewrite forallb_forall in Hinto.
      pose proof (Hinto (WriteFile rel c) (proj1 (list_elem_of_In _ _) Hin)) as Hs.
      unfold writes_into in Hs. rewrite !andb_true_iff in Hs. destruct Hs as [_ Hs].
      rewrite forallb_forall in Hs.
      pose proof (Hs dir (proj1 (list_elem_of_In _ _) Hdir)) as Hn.
      apply negb_true_iff, bool_decide_eq_false in Hn. done.
  - exists w'. rewrite scaffold_steps.
    erewrite bind_Return by apply console_log_eq. fold w1.
    erewrite bind_Return by exact H2.
    rewrite Hsteps, for_of_app. by erewrite bind_Return by exact H3.
Qed.

Lemma scaffold_returns_only_if_clear project w w' :
  scaffold project w = (Return tt, w') → nothing_in_the_way w project = true.
Proof.
  intros H. pose proof (scaffold_lookup _ _ _ H) as (HP & _).
  rewrite scaffold_steps in H.
  apply bind_Return_inv in H as ([] & w1 & H1 & H).
  apply bind_Return_inv in H as ([] & w2 & H2 & H).
  apply console_log_Return in H1 as (Hc1 & _ & Hf1).
  pose proof (ensure_root_keeps _ _ _ H2) as [Hd2 Hk2].
  pose proof (ensure_root_lookup _ _ _ H2) as (_ & Hc2 & _ & _).
  pose proof (for_of_perform_keeps _ _ _ _ H) as [Hd3 Hk3].
  pose proof (for_of_perform_settles _ _ _ _ HP (steps_plain project) H) as Hsettled.
  rewrite Hc2, Hc1 in Hsettled. rewrite Hf1 in Hd2, Hk2.
  rewrite Forall_forall in Hsettled.
  unfold nothing_in_the_way. apply forallb_forall. intros s Hin.
  apply list_elem_of_In in Hin. specialize (Hsettled s Hin).
  destruct s as [rel|rel c|e]; [| |done].
  - apply clear_for_mkdir. intros k Hk.
    destruct (is_file (node_at (files w) k)) eqn:E; [|done].
    apply is_file_at in E. destruct (kinds_exclusive (files w') k); eauto.
  - simpl. apply negb_true_iff.
    destruct (is_dir (node_at (files w) _)) eqn:E; [|done].
    apply is_dir_at in E. destruct Hsettled as [_ Hfile].
    destruct (kinds_exclusive (files w') (resolve (cwd w) (path project) ++ split slash rel));
      eauto.
Qed.

(** X1. Given a project path without [..] that ends in a name, the
    scaffolder succeeds exactly when nothing is in its way: no regular file
    at the project directory, above it, or where one of its directories
    goes, and no directory where one of its files goes.  Whatever else the
    tree holds plays no part. *)
Theorem scaffold_succeeds_iff_nothing_in_the_way project w :
  straight (path project) →
  (∃ w', scaffold project w = (Return tt, w')) ↔ nothing_in_the_way w project = true.
Proof.
  intros HP%straight_nonempty. split.
  - intros [w' H]. by eapply scaffold_returns_only_if_clear.
  - by apply scaffold_returns_if_clear.
Qed.

Lemma scaffold_succeeds_iff_nothing_in_the_way_witness :
  (∃ w', scaffold backend_js_plain svc_in_use = (Return tt, w'))
  ↔ nothing_in_the_way svc_in_use backend_js_plain = true.
Proof.
  apply (scaffold_succeeds_iff_nothing_in_the_way backend_js_plain svc_in_use).
  apply (bool_decide_unpack _). vm_compute. exact I.
Defined.

Lemma prefix_app_cases' {A} (k a b : list A) :
  k `prefix_of` a ++ b → k `prefix_of` a ∨ ∃ r, k = a ++ r ∧ r `prefix_of` b.
Proof.
  revert k. induction a as [|x a IH]; intros k H; simpl in *.
  - right. by exists k.
  - destruct k as [|y k]; [left; apply prefix_nil|].
    pose proof (prefix_cons_inv_1 _ _ _ _ H) as ->.
    apply prefix_cons_inv_2, IH in H as [H|(r & -> & H)].
    + left. by apply prefix_cons.
    + right. by exists r.
Qed.

(** X2. Into a target below which nothing exists, and which no regular
    file is at or on the way to, the scaffolder always succeeds, the
    project path being without [..] and ending in a name. *)
Theorem scaffold_succeeds_on_empty_target project w :
  straight (path project) →
  empty_target w (path project) →
  leads_through_directories w (path project) →
  ∃ w', scaffold project w = (Return tt, w').
Proof.
  intros HP%straight_nonempty Hempty Hdirs. apply scaffold_returns_if_clear; [done|].
  unfold nothing_in_the_way. apply forallb_forall. intros s _.
  destruct s as [rel|rel c|e]; [| |done].
  - apply clear_for_mkdir. intros k Hk.
    destruct k as [|x k]; [done|]. simpl.
    destruct (files w !! (x :: k)) as [n|] eqn:E; [|done].
    apply prefix_app_cases' in Hk as [Hk|(r & Hr & _)].
    + pose proof (Hdirs _ _ E Hk) as Hd. by destruct n.
    + destruct r as [|y r].
      * rewrite app_nil_r in Hr. pose proof (Hdirs _ _ E) as Hd.
        rewrite Hr in Hd. specialize (Hd (reflexivity _)). by destruct n.
      * rewrite Hr, (empty_target_lookup _ _ _ Hempty) in E; done.
  - simpl. rewrite node_at_app by apply split_nonempty.
    rewrite (empty_target_lookup _ _ _ Hempty); [done|apply split_nonempty].
Qed.

Lemma scaffold_succeeds_on_empty_target_witness :
  ∃ w', scaffold backend_js_plain svc_is_empty = (Return tt, w').
Proof.
  apply (scaffold_succeeds_on_empty_target backend_js_plain svc_is_empty).
  - apply (bool_decide_unpack _). vm_compute. exact I.
  - apply (bool_decide_unpack _). vm_compute. exact I.
  - apply (bool_decide_unpack _). vm_compute. exact I.
Defined.

(** ** When the target is a regular file *)

Lemma mkdirp_blocked t at_ pre x rest m c t' :
  m !! (at_ ++ pre ++ [x]) = Some (File c t') → rest ≠ [] →
  mkdirp t at_ (pre ++ x :: rest) m = inl "ENOTDIR".
Proof.
  revert at_ m. induction pre as [|y pre IH]; intros at_ m H Hrest; simpl in *.
  - rewrite H. by destruct rest.
  - destruct (m !! (at_ ++ [y])) as [[c0 t0|t0]|] eqn:E.
    + by destruct pre.
    + apply IH; [|done]. by rewrite <- app_assoc.
    + apply IH; [|done]. rewrite <- app_assoc. simpl.
      rewrite lookup_insert_ne; [done|].
      intros E'. apply (f_equal length) in E'.
      rewrite !length_app in E'. simpl in E'. rewrite length_app in E'. simpl in E'. lia.
Qed.

(** X3. When the project path, without [..] and ending in a name, names a
    regular file, the run fails on the first directory it makes, with
    ENOTDIR, after the opening message of the spinner and without touching
    the tree. *)
Theorem scaffold_fails_when_target_is_a_file project w c t :
  straight (path project) →
  node_at (files w) (resolve (cwd w) (path project)) = Some (File c t) →
  (scaffold project w).1 = Throw "ENOTDIR" ∧
  files (scaffold project w).2 = files w ∧
  console (scaffold project w).2 = console w ++ [SpinnerStart "Creating project structure"].
Proof.
  intros Hstraight Hfile. pose proof (straight_nonempty _ Hstraight) as HP.
  assert (scaffold project w
          = (Throw "ENOTDIR", (console_log (SpinnerStart "Creating project structure") w).2))
    as ->; [|done].
  rewrite scaffold_steps. erewrite bind_Return by apply console_log_eq.
  set (w1 := (console_log (SpinnerStart "Creating project structure") w).2).
  assert (ensure_root (path project) w1 = (Return tt, w1)) as H2.
  { unfold ensure_root. erewrite bind_Return by reflexivity.
    assert (existsSync w1 (path project) = true) as ->; [|done].
    rewrite existsSync_eq by (done || by apply straight_no_trailing).
    apply bool_decide_eq_true_2. change (files w1) with (files w).
    change (cwd w1) with (cwd w). by rewrite Hfile. }
  erewrite bind_Return by exact H2.
  destruct (steps_head project) as [rest ->]. simpl.
  assert (mkdirSync (join (path project) "docs/design-docs") w1 = (Throw "ENOTDIR", w1))
    as H3; [|unfold mbind, eff_bind; by rewrite H3].
  unfold mkdirSync. rewrite bool_decide_eq_false_2 by apply join_nonempty.
  rewrite resolve_join_plain by (done || plain_path).
  change (files w1) with (files w). change (cwd w1) with (cwd w).
  destruct (resolve (cwd w) (path project)) as [|x pre _] using rev_ind; [done|].
  rewrite <- app_assoc. change ([x] ++ ?l) with (x :: l).
  rewrite (mkdirp_blocked _ [] pre x _ _ c t); [by destruct (endsWith _ _)| |done].
  simpl. by destruct pre.
Qed.

Lemma scaffold_fails_when_target_is_a_file_witness :
  (scaffold backend_js_plain svc_is_a_file).1 = Throw "ENOTDIR" ∧
  files (scaffold backend_js_plain svc_is_a_file).2 = files svc_is_a_file ∧
  console (scaffold backend_js_plain svc_is_a_file).2
  = console svc_is_a_file ++ [SpinnerStart "Creating project structure"].
Proof.
  apply (scaffold_fails_when_target_is_a_file backend_js_plain svc_is_a_file "#!/bin/sh" 0).
  - apply (bool_decide_unpack _). vm_compute. exact I.
  - vm_compute. reflexivity.
Defined.

(** ** What a run leaves untouched *)

Lemma foldl_step_at_kept t base k n ss :
  k ∉ ((base ++.) <$> written ss) →
  foldl (step_at t base k) (Some n) ss = Some n.
Proof.
  induction ss as [|s ss IH]; intros H; simpl; [done|].
  destruct s as [rel|rel c|e]; simpl in *.
  - by apply IH.
  - rewrite not_elem_of_cons in H. destruct H as [Hk H].
    rewrite bool_decide_eq_false_2 by done. by apply IH.
  - by apply IH.
Qed.

Lemma written_app ss1 ss2 : written (ss1 ++ ss2) = written ss1 ++ written ss2.
Proof. unfold written. apply omap_app. Qed.

(** X4. An entry that exists before a run and is not one of the files the
    scaffolder writes is there after the run, whether the run succeeds or
    fails on the way: a regular file exactly as it was, bytes and
    modification time, a directory as a directory.  The scaffolder never
    deletes, and changes no file but the ones of its own list. *)
Theorem scaffold_keeps_what_it_does_not_write project w k n :
  files w !! k = Some n →
  k ∉ ((resolve (cwd w) (path project) ++.) <$> written (steps project)) →
  ∃ n', files (scaffold project w).2 !! k = Some n' ∧ kept n n'.
Proof.
  intros Hk Hnot.
  assert (files (scaffold project w).2 !! k = Some n) as ->;
    [|exists n; split; [done|by destruct n]].
  destruct (scaffold project w) as [o w'] eqn:E. simpl.
  apply scaffold_cases in E as [(e & -> & ->)|(w2 & pre & rest & H2 & Hs & Hd & _)];
    [done|].
  pose proof (ensure_root_lookup _ _ _ H2) as (HP & Hc2 & _ & Hf2).
  assert (Forall step_plain pre) as Hplain.
  { pose proof (steps_plain project) as Hp. rewrite Hs in Hp.
    by apply Forall_app in Hp as [? _]. }
  pose proof (for_of_perform_lookup _ _ _ _ HP Hplain Hd) as (_ & _ & Hf).
  rewrite Hf, Hc2. simpl.
  destruct (Hf2 k) as [->|(Hnone & _)]; [|simpl in Hnone; congruence].
  simpl. rewrite Hk. apply foldl_step_at_kept.
  rewrite Hs, written_app, fmap_app in Hnot. rewrite not_elem_of_app in Hnot. tauto.
Qed.

Lemma scaffold_keeps_what_it_does_not_write_witness :
  ∃ n', files (scaffold backend_js_plain svc_in_use).2 !! ["home"; "u"; "svc"; "notes.txt"]
        = Some n' ∧
        kept (File "remember the milk" 7) n'.
Proof.
  apply (scaffold_keeps_what_it_does_not_write backend_js_plain svc_in_use).
  - reflexivity.
  - apply (bool_decide_unpack _). vm_compute. exact I.
Defined.

Lemma foldl_step_at_created t base k ss :
  is_Some (foldl (step_at t base k) None ss) →
  ∃ s, s ∈ ss ∧
    match s with
    | Mkdir rel => k `prefix_of` base ++ split slash rel
    | WriteFile rel _ => k = base ++ split slash rel
    | Say _ => False
    end.
Proof.
  induction ss as [|s ss IH]; simpl; intros H; [by destruct H|].
  destruct (step_at t base k None s) as [n|] eqn:E.
  - exists s. split; [left|]. destruct s as [rel|rel c|e]; simpl in E; [| |done].
    + case_bool_decide as Hk; [|done]. by destruct Hk.
    + by case_bool_decide.
  - destruct (IH H) as (s' & Hin & Hs'). exists s'. split; [by right|done].
Qed.

(** X5. Given a project path without [..] that ends in a name, an entry
    that is there after a run and was not there before is the project
    directory, a directory on the way to it, or one of the directories and
    files of the scaffolder's list below it, whether the run succeeds or
    fails on the way.  Nothing is created anywhere else. *)
Theorem scaffold_creates_only_its_entries project w k :
  straight (path project) →
  files w !! k = None →
  is_Some (files (scaffold project w).2 !! k) →
  k `prefix_of` resolve (cwd w) (path project) ∨
  ∃ r, k = resolve (cwd w) (path project) ++ r ∧ existsb (names r) (steps project) = true.
Proof.
  intros _ Hk Hnew. destruct (scaffold project w) as [o w'] eqn:E. simpl in Hnew.
  apply scaffold_cases in E as [(e & -> & ->)|(w2 & pre & rest & H2 & Hs & Hd & _)].
  { simpl in Hnew. rewrite Hk in Hnew. by destruct Hnew. }
  pose proof (ensure_root_lookup _ _ _ H2) as (HP & Hc2 & _ & Hf2).
  assert (Forall step_plain pre) as Hplain.
  { pose proof (steps_plain project) as Hp. rewrite Hs in Hp.
    by apply Forall_app in Hp as [? _]. }
  pose proof (for_of_perform_lookup _ _ _ _ HP Hplain Hd) as (_ & _ & Hf).
  rewrite Hf, Hc2 in Hnew. simpl in Hnew, Hf2.
  destruct (Hf2 k) as [Hsame|(_ & _ & _ & Hpre)]; [|by left].
  rewrite Hsame, Hk in Hnew.
  apply foldl_step_at_created in Hnew as (s & Hin & H).
  assert (s ∈ steps project) as Hin' by (rewrite Hs; apply elem_of_app; by left).
  destruct s as [rel|rel c|e]; [| |done].
  - apply prefix_app_cases' in H as [H|(r & -> & H)]; [by left|].
    right. exists r. split; [done|]. apply existsb_exists.
    exists (Mkdir rel). split; [by apply list_elem_of_In|]. by apply bool_decide_eq_true_2.
  - right. exists (split slash rel). split; [done|]. apply existsb_exists.
    exists (WriteFile rel c). split; [by apply list_elem_of_In|].
    by apply bool_decide_eq_true_2.
Qed.

Lemma scaffold_creates_only_its_entries_witness :
  let k := ["home"; "u"; "my-agent-project"; "docs"] in
  k `prefix_of` resolve (cwd home) (path fullstack_ts_ci) ∨
  ∃ r, k = resolve (cwd home) (path fullstack_ts_ci) ++ r ∧
       existsb (names r) (steps fullstack_ts_ci) = true.
Proof.
  apply (scaffold_creates_only_its_entries fullstack_ts_ci home).
  - apply (bool_decide_unpack _). vm_compute. exact I.
  - reflexivity.
  - apply (bool_decide_unpack _). vm_compute. exact I.
Defined.

(** ** What a run writes *)

Lemma foldl_step_rel_kept t r n ss :
  r ∉ written ss → foldl (step_rel t r) (Some n) ss = Some n.
Proof.
  induction ss as [|s ss IH]; intros H; simpl; [done|].
  destruct s as [rel|rel c|e]; simpl in *.
  - by apply IH.
  - rewrite not_elem_of_cons in H. destruct H as [Hk H].
    rewrite bool_decide_eq_false_2 by done. by apply IH.
  - by apply IH.
Qed.

Lemma foldl_step_rel_written t prev rel c ss :
  NoDup (written ss) → WriteFile rel c ∈ ss →
  foldl (step_rel t (split slash rel)) prev ss = Some (File c t).
Proof.
  revert prev. induction ss as [|s ss IH]; intros prev Hnd Hin; [by apply elem_of_nil in Hin|].
  apply elem_of_cons in Hin as [<-|Hin].
  - simpl in *. rewrite bool_decide_eq_true_2 by done.
    apply foldl_step_rel_kept. by apply NoDup_cons in Hnd as [? _].
  - simpl. apply IH; [|done]. destruct s; simpl in Hnd; [done| |done].
    by apply NoDup_cons in Hnd as [_ ?].
Qed.

Lemma steps_write_once project : NoDup (written (steps project)).
Proof.
  destruct project as [P [] [] ob []]; apply (bool_decide_unpack _); vm_compute; exact I.
Qed.

Lemma steps_write_plain project rel c : WriteFile rel c ∈ steps project → plain rel.
Proof.
  intros Hin. pose proof (steps_plain project) as H.
  rewrite Forall_forall in H. by apply (H (WriteFile rel c)).
Qed.

(** X6. After a run that succeeds, every file of the scaffolder's list
    holds the bytes the scaffolder gives it and carries the time of the run,
    whatever was at its place before: existing files are overwritten without
    notice. *)
Theorem scaffold_overwrites_its_documents project w w' rel c :
  scaffold project w = (Return tt, w') →
  WriteFile rel c ∈ steps project →
  readFileSync w' (join (path project) rel) = inr c ∧
  statSync_mtimeMs w' (join (path project) rel) = inr (clock w).
Proof.
  intros H Hin. pose proof (steps_write_plain _ _ _ Hin) as Hplain.
  unfold readFileSync, statSync_mtimeMs.
  rewrite (scaffold_entry _ _ _ _ H Hplain).
  rewrite (foldl_step_rel_written _ _ _ _ _ (steps_write_once project) Hin).
  by rewrite (steps_utf8 _ _ _ Hin).
Qed.

Lemma scaffold_overwrites_its_documents_witness :
  readFileSync (scaffold backend_js_plain svc_in_use).2 (join "svc" "AGENTS.md")
  = inr (getAgentsTemplate backend) ∧
  statSync_mtimeMs (scaffold backend_js_plain svc_in_use).2 (join "svc" "AGENTS.md")
  = inr 1700000000000%Z.
Proof.
  apply (scaffold_overwrites_its_documents backend_js_plain svc_in_use
           (scaffold backend_js_plain svc_in_use).2 "AGENTS.md" (getAgentsTemplate backend)).
  - apply returned. vm_compute. reflexivity.
  - apply (bool_decide_unpack _). vm_compute. exact I.
Defined.

(** ** The exit code and the messages of a run *)

Lemma main_answered project w :
  main (answered project) w
  = scaffold (as_answered project)
      (console_log (Intro " agentic-engine ") (console_log Clear w).2).2.
Proof. reflexivity. Qed.

Lemma session_cases s : cancelled s ∨ ∃ project, s = answered project.
Proof.
  destruct s as [[|p] [|pt] [|vl] [|ob] [|ci]]; unfold cancelled; simpl; try tauto.
  right. by exists {| path := p; projectType := pt; validationLanguage := vl;
                      includeObservability := ob; includeCI := ci |}.
Qed.

Lemma scaffold_never_exits project : never_exits (scaffold project).
Proof.
  intros w c w' H.
  apply scaffold_cases in H as [(e & ? & _)|(_ & _ & _ & _ & _ & _ & [[? _]|(?&?&?&?&_)])];
    done.
Qed.

Lemma for_of_perform_console P ss w w' :
  for_of ss (perform P) w = (Return tt, w') → console w' = console w ++ says ss.
Proof.
  revert w. induction ss as [|s ss IH]; intros w H.
  - injection H as <-. by rewrite app_nil_r.
  - apply for_of_Return_inv in H as (w1 & H1 & H2). rewrite (IH _ H2).
    destruct s as [rel|rel c|e]; simpl in *.
    + apply mkdirSync_Return in H1 as (_ & _ & _ & -> & _). done.
    + apply writeFileSync_Return in H1 as (_ & _ & _ & -> & _). done.
    + injection H1 as <-. simpl. by rewrite <- app_assoc.
Qed.

Lemma ensure_root_console P w w' :
  ensure_root P w = (Return tt, w') → console w' = console w.
Proof.
  unfold ensure_root. erewrite bind_Return by reflexivity.
  destruct (existsSync w P); simpl.
  - by intros [= <-].
  - intros H. by apply mkdirSync_Return in H as (_ & _ & _ & -> & _).
Qed.

Lemma reports_success_last_split ss pre s rest :
  reports_success_last ss = true → ss = pre ++ s :: rest →
  (∀ e, s ≠ Say e) →
  SpinnerStop "Project created successfully!" ∉ says pre.
Proof.
  revert pre. induction ss as [|a ss IH]; intros pre H Hs Hfs; [by destruct pre|].
  destruct pre as [|a' pre]; [apply not_elem_of_nil|].
  injection Hs as <- Hs. simpl in H.
  destruct a as [rel|rel c|e]; simpl; [by apply IH..|].
  case_bool_decide as He.
  - rewrite forallb_forall in H.
    assert (In s ss) as Hin by (rewrite Hs; apply in_elt).
    apply H in Hin. destruct s; [done..|]. by destruct (Hfs e0).
  - apply not_elem_of_cons. split; [done|]. by apply IH.
Qed.

Lemma steps_report_success_last project : reports_success_last (steps project) = true.
Proof. destruct project as [P [] [] ob []]; vm_compute; reflexivity. Qed.

Lemma steps_report_success project :
  SpinnerStop "Project created successfully!" ∈ says (steps project).
Proof.
  destruct project as [P [] [] ob []]; unfold steps, says; simpl;
    repeat (apply elem_of_cons; first [by left|right]).
Qed.

(** The messages of a run: the spinner starts, and it stops with the
    success message exactly when every step succeeded. *)
Lemma scaffold_messages project w :
  ∃ events,
    console (scaffold project w).2 = console w ++ events ∧
    SpinnerStart "Creating project structure" ∈ events ∧
    (SpinnerStop "Project created successfully!" ∈ events
     ↔ (scaffold project w).1 = Return tt).
Proof.
  destruct (scaffold project w) as [o w'] eqn:E. simpl.
  apply scaffold_cases in E as [(e & -> & ->)|(w2 & pre & rest & H2 & Hs & Hd & Hr)].
  - exists [SpinnerStart "Creating project structure"]. split_and!; [done|by left|].
    split; [|done]. intros H. apply list_elem_of_singleton in H. done.
  - exists (SpinnerStart "Creating project structure" :: says pre). split_and!.
    + rewrite (for_of_perform_console _ _ _ _ Hd), (ensure_root_console _ _ _ H2).
      simpl. by rewrite <- app_assoc.
    + by left.
    + split.
      * intros H. apply elem_of_cons in H as [H|H]; [done|].
        destruct Hr as [[-> _]|(e & s & rest' & -> & -> & Hthrow)]; [done|].
        destruct (reports_success_last_split _ _ _ _ (steps_report_success_last project) Hs);
          [|done].
        intros e' ->. simpl in Hthrow. done.
      * intros ->. destruct Hr as [[_ ->]|(e & s & rest' & ? & _)]; [|done].
        rewrite app_nil_r in Hs. subst pre. right. apply steps_report_success.
Qed.

(** X7. The scaffolder's process never ends with another exit code than 0.
    It ends with code 0 after a project is created and after a
    cancellation.  When a file-system call throws, the error is printed
    after the messages so far, in which the spinner has started and has not
    stopped, and the process does not end. *)
Theorem run_ends_with_code_zero_or_not_at_all s w :
  match (main s w).1 with
  | Throw e =>
      (run s w).1 = None ∧
      ∃ events,
        console (run s w).2 = console w ++ events ++ [ConsoleError e] ∧
        SpinnerStart "Creating project structure" ∈ events ∧
        SpinnerStop "Project created successfully!" ∉ events
  | _ => (run s w).1 = Some 0%Z ∧ (run s w).2 = (main s w).2
  end.
Proof.
  destruct (session_cases s) as [H|[project ->]].
  { unfold run. by rewrite (cancelled_main _ _ H). }
  unfold run. rewrite main_answered.
  set (w1 := (console_log (Intro " agentic-engine ") (console_log Clear w).2).2).
  destruct (scaffold_messages (as_answered project) w1) as (events & Hc & Hstart & Hstop).
  destruct (scaffold (as_answered project) w1) as [[[]|e|c] w'] eqn:E; simpl in *.
  - done.
  - split; [done|]. exists ([Clear; Intro " agentic-engine "] ++ events).
    split_and!.
    + rewrite Hc. unfold w1. simpl. by rewrite <- !app_assoc.
    + apply elem_of_app. by right.
    + intros Hin. apply elem_of_app in Hin as [Hin|Hin].
      * repeat (apply elem_of_cons in Hin as [Hin|Hin]; [done|]). by apply elem_of_nil in Hin.
      * by apply Hstop in Hin.
  - by apply scaffold_never_exits in E.
Qed.

(** X8. The spinner's success message is among the messages of a run
    exactly when every step of the run succeeded: a run that fails on the
    way never reports success. *)
Theorem success_message_iff_success project w :
  ∃ events,
    console (scaffold project w).2 = console w ++ events ∧
    (SpinnerStop "Project created successfully!" ∈ events
     ↔ (scaffold project w).1 = Return tt).
Proof.
  destruct (scaffold_messages project w) as (events & Hc & _ & Hstop).
  by exists events.
Qed.

(** X9. The answer to the observability question plays no part: two
    sessions that differ in it alone end with the same exit code, the same
    tree and the same messages. *)
Theorem observability_answer_is_ignored project ob w :
  run (answered project) w
  = run (answered {| path := path project; projectType := projectType project;
                     validationLanguage := validationLanguage project;
                     includeObservability := ob; includeCI := includeCI project |}) w.
Proof.
  unfold run. rewrite !main_answered.
  set (w1 := (console_log (Intro " agentic-engine ") (console_log Clear w).2).2).
  assert (∀ p p', path p' = path p → projectType p' = projectType p →
                  validationLanguage p' = validationLanguage p →
                  includeCI p' = includeCI p → scaffold p' w1 = scaffold p w1) as H.
  { intros p p' HP Hpt Hvl Hci. rewrite !scaffold_steps.
    assert (steps p' = steps p) as ->; [|by rewrite HP].
    unfold steps, directories, getting_started. by rewrite HP, Hpt, Hvl, Hci. }
  match goal with
  | |- _ = match scaffold ?p' w1 with _ => _ end =>
      by rewrite (H (as_answered project) p')
  end.
Qed.

(** * Further properties of the structure validator *)

(** ** What every check keeps *)

Section respects.
Context (R : relation StructureValidator) `{!Reflexive R, !Transitive R}.

Lemma respects_ret {A} (a : A) : respects R (mret a).
Proof. intros v o v' [= <- <-]. done. Qed.

Lemma respects_read {A} (f : StructureValidator → A) : respects R (read f).
Proof. intros v o v' [= <- <-]. done. Qed.

Lemma respects_try {A} (r : string + A) : respects R (try_ r).
Proof. destruct r as [e|a]; intros v o v' [= <- <-]; done. Qed.

Lemma respects_bind {A B} (m : eff StructureValidator A) (f : A → eff StructureValidator B) :
  respects R m → (∀ a, respects R (f a)) → respects R (m ≫= f).
Proof.
  intros Hm Hf v o v'. unfold mbind, eff_bind.
  destruct (m v) as [[a|e|c] v1] eqn:E.
  - intros H. transitivity v1; [by eapply Hm|by eapply Hf].
  - intros [= <- <-]. by eapply Hm.
  - intros [= <- <-]. by eapply Hm.
Qed.

Lemma respects_for_of {A} (xs : list A) (body : A → eff StructureValidator unit) :
  (∀ x, respects R (body x)) → respects R (for_of xs body).
Proof.
  intros H. induction xs as [|x xs IH]; simpl.
  - apply respects_ret.
  - by apply respects_bind.
Qed.

Lemma respects_when c (m : eff StructureValidator unit) :
  respects R m → respects R (when_ c m).
Proof. destruct c; [done|]. intros _. apply respects_ret. Qed.
End respects.

Ltac respecting prim :=
  repeat (intros; cbv zeta;
    lazymatch goal with
    | |- respects _ (_ ≫= _) => apply respects_bind; [apply _..| |]
    | |- respects _ (for_of _ _) => apply respects_for_of; [apply _..|]
    | |- respects _ (when_ _ _) => apply respects_when; [apply _..|]
    | |- respects _ (if ?b then _ else _) => destruct b
    | |- respects _ (mret _) => apply respects_ret; apply _
    | |- respects _ (read _) => apply respects_read; apply _
    | |- respects _ (try_ _) => apply respects_try; apply _
    | |- respects _ (errors_push _) => prim
    | |- respects _ (warnings_push _) => prim
    | |- respects _ (log _) => prim
    end).

#[global] Instance grows_refl : Reflexive grows.
Proof. by intros v. Qed.

#[global] Instance grows_trans : Transitive grows.
Proof.
  intros v1 v2 v3 (?&?&?&?) (?&?&?&?).
  split_and!; [congruence|by etrans..].
Qed.

#[global] Instance warns_only_refl : Reflexive warns_only.
Proof. by intros v. Qed.

#[global] Instance warns_only_trans : Transitive warns_only.
Proof.
  intros v1 v2 v3 (?&?&?&?) (?&?&?&?).
  split_and!; [congruence..|by etrans|congruence].
Qed.

#[global] Instance silent_refl : Reflexive silent.
Proof. by intros v. Qed.

#[global] Instance silent_trans : Transitive silent.
Proof. unfold silent. intros v1 v2 v3 ? ?. congruence. Qed.

Lemma push_grows e :
  respects grows (errors_push e) ∧ respects grows (warnings_push e) ∧
  respects grows (log e).
Proof.
  split_and!; intros v o v' [= <- <-]; (split_and!; simpl; [done|..]);
    done || by apply prefix_app_r.
Qed.

Lemma validate_grows w : respects grows (validate w).
Proof.
  unfold validate, validateRootDocs, validateDocsStructure, validateCrossLinks,
    validateDocFreshness, printResults.
  respecting ltac:(apply push_grows).
Qed.

(** X10. Whatever way a validation pass ends, also when a file-system call
    cuts it short, it has only added to the errors, to the warnings and to
    the output: a finding once recorded is never dropped, reordered or
    changed, and the root directory stays the one the validator was made
    for. *)
Theorem validate_only_adds_findings w v :
  rootDir (validate w v).2 = rootDir v ∧
  errors v `prefix_of` errors (validate w v).2 ∧
  warnings v `prefix_of` warnings (validate w v).2 ∧
  stdout v `prefix_of` stdout (validate w v).2.
Proof.
  destruct (validate w v) as [o v'] eqn:E. by apply validate_grows in E.
Qed.

Lemma warnings_push_warns_only e : respects warns_only (warnings_push e).
Proof.
  intros v o v' [= <- <-]. split_and!; simpl; [done..| |done]. by apply prefix_app_r.
Qed.

Lemma validateCrossLinks_warns_only w : respects warns_only (validateCrossLinks w).
Proof.
  unfold validateCrossLinks. respecting ltac:(apply warnings_push_warns_only).
Qed.

Lemma validateDocFreshness_warns_only w : respects warns_only (validateDocFreshness w).
Proof.
  unfold validateDocFreshness. respecting ltac:(apply warnings_push_warns_only).
Qed.

(** X11. The link check and the freshness check never record an error,
    whatever the tree holds and whatever way they end: a broken link or a
    stale document adds a warning at most, so by itself it never changes the
    exit code. *)
Theorem links_and_freshness_record_no_error w v :
  errors (validateCrossLinks w v).2 = errors v ∧
  errors (validateDocFreshness w v).2 = errors v.
Proof.
  split.
  - destruct (validateCrossLinks w v) as [o v'] eqn:E.
    by apply validateCrossLinks_warns_only in E as (_ & ? & _).
  - destruct (validateDocFreshness w v) as [o v'] eqn:E.
    by apply validateDocFreshness_warns_only in E as (_ & ? & _).
Qed.

(** ** What each check records *)

Lemma filter_cons_false {A} (c : A → bool) x xs :
  c x = false → List.filter c (x :: xs) = List.filter c xs.
Proof. intros H. simpl. by rewrite H. Qed.

Lemma filter_all {A} (c : A → bool) xs :
  Forall (λ x, c x = true) xs → List.filter c xs = xs.
Proof. induction 1 as [|x xs Hx _ IH]; [done|]. simpl. by rewrite Hx, IH. Qed.

Lemma length_split_newlines s :
  length (split (Ascii.ascii_of_nat 10) s) = S (newlines s).
Proof.
  induction s as [|a s IH]; [done|]. simpl.
  destruct (Ascii.eqb a _); simpl; [by rewrite IH|].
  destruct (split _ s); simpl in *; [done|]. by rewrite IH.
Qed.

(** X12. With both guide files readable, [validateRootDocs] returns and
    records: one error for each of the other seven required documents that
    does not exist, in the order of the list; then one error if the texts
    read from AGENTS.md and CLAUDE.md differ (the texts as decoded, so
    files that differ only in bytes that are not UTF-8 may read the same);
    and one warning if AGENTS.md holds 150 line feeds or more.  The line
    count it reports is the number of line feeds plus one, so a guide of
    150 lines that ends with a line feed is reported as 151 lines. *)
Theorem validateRootDocs_findings w v a c :
  readFileSync w (join (rootDir v) "AGENTS.md") = inr a →
  readFileSync w (join (rootDir v) "CLAUDE.md") = inr c →
  validateRootDocs w v
  = (Return tt,
     {| rootDir := rootDir v;
        errors := (errors v ++
          ((λ doc, "Missing required document: " +:+ doc) <$>
             List.filter (λ doc, negb (existsSync w (join (rootDir v) doc)))
               [ "ARCHITECTURE.md"; "DESIGN.md"; "PLANS.md"; "PRODUCT_SENSE.md";
                 "QUALITY_SCORE.md"; "RELIABILITY.md"; "SECURITY.md" ])) ++
          (if String.eqb a c then [] else ["AGENTS.md and CLAUDE.md must be identical"]);
        warnings := warnings v ++
          (if (150 <=? newlines a)%nat
           then ["AGENTS.md is " +:+ pretty (S (newlines a)) +:+
                 " lines (recommended: ~100 lines). Consider moving details to docs/"]
           else []);
        stdout := stdout v |}).
Proof.
  intros Ha Hc.
  pose proof (readFileSync_exists _ _ _ Ha) as Hea.
  pose proof (readFileSync_exists _ _ _ Hc) as Hec.
  unfold validateRootDocs.
  erewrite bind_Return by done. cbv zeta.
  erewrite bind_Return by apply for_of_errors.
  rewrite !filter_cons_false by (by rewrite ?Hea, ?Hec).
  rewrite Hea, Hec, Ha, Hc.
  cbv [mbind eff_bind mret eff_ret when_ try_ andb errors_push warnings_push].
  rewrite length_split_newlines.
  change (150 <? S (newlines a))%nat with (150 <=? newlines a)%nat.
  destruct (String.eqb a c), (150 <=? newlines a)%nat; simpl; by rewrite ?app_nil_r.
Qed.

Lemma validateRootDocs_findings_witness :
  let v := new_StructureValidator "/p" in
  let text := "#" +:+ replacement in
  validateRootDocs guides_of_odd_bytes v
  = (Return tt,
     {| rootDir := "/p";
        errors := ([] ++
          ((λ doc, "Missing required document: " +:+ doc) <$>
             List.filter (λ doc, negb (existsSync guides_of_odd_bytes (join "/p" doc)))
               [ "ARCHITECTURE.md"; "DESIGN.md"; "PLANS.md"; "PRODUCT_SENSE.md";
                 "QUALITY_SCORE.md"; "RELIABILITY.md"; "SECURITY.md" ])) ++
          (if String.eqb text text then []
           else ["AGENTS.md and CLAUDE.md must be identical"]);
        warnings := [] ++
          (if (150 <=? newlines text)%nat
           then ["AGENTS.md is " +:+ pretty (S (newlines text)) +:+
                 " lines (recommended: ~100 lines). Consider moving details to docs/"]
           else []);
        stdout := [] |}).
Proof.
  apply (validateRootDocs_findings guides_of_odd_bytes (new_StructureValidator "/p")).
  - vm_compute. reflexivity.
  - vm_compute. reflexivity.
Defined.

Lemma validateDocsStructure_eq w v :
  validateDocsStructure w v
  = (Return tt,
     {| rootDir := rootDir v;
        errors := errors v ++
          ((λ dir, "Missing required directory: " +:+ dir) <$>
             List.filter (λ dir, negb (existsSync w (join (rootDir v) dir)))
               [ "docs/design-docs"; "docs/exec-plans/active"; "docs/exec-plans/completed";
                 "docs/product-specs"; "docs/references"; "docs/generated" ]);
        warnings := warnings v ++
          ((λ index, "Missing index file: " +:+ index) <$>
             List.filter (λ index, negb (existsSync w (join (rootDir v) index)))
               [ "docs/design-docs/index.md"; "docs/product-specs/index.md" ]);
        stdout := stdout v |}).
Proof.
  unfold validateDocsStructure.
  erewrite bind_Return by done. cbv zeta.
  erewrite bind_Return by apply for_of_errors.
  by rewrite for_of_warnings.
Qed.

(** X13. [validateDocsStructure] always returns.  It records one error for
    each required directory at whose path nothing exists and one warning for
    each index file at whose path nothing exists, in the order of the lists;
    what kind of entry exists at a path plays no part, so a regular file in
    the place of a required directory is accepted. *)
Theorem validateDocsStructure_findings w v :
  validateDocsStructure w v
  = (Return tt,
     {| rootDir := rootDir v;
        errors := errors v ++
          ((λ dir, "Missing required directory: " +:+ dir) <$>
             List.filter (λ dir, negb (existsSync w (join (rootDir v) dir)))
               [ "docs/design-docs"; "docs/exec-plans/active"; "docs/exec-plans/completed";
                 "docs/product-specs"; "docs/references"; "docs/generated" ]);
        warnings := warnings v ++
          ((λ index, "Missing index file: " +:+ index) <$>
             List.filter (λ index, negb (existsSync w (join (rootDir v) index)))
               [ "docs/design-docs/index.md"; "docs/product-specs/index.md" ]);
        stdout := stdout v |}).
Proof. apply validateDocsStructure_eq. Qed.

Lemma for_of_ext_Forall {S A} (xs : list A) (f g : A → eff S unit) s :
  Forall (λ x, ∀ s', f x s' = g x s') xs → for_of xs f s = for_of xs g s.
Proof.
  intros H. revert s. induction H as [|x xs Hx _ IH]; intros s; [done|].
  simpl. unfold mbind, eff_bind. rewrite Hx. by destruct (g x s) as [[[]|e|c] s1].
Qed.

Lemma readdirSync_exists w p entries :
  readdirSync w p = inr entries → existsSync w p = true.
Proof.
  unfold readdirSync, existsSync. by destruct (entry_at w p) as [e|[]].
Qed.

Lemma validateDocFreshness_eq w v entries (mt : string → Z) :
  let dir := join (rootDir v) "docs/design-docs" in
  let docs := List.filter (λ f, endsWith f ".md") entries in
  readdirSync w dir = inr entries →
  Forall (λ f, String.eqb f "index.md" || String.eqb f "template.md" = false →
               statSync_mtimeMs w (join dir f) = inr (mt f)) docs →
  validateDocFreshness w v
  = (Return tt,
     {| rootDir := rootDir v; errors := errors v;
        warnings := warnings v ++
          (if (length docs =? 0)%nat
           then ["No design documents found in docs/design-docs/"]
           else (λ file, "Design doc hasn't been updated in 6+ months: " +:+ file) <$>
                  List.filter (λ file,
                    negb (String.eqb file "index.md" || String.eqb file "template.md") &&
                    (15552000000 <? clock w - mt file)%Z) docs);
        stdout := stdout v |}).
Proof.
  intros dir docs Hread Hstat. unfold validateDocFreshness.
  erewrite bind_Return by done. cbv zeta. fold dir.
  rewrite (readdirSync_exists _ _ _ Hread). cbn [negb].
  rewrite Hread. erewrite bind_Return by done. fold docs.
  change sixMonths with 15552000000%Z.
  destruct (length docs =? 0)%nat; [done|].
  erewrite for_of_ext_Forall; [apply for_of_warnings|].
  eapply Forall_impl; [exact Hstat|]. intros file Hfile v'. simpl in Hfile |- *.
  destruct (String.eqb file "index.md" || String.eqb file "template.md"); [done|].
  rewrite Hfile by done. done.
Qed.

(** X14. With the design-docs directory listed and the modification times
    of its documents read, [validateDocFreshness] returns and records
    warnings only.  Among the entries whose names end in ".md": if there is
    none, the one warning that no design document was found; otherwise one
    warning for each document other than index.md and template.md whose age
    is more than 180 days (a document of exactly that age is not reported),
    in the order of the listing.  index.md and template.md are never
    reported, yet they count as documents found. *)
Theorem validateDocFreshness_findings w v entries (mt : string → Z) :
  let dir := join (rootDir v) "docs/design-docs" in
  let docs := List.filter (λ f, endsWith f ".md") entries in
  readdirSync w dir = inr entries →
  Forall (λ f, String.eqb f "index.md" || String.eqb f "template.md" = false →
               statSync_mtimeMs w (join dir f) = inr (mt f)) docs →
  validateDocFreshness w v
  = (Return tt,
     {| rootDir := rootDir v; errors := errors v;
        warnings := warnings v ++
          (if (length docs =? 0)%nat
           then ["No design documents found in docs/design-docs/"]
           else (λ file, "Design doc hasn't been updated in 6+ months: " +:+ file) <$>
                  List.filter (λ file,
                    negb (String.eqb file "index.md" || String.eqb file "template.md") &&
                    (15552000000 <? clock w - mt file)%Z) docs);
        stdout := stdout v |}).
Proof. apply validateDocFreshness_eq. Qed.

Lemma validateDocFreshness_findings_witness :
  validateDocFreshness aging_design_docs (new_StructureValidator "/p")
  = (Return tt,
     {| rootDir := "/p"; errors := [];
        warnings := [] ++
          (if (length (List.filter (λ f, endsWith f ".md") aging_entries) =? 0)%nat
           then ["No design documents found in docs/design-docs/"]
           else (λ file, "Design doc hasn't been updated in 6+ months: " +:+ file) <$>
                  List.filter (λ file,
                    negb (String.eqb file "index.md" || String.eqb file "template.md") &&
                    (15552000000 <? clock aging_design_docs - aging_mtime file)%Z)
                    (List.filter (λ f, endsWith f ".md") aging_entries));
        stdout := [] |}).
Proof.
  apply (validateDocFreshness_findings aging_design_docs (new_StructureValidator "/p")
           aging_entries aging_mtime).
  - vm_compute. reflexivity.
  - apply (bool_decide_unpack _). vm_compute. exact I.
Defined.

(** ** What the validator prints *)

Lemma for_of_log {A} (xs : list A) (f : A → string) v :
  for_of xs (λ x, log (f x)) v
  = (Return tt, {| rootDir := rootDir v; errors := errors v; warnings := warnings v;
                   stdout := stdout v ++ (f <$> xs) |}).
Proof.
  revert v. induction xs as [|x xs IH]; intros v.
  - simpl. rewrite app_nil_r. by destruct v.
  - simpl. erewrite bind_Return by done. rewrite IH. simpl. by rewrite <- app_assoc.
Qed.

(** [printResults] prints the report of the findings and changes nothing
    else. *)
Lemma printResults_report v :
  printResults v
  = (Return tt, {| rootDir := rootDir v; errors := errors v; warnings := warnings v;
                   stdout := stdout v ++ report (errors v) (warnings v) |}).
Proof.
  unfold printResults, report.
  erewrite bind_Return by done. erewrite bind_Return by done.
  erewrite bind_Return by done.
  destruct (errors v) as [|e es] eqn:Ees, (warnings v) as [|x ws] eqn:Ews;
    cbn [length Nat.eqb Nat.ltb Nat.leb andb when_].
  - erewrite bind_Return by done. cbv [log]. simpl. by rewrite <- !app_assoc.
  - erewrite bind_Return; cycle 1.
    { erewrite bind_Return by done.
      erewrite bind_Return by done. apply for_of_log. }
    cbv [log]. simpl. repeat (rewrite <- app_assoc; simpl). done.
  - erewrite bind_Return; cycle 1.
    { erewrite bind_Return; cycle 1.
      { erewrite bind_Return by done. apply for_of_log. }
      done. }
    cbv [log]. simpl. repeat (rewrite <- app_assoc; simpl). done.
  - erewrite bind_Return; cycle 1.
    { erewrite bind_Return; cycle 1.
      { erewrite bind_Return by done. apply for_of_log. }
      erewrite bind_Return by done. apply for_of_log. }
    cbv [log]. simpl. repeat (rewrite <- app_assoc; simpl). done.
Qed.

Lemma push_silent e : respects silent (errors_push e) ∧ respects silent (warnings_push e).
Proof. split; by intros v o v' [= <- <-]. Qed.

Lemma checks_are_silent w :
  respects silent (validateRootDocs w) ∧ respects silent (validateDocsStructure w) ∧
  respects silent (validateCrossLinks w) ∧ respects silent (validateDocFreshness w).
Proof.
  unfold validateRootDocs, validateDocsStructure, validateCrossLinks, validateDocFreshness.
  split_and!; respecting ltac:(apply push_silent).
Qed.

Lemma silent_then {A} (m : eff StructureValidator unit) (k : eff StructureValidator A)
    out (post : StructureValidator → Prop) v :
  respects silent m → stdout v = out →
  (∀ v', stdout v' = out →
         match (k v').1 with
         | Return _ => post (k v').2
         | _ => stdout (k v').2 = out
         end) →
  match ((m ;; k) v).1 with
  | Return _ => post ((m ;; k) v).2
  | _ => stdout ((m ;; k) v).2 = out
  end.
Proof.
  intros Hm Hv Hk. unfold mbind, eff_bind.
  destruct (m v) as [[[]|e|c] v'] eqn:E; apply Hm in E; unfold silent in E; simpl.
  - apply Hk. congruence.
  - congruence.
  - congruence.
Qed.

Lemma validate_stdout w v :
  match (validate w v).1 with
  | Return _ =>
      stdout (validate w v).2
      = (stdout v ++ [banner]) ++ report (errors (validate w v).2) (warnings (validate w v).2)
  | _ => stdout (validate w v).2 = stdout v ++ [banner]
  end.
Proof.
  destruct (checks_are_silent w) as (H1 & H2 & H3 & H4).
  unfold validate. erewrite bind_Return by done.
  pose (post := λ v', stdout v' = (stdout v ++ [banner])
                                  ++ report (errors v') (warnings v')).
  apply (silent_then _ _ (stdout v ++ [banner]) post); [done..|]. intros v1 Hv1.
  apply (silent_then _ _ (stdout v ++ [banner]) post); [done..|]. intros v2 Hv2.
  apply (silent_then _ _ (stdout v ++ [banner]) post); [done..|]. intros v3 Hv3.
  apply (silent_then _ _ (stdout v ++ [banner]) post); [done..|]. intros v4 Hv4.
  erewrite bind_Return by apply printResults_report.
  unfold post. simpl. by rewrite Hv4.
Qed.

(** X15. What a validation pass prints.  A pass that completes prints the
    opening line and then the report of the findings it ends with: the
    success line when there are neither errors nor warnings, otherwise the
    errors and the warnings, each under its heading with its count, between
    two rules.  A pass that a file-system call cuts short prints the opening
    line and nothing else: no finding is reported. *)
Theorem validate_prints_the_report w v :
  match (validate w v).1 with
  | Return _ =>
      stdout (validate w v).2
      = (stdout v ++ [banner]) ++ report (errors (validate w v).2) (warnings (validate w v).2)
  | _ => stdout (validate w v).2 = stdout v ++ [banner]
  end.
Proof. apply validate_stdout. Qed.

Lemma verdict_in_report es ws :
  "✅ All validation checks passed!" ∈ report es ws ↔ es = [] ∧ ws = [].
Proof.
  split.
  - intros H. destruct es as [|e es], ws as [|x ws]; [done|exfalso..];
      unfold report in H; cbn [length Nat.eqb Nat.ltb Nat.leb andb] in H;
      rewrite ?elem_of_app, ?elem_of_cons, ?list_elem_of_fmap in H;
      repeat match goal with
        | H : _ ∨ _ |- _ => destruct H as [H|H]
        | H : ∃ _, _ |- _ => destruct H as (? & H & _)
        | H : _ ∈ [] |- _ => by apply elem_of_nil in H
        | H : _ = _ |- _ => discriminate H
        end.
  - intros [-> ->]. unfold report. simpl. set_solver.
Qed.

(** X16. The success line is printed exactly when the pass completes with
    neither errors nor warnings.  A pass that completes with warnings only
    ends the run with exit code 0 without it; a pass that is cut short never
    prints it. *)
Theorem success_line_iff_no_findings w root :
  let r := validate w (new_StructureValidator root) in
  "✅ All validation checks passed!" ∈ stdout r.2
  ↔ (∃ b, r.1 = Return b) ∧ errors r.2 = [] ∧ warnings r.2 = [].
Proof.
  intros r. pose proof (validate_stdout w (new_StructureValidator root)) as H.
  fold r in H. destruct r as [[b|e|c] v']; simpl in *; rewrite H.
  - rewrite elem_of_cons, verdict_in_report. split.
    + intros [?|?]; [done|]. split; [by eexists|done].
    + intros [_ ?]. by right.
  - split; [|by intros [[? ?] _]]. intros Hin. by apply list_elem_of_singleton in Hin.
  - split; [|by intros [[? ?] _]]. intros Hin. by apply list_elem_of_singleton in Hin.
Qed.

(** ** The link pattern *)

Lemma string_append_assoc (a b c : string) : (a +:+ b) +:+ c = a +:+ (b +:+ c).
Proof. induction a as [|x a IH]; [done|]. rewrite !append_cons. by rewrite IH. Qed.

Lemma length_append (a b : string) :
  String.length (a +:+ b) = String.length a + String.length b.
Proof. induction a as [|x a IH]; [done|]. rewrite append_cons. simpl. by rewrite IH. Qed.

Lemma take_until_spec c s run rest :
  take_until c s = Some (run, rest) →
  s = run +:+ rest ∧ (∃ rest', rest = String c rest') ∧
  Forall (λ a, Ascii.eqb a c = false) (String.list_ascii_of_string run).
Proof.
  revert run. induction s as [|a s IH]; intros run H; simpl in H; [done|].
  destruct (Ascii.eqb a c) eqn:E.
  - injection H as <- <-. apply Ascii.eqb_eq in E as ->. split_and!; [done|by eexists|done].
  - destruct (take_until c s) as [[run' rest']|]; [|done]. injection H as <- <-.
    destruct (IH run' eq_refl) as (-> & Hrest & Hrun).
    split_and!; [done|done|]. simpl. by constructor.
Qed.

Lemma match_link_spec s linkPath len :
  match_link s = Some (linkPath, len) →
  ∃ text post,
    s = "[" +:+ text +:+ "](" +:+ linkPath +:+ ")" +:+ post ∧
    text ≠ "" ∧ linkPath ≠ "" ∧
    Forall (λ a, Ascii.eqb a "]" = false) (String.list_ascii_of_string text) ∧
    Forall (λ a, Ascii.eqb a ")" = false) (String.list_ascii_of_string linkPath) ∧
    len = 4 + String.length text + String.length linkPath.
Proof.
  unfold match_link. intros H.
  destruct s as [|a s1]; [done|].
  destruct (decide (a = "["%char)) as [->|Ha]; cycle 1.
  { destruct a as [[] [] [] [] [] [] [] []]; done. }
  destruct (take_until "]" s1) as [[text rest]|] eqn:E1; [|done].
  destruct text as [|t text]; [done|].
  apply take_until_spec in E1 as (-> & [rest' ->] & Htext).
  destruct rest' as [|b s3]; [done|].
  destruct (decide (b = "("%char)) as [->|Hb]; cycle 1.
  { destruct b as [[] [] [] [] [] [] [] []]; done. }
  destruct (take_until ")" s3) as [[path post]|] eqn:E2; [|done].
  destruct path as [|p path]; [done|].
  apply take_until_spec in E2 as (-> & [post' ->] & Hpath).
  injection H as <- <-.
  exists (String t text), post'. split_and!; done.
Qed.

(** X17. Every path the link check looks at is written as a link in the
    text: the text holds, somewhere, an opening bracket, a non-empty label
    without a closing bracket, "](", the path, and a closing parenthesis; the
    path is not empty and holds no closing parenthesis.  So the path of a
    link ends at the first closing parenthesis, and whatever follows the
    target inside the parentheses, a title or a fragment, is part of the
    path that is looked up. *)
Theorem exec_all_finds_links_only skip s linkPath :
  linkPath ∈ exec_all skip s →
  ∃ pre text post,
    s = pre +:+ "[" +:+ text +:+ "](" +:+ linkPath +:+ ")" +:+ post ∧
    text ≠ "" ∧ linkPath ≠ "" ∧
    Forall (λ a, Ascii.eqb a "]" = false) (String.list_ascii_of_string text) ∧
    Forall (λ a, Ascii.eqb a ")" = false) (String.list_ascii_of_string linkPath).
Proof.
  revert skip. induction s as [|a s IH]; intros skip H; cbn [exec_all] in H.
  { by apply elem_of_nil in H. }
  assert (∀ n, linkPath ∈ exec_all n s →
            ∃ pre text post,
              String a s = pre +:+ "[" +:+ text +:+ "](" +:+ linkPath +:+ ")" +:+ post ∧
              text ≠ "" ∧ linkPath ≠ "" ∧
              Forall (λ a, Ascii.eqb a "]" = false) (String.list_ascii_of_string text) ∧
              Forall (λ a, Ascii.eqb a ")" = false) (String.list_ascii_of_string linkPath))
    as Hrest.
  { intros n Hn. destruct (IH n Hn) as (pre & text & post & -> & ?).
    exists (String a pre), text, post. by rewrite append_cons. }
  destruct skip as [|n]; [|by apply (Hrest n)].
  destruct (match_link (String a s)) as [[l len]|] eqn:E; [|by apply (Hrest 0)].
  apply elem_of_cons in H as [->|H]; [|by apply (Hrest (len - 1))].
  apply match_link_spec in E as (text & post & -> & ? & ? & ? & ? & _).
  by exists "", text, post.
Qed.

Lemma exec_all_finds_links_only_witness :
  ∃ pre text post,
    "See [the docs](httpdocs/guide.md) and [the mirror](ftp://example.org/guide.md)."
    = pre +:+ "[" +:+ text +:+ "](" +:+ "ftp://example.org/guide.md" +:+ ")" +:+ post ∧
    text ≠ "" ∧ "ftp://example.org/guide.md" ≠ "" ∧
    Forall (λ a, Ascii.eqb a "]" = false) (String.list_ascii_of_string text) ∧
    Forall (λ a, Ascii.eqb a ")" = false)
      (String.list_ascii_of_string "ftp://example.org/guide.md").
Proof.
  apply (exec_all_finds_links_only 0
    "See [the docs](httpdocs/guide.md) and [the mirror](ftp://example.org/guide.md)."
    "ftp://example.org/guide.md").
  apply (bool_decide_unpack _). vm_compute. exact I.
Defined.

Lemma exec_all_skip a b : exec_all (String.length a) (a +:+ b) = exec_all 0 b.
Proof.
  induction a as [|x a IH]; [done|]. rewrite append_cons. simpl. apply IH.
Qed.

(** X18. A link written out in full is found, and the search goes on
    behind it: when no opening bracket comes before it, the first path the
    search yields is the path of the link, and the rest is what the search
    yields on the text after the link.  Paths therefore come in the order of
    the links in the text; a link that follows other characters, as the
    exclamation mark of an image does, is treated like any other. *)
Theorem exec_all_finds_link pre text linkPath post :
  Forall (λ a, Ascii.eqb a "[" = false) (String.list_ascii_of_string pre) →
  text ≠ "" → linkPath ≠ "" →
  Forall (λ a, Ascii.eqb a "]" = false) (String.list_ascii_of_string text) →
  Forall (λ a, Ascii.eqb a ")" = false) (String.list_ascii_of_string linkPath) →
  exec_all 0 (pre +:+ "[" +:+ text +:+ "](" +:+ linkPath +:+ ")" +:+ post)
  = linkPath :: exec_all 0 post.
Proof.
  intros Hpre Ht Hp Htext Hpath. induction pre as [|a pre IH].
  - pose proof (match_link_wellformed text linkPath post Ht Hp Htext Hpath) as Hm.
    change ("" +:+ ?x) with x.
    change ("[" +:+ ?x) with (String "[" x) in *.
    cbn [exec_all]. rewrite Hm. f_equal.
    replace (4 + String.length text + String.length linkPath - 1)
      with (String.length (text +:+ "](" +:+ linkPath +:+ ")")); cycle 1.
    { rewrite !length_append. simpl. lia. }
    rewrite <- (exec_all_skip (text +:+ "](" +:+ linkPath +:+ ")") post).
    by rewrite !string_append_assoc.
  - inversion Hpre as [|? ? Ha Hpre']; subst. rewrite append_cons. cbn [exec_all].
    assert (match_link (String a (pre +:+ "[" +:+ text +:+ "](" +:+ linkPath +:+ ")" +:+ post))
            = None) as ->; [|by apply IH].
    simpl. destruct a as [[] [] [] [] [] [] [] []]; done.
Qed.

Lemma exec_all_finds_link_witness :
  exec_all 0 ("!" +:+ "[" +:+ "logo" +:+ "](" +:+ "assets/logo.png" +:+ ")" +:+ " and more")
  = "assets/logo.png" :: exec_all 0 " and more".
Proof.
  apply (exec_all_finds_link "!" "logo" "assets/logo.png" " and more").
  - by repeat constructor.
  - done.
  - done.
  - by repeat constructor.
  - by repeat constructor.
Defined.

(** ** The validator in an empty directory *)

Lemma process_cwd_nonempty w : process_cwd w ≠ "".
Proof. unfold process_cwd. by change ("/" +:+ ?s) with (String slash s). Qed.

Lemma empty_below_absent w rel :
  Forall normal_seg (cwd w) → empty_below w → plain rel →
  existsSync w (join (process_cwd w) rel) = false.
Proof.
  intros Hcwd Hempty Hrel. apply existsSync_absent.
  apply eq_None_not_Some.
  rewrite resolve_join by (apply process_cwd_nonempty || by apply plain_nonempty).
  rewrite resolve_process_cwd by done. rewrite foldl_walk_normal by done.
  rewrite node_at_app by apply split_nonempty.
  intros [n Hn]. apply (Hempty _ _ Hn). split; [by apply prefix_app_r|].
  intros E. rewrite <- (app_nil_r (cwd w)) in E at 2.
  apply app_inv_head in E. by destruct (split_nonempty slash rel).
Qed.

(** Where none of the entries the validator looks for exists. *)
Lemma validate_where_nothing_is w :
  (∀ rel, rel ∈ [ "AGENTS.md"; "CLAUDE.md"; "ARCHITECTURE.md"; "DESIGN.md"; "PLANS.md";
                  "PRODUCT_SENSE.md"; "QUALITY_SCORE.md"; "RELIABILITY.md"; "SECURITY.md";
                  "docs/design-docs"; "docs/exec-plans/active"; "docs/exec-plans/completed";
                  "docs/product-specs"; "docs/references"; "docs/generated";
                  "docs/design-docs/index.md"; "docs/product-specs/index.md" ] →
          existsSync w (join (process_cwd w) rel) = false) →
  let found_errors :=
    [ "Missing required document: AGENTS.md";
      "Missing required document: CLAUDE.md";
      "Missing required document: ARCHITECTURE.md";
      "Missing required document: DESIGN.md";
      "Missing required document: PLANS.md";
      "Missing required document: PRODUCT_SENSE.md";
      "Missing required document: QUALITY_SCORE.md";
      "Missing required document: RELIABILITY.md";
      "Missing required document: SECURITY.md";
      "Missing required directory: docs/design-docs";
      "Missing required directory: docs/exec-plans/active";
      "Missing required directory: docs/exec-plans/completed";
      "Missing required directory: docs/product-specs";
      "Missing required directory: docs/references";
      "Missing required directory: docs/generated" ] in
  let found_warnings :=
    [ "Missing index file: docs/design-docs/index.md";
      "Missing index file: docs/product-specs/index.md" ] in
  validate_structure w
  = (1%Z, {| rootDir := process_cwd w; errors := found_errors; warnings := found_warnings;
             stdout := banner :: report found_errors found_warnings |}).
Proof.
  intros Habsent found_errors found_warnings.
  assert (∀ rels,
            Forall (λ rel, rel ∈
              [ "AGENTS.md"; "CLAUDE.md"; "ARCHITECTURE.md"; "DESIGN.md"; "PLANS.md";
                "PRODUCT_SENSE.md"; "QUALITY_SCORE.md"; "RELIABILITY.md"; "SECURITY.md";
                "docs/design-docs"; "docs/exec-plans/active";
                "docs/exec-plans/completed"; "docs/product-specs"; "docs/references";
                "docs/generated"; "docs/design-docs/index.md";
                "docs/product-specs/index.md" ]) rels →
            List.filter (λ rel, negb (existsSync w (join (process_cwd w) rel))) rels = rels)
    as Hall.
  { intros rels Hrels. apply filter_all. eapply Forall_impl; [exact Hrels|].
    intros rel Hrel. simpl. by rewrite Habsent. }
  unfold validate_structure, script, validate, new_StructureValidator.
  rewrite bind_assoc. erewrite bind_Return by done.
  cbn [rootDir errors warnings stdout app].
  rewrite bind_assoc. erewrite bind_Return; cycle 1.
  { unfold validateRootDocs. erewrite bind_Return by done. cbv zeta. cbn [rootDir].
    erewrite bind_Return by apply for_of_errors.
    rewrite Hall by plain_path.
    rewrite (Habsent "AGENTS.md") by plain_path. cbn [andb when_].
    erewrite bind_Return by done. reflexivity. }
  cbn [rootDir errors warnings stdout app].
  rewrite bind_assoc. erewrite bind_Return; cycle 1.
  { rewrite validateDocsStructure_eq. cbn [rootDir].
    rewrite !Hall by plain_path. reflexivity. }
  cbn [rootDir errors warnings stdout app].
  rewrite bind_assoc. erewrite bind_Return; cycle 1.
  { unfold validateCrossLinks. erewrite bind_Return by done. cbv zeta. cbn [rootDir].
    rewrite (Habsent "AGENTS.md") by plain_path. reflexivity. }
  rewrite bind_assoc. erewrite bind_Return; cycle 1.
  { unfold validateDocFreshness. erewrite bind_Return by done. cbv zeta. cbn [rootDir].
    rewrite (Habsent "docs/design-docs") by plain_path. reflexivity. }
  rewrite bind_assoc. erewrite bind_Return by apply printResults_report.
  cbn [rootDir errors warnings stdout app].
  reflexivity.
Qed.

(** X19. Run in a directory that holds nothing, the validator completes
    and fails with exit code 1: it records the nine required documents and
    the six required directories as missing, in the order of its lists, and
    warns about the two index files; the link check and the freshness check
    find nothing to look at.  It prints the opening line and the report of
    these findings. *)
Theorem validator_in_an_empty_directory w :
  Forall normal_seg (cwd w) → empty_below w →
  let found_errors :=
    [ "Missing required document: AGENTS.md";
      "Missing required document: CLAUDE.md";
      "Missing required document: ARCHITECTURE.md";
      "Missing required document: DESIGN.md";
      "Missing required document: PLANS.md";
      "Missing required document: PRODUCT_SENSE.md";
      "Missing required document: QUALITY_SCORE.md";
      "Missing required document: RELIABILITY.md";
      "Missing required document: SECURITY.md";
      "Missing required directory: docs/design-docs";
      "Missing required directory: docs/exec-plans/active";
      "Missing required directory: docs/exec-plans/completed";
      "Missing required directory: docs/product-specs";
      "Missing required directory: docs/references";
      "Missing required directory: docs/generated" ] in
  let found_warnings :=
    [ "Missing index file: docs/design-docs/index.md";
      "Missing index file: docs/product-specs/index.md" ] in
  validate_structure w
  = (1%Z, {| rootDir := process_cwd w; errors := found_errors; warnings := found_warnings;
             stdout := banner :: report found_errors found_warnings |}).
Proof.
  intros Hcwd Hempty. apply validate_where_nothing_is.
  intros rel Hrel. apply empty_below_absent; [done..|].
  repeat (apply elem_of_cons in Hrel as [->|Hrel]; [plain_path|]).
  by apply elem_of_nil in Hrel.
Qed.

Lemma validator_in_an_empty_directory_witness :
  (validate_structure empty_project).1 = 1%Z ∧
  length (errors (validate_structure empty_project).2) = 15 ∧
  length (warnings (validate_structure empty_project).2) = 2.
Proof.
  rewrite (validator_in_an_empty_directory empty_project).
  - done.
  - apply (bool_decide_unpack _). vm_compute. exact I.
  - apply (bool_decide_unpack _). vm_compute. exact I.
Defined.

(** ** A run that fails on the way *)

Lemma steps_begin project :
  ∃ rest, steps project
          = (Mkdir <$> directories project) ++
            Say (SpinnerMessage "Writing documentation templates") ::
            WriteFile "AGENTS.md" (getAgentsTemplate (projectType project)) :: rest.
Proof. eexists. unfold steps. cbn [app]. reflexivity. Qed.

Lemma foldl_step_at_mkdirs_file t base k x dirs c t' :
  foldl (step_at t base k) x (Mkdir <$> dirs) = Some (File c t') → x = Some (File c t').
Proof.
  revert x. induction dirs as [|dir dirs IH]; intros x H; simpl in *; [done|].
  apply IH in H. destruct x; [done|]. by destruct (bool_decide _).
Qed.

Lemma scaffold_stops_at_the_guide project w t :
  path project ≠ "" →
  node_at (files w) (resolve (cwd w) (path project) ++ ["AGENTS.md"]) = Some (Dir t) →
  Forall (λ dir, clear_for (files w) (resolve (cwd w) (path project)) (Mkdir dir) = true)
    (directories project) →
  ∃ w',
    scaffold project w = (Throw "EISDIR", w') ∧
    (∀ dir, dir ∈ directories project →
            dir_at (files w') (resolve (cwd w) (path project) ++ split slash dir)) ∧
    (∀ k c t', files w' !! k = Some (File c t') → files w !! k = Some (File c t')).
Proof.
  intros HP Hguide Hclear. rewrite Forall_forall in Hclear.
  set (base := resolve (cwd w) (path project)) in *.
  set (w1 := (console_log (SpinnerStart "Creating project structure") w).2).
  assert (∀ dir k, dir ∈ directories project → k `prefix_of` base ++ split slash dir →
                   is_file (node_at (files w) k) = false) as Hdirs.
  { intros dir k Hin. by apply clear_for_mkdir, Hclear. }
  assert (∃ w2, ensure_root (path project) w1 = (Return tt, w2)) as [w2 H2].
  { unfold ensure_root. erewrite bind_Return by reflexivity.
    destruct (existsSync w1 (path project)); simpl; [by eexists|].
    apply mkdirSync_clear; [done|]. intros k Hk.
    apply (Hdirs "docs/design-docs"); [apply design_docs_among_directories|].
    by apply prefix_app_r. }
  pose proof (ensure_root_lookup _ _ _ H2) as (_ & Hc2 & _ & Hf2).
  pose proof (ensure_root_keeps _ _ _ H2) as [Hd2 _].
  change (cwd w1) with (cwd w) in *. change (files w1) with (files w) in *.
  fold base in Hf2.
  destruct (for_of_mkdirs_clear (path project) (directories project) w2 HP
              (directories_plain project)) as [w3 H3].
  { intros dir k Hin Hk. rewrite Hc2 in Hk.
    pose proof (Hdirs dir k Hin Hk) as Hfile.
    destruct k as [|x k]; [done|]. simpl in *.
    destruct (Hf2 (x :: k)) as [->|(_ & -> & _)]; done. }
  assert (Forall step_plain (Mkdir <$> directories project)) as Hplain.
  { apply Forall_fmap. eapply Forall_impl; [apply directories_plain|]. done. }
  pose proof (for_of_perform_lookup _ _ _ _ HP Hplain H3) as (Hc3 & _ & Hf3).
  pose proof (for_of_perform_settles _ _ _ _ HP Hplain H3) as Hsettled.
  pose proof (for_of_perform_keeps _ _ _ _ H3) as [Hd3 _].
  rewrite Hc2 in Hsettled, Hf3. fold base in Hsettled, Hf3.
  rewrite Forall_forall in Hsettled.
  set (w4 := (console_log (SpinnerMessage "Writing documentation templates") w3).2).
  assert (writeFileSync (join (path project) "AGENTS.md")
            (getAgentsTemplate (projectType project)) w4 = (Throw "EISDIR", w4)) as H4.
  { unfold writeFileSync. rewrite bool_decide_eq_false_2 by apply join_nonempty.
    rewrite resolve_join_plain by (done || plain_path).
    change (cwd w4) with (cwd w3). change (files w4) with (files w3).
    rewrite Hc3, Hc2. fold base.
    change (split slash "AGENTS.md") with ["AGENTS.md"].
    rewrite removelast_last.
    destruct (Hsettled (Mkdir "docs/design-docs")) with (k := base) as [t0 ->].
    { apply list_elem_of_fmap_2, design_docs_among_directories. }
    { by apply prefix_app_r. }
    destruct (Hd3 (base ++ ["AGENTS.md"])) as [t1 ->]; [|done].
    apply Hd2. by exists t. }
  exists w4. split_and!.
  - rewrite scaffold_steps. erewrite bind_Return by apply console_log_eq. fold w1.
    erewrite bind_Return by exact H2.
    destruct (steps_begin project) as [rest ->]. rewrite for_of_app.
    erewrite bind_Return by exact H3. simpl.
    erewrite bind_Return by apply console_log_eq. fold w4.
    unfold mbind, eff_bind. by rewrite H4.
  - intros dir Hin. apply (Hsettled (Mkdir dir)); [by apply list_elem_of_fmap_2|done].
  - intros k c t' Hk. change (files w4) with (files w3) in Hk.
    rewrite Hf3 in Hk. apply foldl_step_at_mkdirs_file in Hk.
    destruct (Hf2 k) as [Hsame|(_ & Hnew & _)]; congruence.
Qed.

(** X20. A run that fails is not rolled back.  Given a project path
    without [..] that ends in a name: when AGENTS.md in the project
    directory is a directory and nothing hinders the directories of the
    project, the run makes every one of its directories, fails with EISDIR
    on the first file it writes, and leaves the directories in place; no
    file has been written. *)
Theorem failed_scaffold_is_not_rolled_back project w t :
  straight (path project) →
  node_at (files w) (resolve (cwd w) (path project) ++ ["AGENTS.md"]) = Some (Dir t) →
  Forall (λ dir, clear_for (files w) (resolve (cwd w) (path project)) (Mkdir dir) = true)
    (directories project) →
  (scaffold project w).1 = Throw "EISDIR" ∧
  (∀ dir, dir ∈ directories project →
     dir_at (files (scaffold project w).2) (resolve (cwd w) (path project) ++ split slash dir)) ∧
  (∀ k c t', files (scaffold project w).2 !! k = Some (File c t') →
             files w !! k = Some (File c t')).
Proof.
  intros HP%straight_nonempty Hguide Hclear.
  destruct (scaffold_stops_at_the_guide project w t HP Hguide Hclear) as (w' & -> & ? & ?).
  done.
Qed.

Lemma failed_scaffold_is_not_rolled_back_witness :
  (scaffold backend_js_plain guide_is_a_directory).1 = Throw "EISDIR" ∧
  (∀ dir, dir ∈ directories backend_js_plain →
     dir_at (files (scaffold backend_js_plain guide_is_a_directory).2)
       (resolve (cwd guide_is_a_directory) (path backend_js_plain) ++ split slash dir)) ∧
  (∀ k c t', files (scaffold backend_js_plain guide_is_a_directory).2 !! k = Some (File c t') →
             files guide_is_a_directory !! k = Some (File c t')).
Proof.
  apply (failed_scaffold_is_not_rolled_back backend_js_plain guide_is_a_directory 9).
  - apply (bool_decide_unpack _). vm_compute. exact I.
  - vm_compute. reflexivity.
  - apply (bool_decide_unpack _). vm_compute. exact I.
Defined.

(** ** The validator on a tree the scaffolder has gone over *)

Lemma scaffold_settled project w w' :
  scaffold project w = (Return tt, w') →
  Forall (settled (resolve (cwd w) (path project)) (files w')) (steps project).
Proof.
  intros H. pose proof (scaffold_lookup _ _ _ H) as (HP & _).
  rewrite scaffold_steps in H.
  apply bind_Return_inv in H as ([] & wa & Ha & H).
  apply bind_Return_inv in H as ([] & wb & Hb & H).
  apply console_log_Return in Ha as (Hca & _ & _).
  apply ensure_root_lookup in Hb as (_ & Hcb & _ & _).
  pose proof (for_of_perform_settles _ _ _ _ HP (steps_plain project) H) as Hs.
  by rewrite Hcb, Hca in Hs.
Qed.

Section scaffolded.
Variable project : Project.
Variables w0 w1 : world.
Variable d : Z.

Hypothesis cwd_normal : Forall normal_seg (cwd w0).
Hypothesis names_normal : well_named w0.
Hypothesis scaffolded : scaffold project w0 = (Return tt, w1).

Local Abbreviation base := (resolve (cwd w0) (path project)).
Local Abbreviation w := (later d (chdir (path project) w1)).
Local Abbreviation root := (process_cwd (later d (chdir (path project) w1))).

Lemma lookup_after r :
  r ≠ [] →
  files w !! (base ++ r)
  = foldl (step_rel (clock w0) r) (files w0 !! (base ++ r)) (steps project).
Proof. intros Hr. change (files w) with (files w1). by apply scaffold_lookup_rel. Qed.

Lemma exists_after rel :
  leads_to_created project rel = true → existsSync w (join root rel) = true.
Proof.
  unfold leads_to_created. rewrite !andb_true_iff, !negb_true_iff.
  intros [[[Htr Hdots] Hne] Hnamed]. apply bool_decide_eq_false in Hne.
  assert (rel ≠ "") as Hrel by (by intros ->).
  assert (Forall (λ seg, seg ≠ "..") (split slash rel)) as Hdots'.
  { apply Forall_forall. intros seg Hseg.
    rewrite forallb_forall in Hdots. apply list_elem_of_In, Hdots in Hseg.
    apply negb_true_iff in Hseg. intros ->. done. }
  rewrite existsSync_eq by (apply join_nonempty || by apply join_no_trailing).
  apply bool_decide_eq_true_2.
  rewrite (resolve_root project w0 w1 d cwd_normal scaffolded) by done.
  rewrite foldl_walk_below by done.
  rewrite node_at_app, lookup_after by done. by apply named_is_Some.
Qed.

Lemma all_after rels :
  forallb (leads_to_created project) rels = true →
  Forall (λ rel, existsSync w (join root rel) = true) rels.
Proof.
  intros H. apply Forall_forall. intros rel Hrel. apply exists_after.
  rewrite forallb_forall in H. by apply H, list_elem_of_In.
Qed.

Lemma read_after rel c :
  plain rel → utf8_decode c = c →
  (∀ prev, foldl (step_rel (clock w0) (split slash rel)) prev (steps project)
           = Some (File c (clock w0))) →
  readFileSync w (join root rel) = inr c.
Proof.
  intros Hrel Hc H. unfold readFileSync.
  rewrite entry_at_eq by (apply join_nonempty || by apply join_plain_no_trailing).
  rewrite (resolve_root project w0 w1 d cwd_normal scaffolded)
    by (by apply plain_nonempty).
  rewrite foldl_walk_normal by done.
  rewrite node_at_app, lookup_after by apply split_nonempty. by rewrite H, Hc.
Qed.

Lemma design_docs_listed_after :
  readdirSync w (join root "docs/design-docs")
  = inr (children (files w) (base ++ ["docs"; "design-docs"])).
Proof.
  unfold readdirSync.
  rewrite entry_at_eq by (apply join_nonempty || apply join_plain_no_trailing; plain_path).
  rewrite (design_docs_key project w0 w1 d cwd_normal scaffolded).
  pose proof (scaffold_settled _ _ _ scaffolded) as Hs.
  destruct (steps_head project) as [rest Hsteps]. rewrite Hsteps in Hs.
  inversion Hs as [|? ? Hhead _]; subst. simpl in Hhead.
  destruct (Hhead (base ++ ["docs"; "design-docs"])) as [t Ht]; [done|].
  change (files w) with (files w1). by rewrite Ht.
Qed.

Lemma design_docs_indexed_after :
  "index.md" ∈ children (files w) (base ++ ["docs"; "design-docs"]).
Proof.
  apply children_elem. rewrite <- app_assoc. simpl.
  rewrite lookup_after by done. by rewrite design_docs_index_written.
Qed.

Lemma design_docs_stat file :
  file ∈ children (files w) (base ++ ["docs"; "design-docs"]) →
  ∃ mtimeMs, statSync_mtimeMs w (join (join root "docs/design-docs") file) = inr mtimeMs.
Proof.
  intros Hfile. apply children_elem in Hfile as [n Hn].
  rewrite <- app_assoc in Hn. simpl in Hn.
  assert (normal_seg file) as Hnormal.
  { pose proof Hn as Hn'. rewrite lookup_after in Hn' by done.
    destruct (foldl_step_rel_normal _ _ _ _ _ (steps_plain project) Hn') as [Hprev|Hr].
    - apply names_normal in Hprev. apply Forall_app in Hprev as [_ Hprev].
      rewrite !Forall_cons in Hprev. tauto.
    - rewrite !Forall_cons in Hr. tauto. }
  pose proof Hnormal as (Hne & _ & _ & Hsf).
  exists (mtimeMs_of n). unfold statSync_mtimeMs.
  assert (plain file) as Hplain by (unfold plain; rewrite Hsf; by constructor).
  rewrite entry_at_eq by (apply join_nonempty || by apply join_plain_no_trailing).
  rewrite resolve_join by (apply join_nonempty || done).
  rewrite (design_docs_key project w0 w1 d cwd_normal scaffolded), Hsf. cbn [foldl].
  rewrite walk_normal by done.
  rewrite node_at_app by done. rewrite <- app_assoc. simpl.
  by rewrite Hn.
Qed.

(** The pass completes; it records no error, and warnings for stale design
    documents only. *)
Lemma scaffolded_validates :
  ∃ found out,
    validate w (new_StructureValidator root)
    = (Return true, {| rootDir := root; errors := []; warnings := stale <$> found;
                       stdout := out |}).
Proof.
  pose proof (required_created project) as Hreq.
  apply all_after in Hreq. rewrite !Forall_cons in Hreq.
  set (guide := getAgentsTemplate (projectType project)).
  assert (readFileSync w (join root "AGENTS.md") = inr guide) as Hagents
    by (apply read_after; [plain_path|apply guide_utf8|apply agents_written]).
  assert (readFileSync w (join root "CLAUDE.md") = inr guide) as Hclaude
    by (apply read_after; [plain_path|apply guide_utf8|apply claude_written]).
  set (entries := children (files w) (base ++ ["docs"; "design-docs"])).
  set (docs := List.filter (λ f, endsWith f ".md") entries).
  set (mt := λ file,
         match statSync_mtimeMs w (join (join root "docs/design-docs") file) with
         | inr t => t
         | inl _ => 0%Z
         end).
  assert ("index.md" ∈ docs) as Hindex.
  { apply list_elem_of_In, filter_In. split; [|done].
    apply list_elem_of_In, design_docs_indexed_after. }
  assert ((length docs =? 0)%nat = false) as Hlen.
  { destruct docs; [by apply elem_of_nil in Hindex|done]. }
  eexists _, _. unfold validate.
  erewrite bind_Return by done.
  erewrite bind_Return; cycle 1.
  { apply (validateRootDocs_clean w root guide); try done.
    - rewrite !Forall_cons; tauto.
    - apply guide_is_short. }
  erewrite bind_Return; cycle 1.
  { apply (validateDocsStructure_clean w root); try done; rewrite !Forall_cons; tauto. }
  erewrite bind_Return; cycle 1.
  { apply (validateCrossLinks_clean w root guide); try done.
    apply all_after, links_created. }
  erewrite bind_Return; cycle 1.
  { apply (validateDocFreshness_eq w _ entries mt).
    - apply design_docs_listed_after.
    - apply Forall_forall. intros file Hfile _. unfold mt. simpl.
      apply list_elem_of_In, filter_In in Hfile as [Hfile _].
      apply list_elem_of_In in Hfile.
      by destruct (design_docs_stat file Hfile) as [t ->]. }
  fold docs. rewrite Hlen.
  erewrite bind_Return by apply printResults_report.
  erewrite bind_Return by done. simpl. reflexivity.
Qed.
End scaffolded.

(** X21. After a run of the scaffolder that succeeds, into a fresh target
    or over an existing project, the validator run in the project directory
    completes with exit code 0 and without errors, at whatever later time;
    the only warnings it can record are those for stale design documents.
    The tree before the run has to be well-formed: its entries have proper
    names. *)
Theorem scaffolded_tree_passes_validation project w0 w1 d :
  Forall normal_seg (cwd w0) → well_named w0 →
  scaffold project w0 = (Return tt, w1) →
  let run := validate_structure (later d (chdir (path project) w1)) in
  run.1 = 0%Z ∧ errors run.2 = [] ∧
  Forall (λ warning, ∃ file, warning = stale file) (warnings run.2).
Proof.
  intros Hcwd Hnames H run.
  destruct (scaffolded_validates project w0 w1 d Hcwd Hnames H) as (found & out & E).
  unfold run, validate_structure, script.
  erewrite bind_Return by exact E. simpl. split_and!; [done..|].
  apply Forall_fmap, Forall_forall. intros file _. by exists file.
Qed.

Lemma scaffolded_tree_passes_validation_witness :
  let run := validate_structure
               (later 86400000 (chdir "svc" (scaffold backend_js_plain svc_in_use).2)) in
  run.1 = 0%Z ∧ errors run.2 = [] ∧
  Forall (λ warning, ∃ file, warning = stale file) (warnings run.2).
Proof.
  apply (scaffolded_tree_passes_validation backend_js_plain svc_in_use
           (scaffold backend_js_plain svc_in_use).2 86400000).
  - apply (bool_decide_unpack _). vm_compute. exact I.
  - apply (bool_decide_unpack _). vm_compute. exact I.
  - apply returned. vm_compute. reflexivity.
Defined.

(** ** When the validator accepts a tree *)

Lemma filter_nil_Forall {A} (c : A → bool) xs :
  List.filter c xs = [] → Forall (λ x, c x = false) xs.
Proof.
  induction xs as [|x xs IH]; [done|]. simpl.
  destruct (c x) eqn:E; [done|]. intros H. constructor; [done|by apply IH].
Qed.

Lemma checks_grow w :
  respects grows (validateRootDocs w) ∧ respects grows (validateDocsStructure w).
Proof.
  unfold validateRootDocs, validateDocsStructure.
  split; respecting ltac:(apply push_grows).
Qed.

(** The errors [validateRootDocs] records when it returns. *)
Lemma validateRootDocs_errors w v v' :
  validateRootDocs w v = (Return tt, v') →
  errors v'
  = (errors v ++
     ((λ doc, "Missing required document: " +:+ doc) <$>
        List.filter (λ doc, negb (existsSync w (join (rootDir v) doc)))
          [ "AGENTS.md"; "CLAUDE.md"; "ARCHITECTURE.md"; "DESIGN.md"; "PLANS.md";
            "PRODUCT_SENSE.md"; "QUALITY_SCORE.md"; "RELIABILITY.md"; "SECURITY.md" ])) ++
    (if existsSync w (join (rootDir v) "AGENTS.md") &&
        existsSync w (join (rootDir v) "CLAUDE.md") &&
        negb (bool_decide (readFileSync w (join (rootDir v) "AGENTS.md")
                           = readFileSync w (join (rootDir v) "CLAUDE.md")))
     then ["AGENTS.md and CLAUDE.md must be identical"] else []).
Proof.
  unfold validateRootDocs. intros H.
  erewrite bind_Return in H by done. cbv zeta in H.
  erewrite bind_Return in H by apply for_of_errors.
  apply bind_Return_inv in H as ([] & va & Ha & Hb).
  assert (errors v' = errors va) as ->.
  { revert Hb. generalize va. 
    assert (respects warns_only
              (when_ (existsSync w (join (rootDir v) "AGENTS.md"))
                 (agentsContent ← try_ (readFileSync w (join (rootDir v) "AGENTS.md"));
                  when_ (150 <? length (split (Ascii.ascii_of_nat 10) agentsContent))%nat
                    (warnings_push
                       ("AGENTS.md is " +:+
                        pretty (length (split (Ascii.ascii_of_nat 10) agentsContent)) +:+
                        " lines (recommended: ~100 lines). Consider moving details to docs/")))))
      as Hw by respecting ltac:(apply warnings_push_warns_only).
    intros v0 H0. by apply Hw in H0 as (_ & ? & _). }
  destruct (existsSync w (join (rootDir v) "AGENTS.md") &&
            existsSync w (join (rootDir v) "CLAUDE.md")); simpl in Ha |- *.
  - destruct (readFileSync w (join (rootDir v) "AGENTS.md")) as [e|a]; [done|].
    destruct (readFileSync w (join (rootDir v) "CLAUDE.md")) as [e|c]; [done|].
    cbv [mbind eff_bind mret eff_ret try_ when_ errors_push] in Ha.
    destruct (String.eqb a c) eqn:E; simpl in Ha; injection Ha as <-; simpl.
    + apply String.eqb_eq in E as ->. rewrite bool_decide_eq_true_2 by done.
      simpl. by rewrite app_nil_r.
    + apply String.eqb_neq in E. rewrite bool_decide_eq_false_2 by congruence. done.
  - injection Ha as <-. simpl. by rewrite app_nil_r.
Qed.

(** The errors of a pass that completes: the required documents that do not
    exist, the guide files if they differ, and the required directories that
    do not exist. *)
Lemma validate_errors w v b v' :
  validate w v = (Return b, v') →
  errors v'
  = ((errors v ++
      ((λ doc, "Missing required document: " +:+ doc) <$>
         List.filter (λ doc, negb (existsSync w (join (rootDir v) doc)))
           [ "AGENTS.md"; "CLAUDE.md"; "ARCHITECTURE.md"; "DESIGN.md"; "PLANS.md";
             "PRODUCT_SENSE.md"; "QUALITY_SCORE.md"; "RELIABILITY.md"; "SECURITY.md" ])) ++
     (if existsSync w (join (rootDir v) "AGENTS.md") &&
         existsSync w (join (rootDir v) "CLAUDE.md") &&
         negb (bool_decide (readFileSync w (join (rootDir v) "AGENTS.md")
                            = readFileSync w (join (rootDir v) "CLAUDE.md")))
      then ["AGENTS.md and CLAUDE.md must be identical"] else [])) ++
    ((λ dir, "Missing required directory: " +:+ dir) <$>
       List.filter (λ dir, negb (existsSync w (join (rootDir v) dir)))
         [ "docs/design-docs"; "docs/exec-plans/active"; "docs/exec-plans/completed";
           "docs/product-specs"; "docs/references"; "docs/generated" ]).
Proof.
  unfold validate. intros H.
  erewrite bind_Return in H by done.
  apply bind_Return_inv in H as ([] & v2 & H2 & H).
  apply bind_Return_inv in H as ([] & v3 & H3 & H).
  apply bind_Return_inv in H as ([] & v4 & H4 & H).
  apply bind_Return_inv in H as ([] & v5 & H5 & H).
  erewrite bind_Return in H by apply printResults_report.
  injection H as _ <-. simpl.
  apply validateDocFreshness_warns_only in H5 as (_ & -> & _).
  apply validateCrossLinks_warns_only in H4 as (_ & -> & _).
  pose proof (proj1 (checks_grow w) _ _ _ H2) as (Hroot & _).
  rewrite validateDocsStructure_eq in H3. injection H3 as <-. simpl.
  rewrite Hroot. simpl.
  by rewrite (validateRootDocs_errors _ _ _ H2).
Qed.

(** X22. When the validator accepts a tree.  The run ends with exit code 0
    exactly when the pass completes, each of the nine required documents and
    of the six required directories exists, and AGENTS.md and CLAUDE.md read
    the same.  Nothing else decides the exit code: not the line count of the
    guide, not the index files, not the links, not the age of the design
    documents. *)
Theorem validator_acceptance_criterion w :
  let root := process_cwd w in
  (validate_structure w).1 = 0%Z ↔
    (∃ b, (validate w (new_StructureValidator root)).1 = Return b) ∧
    Forall (λ rel, existsSync w (join root rel) = true)
      [ "AGENTS.md"; "CLAUDE.md"; "ARCHITECTURE.md"; "DESIGN.md"; "PLANS.md";
        "PRODUCT_SENSE.md"; "QUALITY_SCORE.md"; "RELIABILITY.md"; "SECURITY.md";
        "docs/design-docs"; "docs/exec-plans/active"; "docs/exec-plans/completed";
        "docs/product-specs"; "docs/references"; "docs/generated" ] ∧
    readFileSync w (join root "AGENTS.md") = readFileSync w (join root "CLAUDE.md").
Proof.
  cbv zeta. unfold validate_structure, script.
  set (pass := validate w). unfold mbind, eff_bind. subst pass.
  destruct (validate w (new_StructureValidator (process_cwd w))) as [[b|e|c] v'] eqn:E; simpl.
  - pose proof (validate_Return _ _ _ _ E) as ->.
    pose proof (validate_errors _ _ _ _ E) as Herr.
    unfold new_StructureValidator in Herr. cbn [errors rootDir app] in Herr.
    set (docs := [ "AGENTS.md"; "CLAUDE.md"; "ARCHITECTURE.md"; "DESIGN.md"; "PLANS.md";
                   "PRODUCT_SENSE.md"; "QUALITY_SCORE.md"; "RELIABILITY.md";
                   "SECURITY.md" ]) in *.
    set (dirs := [ "docs/design-docs"; "docs/exec-plans/active"; "docs/exec-plans/completed";
                   "docs/product-specs"; "docs/references"; "docs/generated" ]) in *.
    change (Forall ?P (_ :: _)) with (Forall P (docs ++ dirs)).
    rewrite Forall_app. split.
    + intros H0. assert (errors v' = []) as Hnil
        by (destruct (errors v'); [done|simpl in H0; done]).
      rewrite Hnil in Herr. symmetry in Herr.
      apply app_eq_nil in Herr as [Herr Hdirs]. apply app_eq_nil in Herr as [Hdocs Hsame].
      apply fmap_nil_inv, filter_nil_Forall in Hdocs, Hdirs.
      assert (Forall (λ rel, existsSync w (join (process_cwd w) rel) = true) docs) as Hd.
      { eapply Forall_impl; [exact Hdocs|]. intros rel Hrel. by apply negb_false_iff. }
      split_and!; [by eexists|done| |].
      * eapply Forall_impl; [exact Hdirs|]. intros rel Hrel. by apply negb_false_iff.
      * unfold docs in Hd. rewrite !Forall_cons in Hd. destruct Hd as (Ha & Hc & _).
        rewrite Ha, Hc in Hsame. simpl in Hsame.
        by case_bool_decide.
    + intros (_ & [Hdocs Hdirs] & Hsame).
      assert (errors v' = []) as ->; [|done].
      rewrite Herr, !filter_none, Hsame.
      * rewrite bool_decide_eq_true_2 by done. simpl. by rewrite andb_false_r.
      * eapply Forall_impl; [exact Hdirs|]. by intros rel ->.
      * eapply Forall_impl; [exact Hdocs|]. by intros rel ->.
  - split; [done|]. by intros [[b ?] _].
  - by apply validate_never_exits in E.
Qed.

(** ** The validator run from the scripts directory *)

Lemma nothing_below_scripts project t rel :
  rel ∈ [ "AGENTS.md"; "CLAUDE.md"; "ARCHITECTURE.md"; "DESIGN.md"; "PLANS.md";
          "PRODUCT_SENSE.md"; "QUALITY_SCORE.md"; "RELIABILITY.md"; "SECURITY.md";
          "docs/design-docs"; "docs/exec-plans/active"; "docs/exec-plans/completed";
          "docs/product-specs"; "docs/references"; "docs/generated";
          "docs/design-docs/index.md"; "docs/product-specs/index.md" ] →
  plain rel ∧
  foldl (step_rel t ("scripts" :: split slash rel)) None (steps project) = None.
Proof.
  intros Hrel.
  repeat (apply elem_of_cons in Hrel as [->|Hrel]; [split; [plain_path|by_steps]|]).
  by apply elem_of_nil in Hrel.
Qed.

Lemma validate_in_scripts project w0 w1 d :
  empty_target w0 (path project) → Forall normal_seg (cwd w0) →
  scaffold project w0 = (Return tt, w1) →
  ∀ rel,
    rel ∈ [ "AGENTS.md"; "CLAUDE.md"; "ARCHITECTURE.md"; "DESIGN.md"; "PLANS.md";
            "PRODUCT_SENSE.md"; "QUALITY_SCORE.md"; "RELIABILITY.md"; "SECURITY.md";
            "docs/design-docs"; "docs/exec-plans/active"; "docs/exec-plans/completed";
            "docs/product-specs"; "docs/references"; "docs/generated";
            "docs/design-docs/index.md"; "docs/product-specs/index.md" ] →
    let w := later d (chdir (join (path project) "scripts") w1) in
    existsSync w (join (process_cwd w) rel) = false.
Proof.
  intros Hfresh Hcwd H rel Hrel w.
  pose proof (scaffold_lookup _ _ _ H) as (HP & Hc & _ & _).
  destruct (nothing_below_scripts project (clock w0) rel Hrel) as [Hplain Hnone].
  assert (cwd w = resolve (cwd w0) (path project) ++ ["scripts"]) as Hcw.
  { unfold w. simpl. rewrite Hc. by rewrite resolve_join_plain by (done || plain_path). }
  assert (Forall normal_seg (cwd w)) as Hnormal.
  { rewrite Hcw. apply Forall_app. split; [by apply resolve_normal|].
    repeat constructor; done. }
  apply existsSync_absent.
  rewrite resolve_join by (apply process_cwd_nonempty || by apply plain_nonempty).
  rewrite resolve_process_cwd by done. rewrite foldl_walk_normal by done.
  rewrite node_at_app by apply split_nonempty.
  rewrite Hcw, <- app_assoc. change (files w) with (files w1). simpl.
  rewrite (scaffold_lookup_rel _ _ _ _ H) by done.
  by rewrite (empty_target_lookup _ _ _ Hfresh), Hnone.
Qed.

(** X23. The validator takes the working directory for the project root.
    Run from the scripts directory of a project scaffolded into an empty
    target (the project path without [..] and ending in a name), where the
    script and, for TypeScript, its manifest are, it looks for the
    project's documents below that directory, finds none of them, records
    the same fifteen errors and two warnings as in an empty directory, and
    ends with exit code 1. *)
Theorem validator_fails_in_the_scripts_directory project w0 w1 d :
  straight (path project) →
  empty_target w0 (path project) → Forall normal_seg (cwd w0) →
  scaffold project w0 = (Return tt, w1) →
  let run := validate_structure (later d (chdir (join (path project) "scripts") w1)) in
  run.1 = 1%Z ∧ length (errors run.2) = 15 ∧ length (warnings run.2) = 2 ∧
  "Missing required document: AGENTS.md" ∈ errors run.2.
Proof.
  intros _ Hempty Hcwd H run. unfold run.
  rewrite validate_where_nothing_is.
  - simpl. split_and!; [done..|]. left.
  - intros rel Hrel. by apply (validate_in_scripts project w0 w1 d).
Qed.

Lemma validator_fails_in_the_scripts_directory_witness :
  let run := validate_structure
               (later 0 (chdir (join "./my-agent-project" "scripts")
                           (scaffold fullstack_ts_ci home).2)) in
  run.1 = 1%Z ∧ length (errors run.2) = 15 ∧ length (warnings run.2) = 2 ∧
  "Missing required document: AGENTS.md" ∈ errors run.2.
Proof.
  apply (validator_fails_in_the_scripts_directory fullstack_ts_ci home
           (scaffold fullstack_ts_ci home).2 0).
  - apply (bool_decide_unpack _). vm_compute. exact I.
  - apply (bool_decide_unpack _). vm_compute. exact I.
  - apply (bool_decide_unpack _). vm_compute. exact I.
  - apply returned. vm_compute. reflexivity.
Defined.
